(** * Inner Sea calendar: a shallow embedding of
      [roll20/utils/inner_sea_calendar.py] and its date arithmetic.

    The script works on Python integers, which are unbounded, and on
    binary64 floats.  A finite float is modelled by the rational number it
    denotes ([Q], kept in lowest terms), and every float operation by the
    exact operation followed by rounding to binary64, to nearest with ties
    to even ([Py.round64]); a result of magnitude [2^1024] or more leaves
    the finite floats, and every path of the script from there ends in an
    [OverflowError], which the operation raises at once ([Py.fl]).

    Beside the script stands the same computation in exact arithmetic
    ([Module Exact]).  The two agree as long as every float the script
    forms is an exact multiple of 1/8 and its two quotients,
    [epocDay / yearLength] and [epocDay / MOON_PERIOD], round to the right
    side of the next integer: for epoch days below [2^50], and for dates
    with years up to [2^41] and day numbers up to [2^40].  Beyond, the
    script drifts from the calendar; the properties below carry these
    bounds. *)

From Stdlib Require Import ZArith QArith Qround Qabs Qcanon.
From Stdlib Require Import List String Ascii Bool Lia.
From Stdlib Require Import Decimal DecimalString Lqa.
Import ListNotations.

Local Open Scope Z_scope.

(** ** Python values and operations used by the script *)

Module Py.

(** What a call can end in: a value, an uncaught exception, or (in the
    model only) a loop that was cut by its iteration budget. *)
Inductive exn : Type := IndexError | OverflowError.

Inductive result (A : Type) : Type :=
| Ok (a : A)
| Raise (e : exn)
| OutOfFuel.

Arguments Ok {A} a.
Arguments Raise {A} e.
Arguments OutOfFuel {A}.

Definition bind {A B : Type} (r : result A) (k : A -> result B) : result B :=
  match r with
  | Ok a => k a
  | Raise e => Raise e
  | OutOfFuel => OutOfFuel
  end.

(** The integer nearest to [n / d], for [d > 0], a tie going to the even
    one. *)
Definition rne (n d : Z) : Z :=
  let q := n / d in
  match 2 * (n mod d) ?= d with
  | Lt => q
  | Gt => q + 1
  | Eq => if Z.even q then q else q + 1
  end.

(** [2^k] as a rational, for any integer [k]. *)
Definition pow2 (k : Z) : Q :=
  (2 ^ Z.max 0 k) # Z.to_pos (2 ^ Z.max 0 (- k)).

(** The significand [m] and the exponent [k] of the binary64 value nearest
    to [n / d], for [n, d > 0]: [k] is chosen so that [n / d / 2^k] lies
    between [2^52] and [2^53], and [m] is the integer nearest to it. *)
Definition round_pos (n d : Z) : Z * Z :=
  let e := Z.log2 n - Z.log2 d - 53 in
  let num := n * 2 ^ Z.max 0 (- e) in
  let den := d * 2 ^ Z.max 0 e in
  if num <? den * 2 ^ 53 then (rne num den, e)
  else (rne num (2 * den), e + 1).

(** Rounding of a real number to a float of 53 significant bits, to
    nearest and ties to even.  The exponent is not bounded here: [fl]
    below checks the upper end, and the script forms no nonzero value of
    magnitude under 1/366, far from the lower end. *)
Definition round64 (x : Q) : Q :=
  match Qnum x with
  | 0 => 0
  | Z.pos p =>
      let '(m, k) := round_pos (Z.pos p) (Z.pos (Qden x)) in
      Qred (inject_Z m * pow2 k)
  | Z.neg p =>
      let '(m, k) := round_pos (Z.pos p) (Z.pos (Qden x)) in
      Qred (- (inject_Z m * pow2 k))
  end.

(** A float operation on the exact result [x]: it is rounded, and a
    rounded magnitude of [2^1024] or more is the overflow that the script
    meets as an [OverflowError], either in the int-to-float conversion
    itself or in the [int(...)] of the infinity that follows. *)
Definition fl (x : Q) : result Q :=
  let y := round64 x in
  if Qle_bool (inject_Z (2 ^ 1024)) (Qabs y) then Raise OverflowError
  else Ok y.

(** The promotion of an int operand to float, and the four operations
    [+], [-], [*], [/] on floats (the script's two divisors are the
    nonzero constants [yearLength] and [MOON_PERIOD]). *)
Definition float (n : Z) : result Q := fl (inject_Z n).
Definition fadd (a b : Q) : result Q := fl (a + b).
Definition fsub (a b : Q) : result Q := fl (a - b).
Definition fmul (a b : Q) : result Q := fl (a * b).
Definition fdiv (a b : Q) : result Q := fl (a / b).

(** [int(x)] on a float: truncation toward zero. *)
Definition int (x : Q) : Z := Z.quot (Qnum x) (Zpos (Qden x)).

(** [math.ceil(x)], as the integer it denotes. *)
Definition ceil (x : Q) : Z := Qceiling x.

(** [len(l)]. *)
Definition len {A : Type} (l : list A) : Z := Z.of_nat (List.length l).

(** [sum(l)] on a list of ints: a left fold from 0. *)
Definition sum (l : list Z) : Z := fold_left Z.add l 0.

(** [l[:k]]: a negative bound counts from the end, and the bound is
    clipped to the list. *)
Definition slice_to {A : Type} (l : list A) (k : Z) : list A :=
  if k <? 0 then firstn (Z.to_nat (len l + k)) l
  else firstn (Z.to_nat k) l.

(** [l[i]]: a negative index counts from the end; outside
    [-len(l) .. len(l)-1] the access raises [IndexError]. *)
Definition index {A : Type} (l : list A) (i : Z) : result A :=
  let j := if i <? 0 then len l + i else i in
  if j <? 0 then Raise IndexError
  else match nth_error l (Z.to_nat j) with
       | Some a => Ok a
       | None => Raise IndexError
       end.

(** [str(n)] on an int: its decimal digits, with a leading minus sign
    when negative. *)
Definition str (n : Z) : string := NilZero.string_of_int (Z.to_int n).

(** The one-character string written [\n] in the script. *)
Definition nl : string := String "010"%char EmptyString.

End Py.

Import Py.

Notation "x <- c1 ;; c2" := (Py.bind c1 (fun x => c2))
  (at level 61, c1 at next level, right associativity).

(** ** Calendar constants *)

Definition MONTH_DAYS : list Z := [31; 28; 31; 30; 31; 30; 31; 31; 30; 31; 30; 31].
Definition LEAP_DAYS : list Z := [31; 29; 31; 30; 31; 30; 31; 31; 30; 31; 30; 31].
Definition YEAR_LENGTH : Z := Py.sum MONTH_DAYS.
Definition LEAP_YEAR : Z := 8.
Definition MOON_PERIOD : Q := 59 # 2.

Definition WEEK : list string :=
  ["Moonday"; "Toilday"; "Wealday"; "Oathday"; "Fireday"; "Starday"; "Sunday"]%string.

Definition MONTH : list string :=
  ["Abadius"; "Calistril"; "Pharast"; "Gozren"; "Desnus"; "Sarenith";
   "Erastus"; "Arodus"; "Rova"; "Lamashan"; "Neth"; "Kuthona"]%string.

Definition MOON_PHASES : list string :=
  ["Full Moon"; "Waning Gibbous"; "Third Quarter"; "Waning Crescent";
   "New Moon"; "Waxing Crescent"; "First Quarter"; "Waxing Gibbous"]%string.
Definition PHASE_LENGTH : list Z := [3; 4; 4; 4; 2; 4; 4; 4].
Definition BRIGHTNESS : list Z := [3; 2; 2; 1; 0; 1; 2; 2].

(** ** Epoch conversion *)

(** The expression [(YEAR_LENGTH + ( 1.0 / LEAP_YEAR))] that [getYear],
    [getDayInYear] and [getEpocDay] each evaluate. *)
Definition yearLength : result Q :=
  leap <- Py.float LEAP_YEAR ;;
  eighth <- Py.fdiv 1 leap ;;
  days <- Py.float YEAR_LENGTH ;;
  Py.fadd days eighth.

(** [math.ceil] returns a float of integer value and [int(year)] the int
    of that value: [Py.ceil] gives this integer at once. *)
Definition getYear (epocDay : Z) : result Z :=
  yearLength <- yearLength ;;
  e <- Py.float epocDay ;;
  q <- Py.fdiv e yearLength ;;
  let year := Py.ceil q in
  Ok year.

Definition getDayInYear (epocDay : Z) : result Z :=
  year <- getYear epocDay ;;
  yearLength <- yearLength ;;
  y1 <- Py.float (year - 1) ;;
  p <- Py.fmul y1 yearLength ;;
  e <- Py.float epocDay ;;
  d <- Py.fsub e p ;;
  let dayInYear := Py.int d + 1 in
  Ok dayInYear.

(** The [while dayInYear > cal[month]] loop that [getMonthInYear] and
    [getDayInMonth] both run; it returns the final [(dayInYear, month)]. *)
Fixpoint month_walk (fuel : nat) (cal : list Z) (dayInYear month : Z)
  : result (Z * Z) :=
  match fuel with
  | O => OutOfFuel
  | S fuel' =>
      c <- Py.index cal month ;;
      if dayInYear >? c
      then month_walk fuel' cal (dayInYear - c) (month + 1)
      else Ok (dayInYear, month)
  end.

(** [month] only grows from 0 and [cal[month]] raises once it reaches
    [len(cal)], so the loop runs its test at most [len(cal) + 1] times. *)
Definition walk_budget (cal : list Z) : nat := S (List.length cal).

Definition getMonthInYear (epocDay : Z) : result Z :=
  let cal := MONTH_DAYS in
  year <- getYear epocDay ;;
  let isLeapYear := year mod 8 =? 0 in
  let cal := if isLeapYear then LEAP_DAYS else cal in
  dayInYear <- getDayInYear epocDay ;;
  let month := 0 in
  st <- month_walk (walk_budget cal) cal dayInYear month ;;
  Ok (snd st + 1).

Definition getDayInMonth (epocDay : Z) : result Z :=
  let cal := MONTH_DAYS in
  year <- getYear epocDay ;;
  let isLeapYear := year mod 8 =? 0 in
  let cal := if isLeapYear then LEAP_DAYS else cal in
  dayInYear <- getDayInYear epocDay ;;
  let month := 0 in
  st <- month_walk (walk_budget cal) cal dayInYear month ;;
  Ok (fst st).

Definition getEpocDay (day month year : Z) : result Z :=
  let cal := MONTH_DAYS in
  let isLeapYear := year mod 8 =? 0 in
  let cal := if isLeapYear then LEAP_DAYS else cal in
  yearLength <- yearLength ;;
  y1 <- Py.float (year - 1) ;;
  epocDay <- Py.fmul yearLength y1 ;;
  s <- Py.float (Py.sum (Py.slice_to cal (month - 1))) ;;
  epocDay <- Py.fadd epocDay s ;;
  d <- Py.float day ;;
  epocDay <- Py.fadd epocDay d ;;
  Ok (Py.int epocDay).

(** ** Weekday *)

Definition getDayOfWeek (day month year : Z) : result Z :=
  epocDay <- getEpocDay day month year ;;
  let dayOfWeek := (epocDay - 1) mod Py.len WEEK + 1 in
  Ok dayOfWeek.

Definition getEpocDayOfWeek (epocDay : Z) : Z :=
  (epocDay - 1) mod Py.len WEEK + 1.

Definition getNamedDayOfWeek (day month year : Z) : result string :=
  dayOfWeek <- getDayOfWeek day month year ;;
  Py.index WEEK (dayOfWeek - 1).

(** ** Moon phase *)

(** The [while (moonDay > 0)] loop of [getMoonPhase]; it returns the final
    [phase]. *)
Fixpoint phase_walk (fuel : nat) (moonDay phase : Z) : result Z :=
  match fuel with
  | O => OutOfFuel
  | S fuel' =>
      if moonDay >? 0 then
        c <- Py.index PHASE_LENGTH phase ;;
        let moonDay := moonDay - c in
        let phase := if moonDay >? 0 then phase + 1 else phase in
        phase_walk fuel' moonDay phase
      else Ok phase
  end.

(** A pass through the body either leaves [moonDay <= 0], which ends the
    loop at the next test, or advances [phase], and [PHASE_LENGTH[phase]]
    raises at [len(PHASE_LENGTH)]: at most [len(PHASE_LENGTH) + 1] tests. *)
Definition phase_budget : nat := S (List.length PHASE_LENGTH).

(** The position in the lunar cycle that [getMoonPhase] reduces an epoch day
    to: [epocDay - int(MOON_PERIOD * int(epocDay / MOON_PERIOD))]. *)
Definition moonDayOf (epocDay : Z) : result Z :=
  e <- Py.float epocDay ;;
  q <- Py.fdiv e MOON_PERIOD ;;
  k <- Py.float (Py.int q) ;;
  p <- Py.fmul MOON_PERIOD k ;;
  Ok (epocDay - Py.int p).

Definition getMoonPhase (day month year : Z) : result string :=
  epocDay <- getEpocDay day month year ;;
  moonDay <- moonDayOf epocDay ;;
  let phase := 0 in
  phase <- phase_walk phase_budget moonDay phase ;;
  Py.index MOON_PHASES phase.

(** ** Month renderer *)

Local Open Scope string_scope.

(** The [while today <= epocEndDay] loop of [calendar], threading the
    string built so far. *)
Fixpoint calendar_rows (fuel : nat) (epocStartDay epocEndDay today : Z)
  (html : string) : result string :=
  match fuel with
  | O => OutOfFuel
  | S fuel' =>
      if (today <=? epocEndDay)%Z then
        let html :=
          if (getEpocDayOfWeek today =? 1)%Z then html ++ "<tr>" ++ nl else html in
        html <-
          (if (today <? epocStartDay)%Z then Ok (html ++ "<td></td>" ++ nl)
           else d <- getDayInMonth today ;;
                Ok (html ++ "<td>" ++ Py.str d ++ "</td>" ++ nl)) ;;
        let html :=
          if (getEpocDayOfWeek today =? 7)%Z then html ++ "</tr>" ++ nl else html in
        calendar_rows fuel' epocStartDay epocEndDay (today + 1)%Z html
      else Ok html
  end.

(** [today] grows by one per pass, so the test runs
    [epocEndDay - today + 2] times when [today <= epocEndDay + 1]. *)
Definition rows_budget (epocEndDay today : Z) : nat :=
  S (Z.to_nat (epocEndDay + 1 - today)).

Definition calendar (month year : Z) : result string :=
  let cal := MONTH_DAYS in
  let isLeapYear := (year mod 8 =? 0)%Z in
  let cal := if isLeapYear then LEAP_DAYS else cal in
  epocStartDay <- getEpocDay 1 month year ;;
  lastDay <- Py.index cal (month - 1) ;;
  epocEndDay <- getEpocDay lastDay month year ;;
  name <- Py.index MONTH (month - 1) ;;
  let html := "<h2>" ++ name ++ "</h2>" ++ nl in
  let html := html ++ "<table>" ++ nl in
  let html := html ++ "<tr>" ++ nl in
  let html :=
    fold_left (fun html name => html ++ "<th>" ++ name ++ "</th>" ++ nl) WEEK html in
  let html := html ++ "</tr>" ++ nl in
  let today := (epocStartDay + 1 - getEpocDayOfWeek epocStartDay)%Z in
  html <- calendar_rows (rows_budget epocEndDay today)
            epocStartDay epocEndDay today html ;;
  let html := html ++ "</table>" in
  Ok html.

Local Close Scope string_scope.

(** ** The script in exact arithmetic

    The same functions with every float operation carried out exactly and
    nothing overflowing: what the script computes where its floats are
    exact, and the calendar it is meant to compute everywhere. *)

Module Exact.

Definition getYear (epocDay : Z) : Z :=
  let yearLength := (inject_Z YEAR_LENGTH + 1 / inject_Z LEAP_YEAR)%Q in
  let year := Py.ceil (inject_Z epocDay / yearLength) in
  year.

Definition getDayInYear (epocDay : Z) : Z :=
  let year := getYear epocDay in
  let yearLength := (inject_Z YEAR_LENGTH + 1 / inject_Z LEAP_YEAR)%Q in
  let dayInYear :=
    Py.int (inject_Z epocDay - inject_Z (year - 1) * yearLength) + 1 in
  dayInYear.

Definition getMonthInYear (epocDay : Z) : result Z :=
  let cal := MONTH_DAYS in
  let isLeapYear := getYear epocDay mod 8 =? 0 in
  let cal := if isLeapYear then LEAP_DAYS else cal in
  let dayInYear := getDayInYear epocDay in
  let month := 0 in
  st <- month_walk (walk_budget cal) cal dayInYear month ;;
  Ok (snd st + 1).

Definition getDayInMonth (epocDay : Z) : result Z :=
  let cal := MONTH_DAYS in
  let isLeapYear := getYear epocDay mod 8 =? 0 in
  let cal := if isLeapYear then LEAP_DAYS else cal in
  let dayInYear := getDayInYear epocDay in
  let month := 0 in
  st <- month_walk (walk_budget cal) cal dayInYear month ;;
  Ok (fst st).

Definition getEpocDay (day month year : Z) : Z :=
  let cal := MONTH_DAYS in
  let isLeapYear := year mod 8 =? 0 in
  let cal := if isLeapYear then LEAP_DAYS else cal in
  let epocDay :=
    ((inject_Z YEAR_LENGTH + 1 / inject_Z LEAP_YEAR) * inject_Z (year - 1))%Q in
  let epocDay := (epocDay + inject_Z (Py.sum (Py.slice_to cal (month - 1))))%Q in
  let epocDay := (epocDay + inject_Z day)%Q in
  Py.int epocDay.

Definition getDayOfWeek (day month year : Z) : Z :=
  let epocDay := getEpocDay day month year in
  let dayOfWeek := (epocDay - 1) mod Py.len WEEK + 1 in
  dayOfWeek.

Definition moonDayOf (epocDay : Z) : Z :=
  epocDay - Py.int (MOON_PERIOD * inject_Z (Py.int (inject_Z epocDay / MOON_PERIOD))).

Definition getMoonPhase (day month year : Z) : result string :=
  let epocDay := getEpocDay day month year in
  let moonDay := moonDayOf epocDay in
  let phase := 0 in
  phase <- phase_walk phase_budget moonDay phase ;;
  Py.index MOON_PHASES phase.

Fixpoint calendar_rows (fuel : nat) (epocStartDay epocEndDay today : Z)
  (html : string) : result string :=
  match fuel with
  | O => OutOfFuel
  | S fuel' =>
      if (today <=? epocEndDay)%Z then
        let html :=
          if (getEpocDayOfWeek today =? 1)%Z then (html ++ "<tr>" ++ nl)%string
          else html in
        html <-
          (if (today <? epocStartDay)%Z then Ok (html ++ "<td></td>" ++ nl)%string
           else d <- getDayInMonth today ;;
                Ok (html ++ "<td>" ++ Py.str d ++ "</td>" ++ nl)%string) ;;
        let html :=
          if (getEpocDayOfWeek today =? 7)%Z then (html ++ "</tr>" ++ nl)%string
          else html in
        calendar_rows fuel' epocStartDay epocEndDay (today + 1)%Z html
      else Ok html
  end.

Definition calendar (month year : Z) : result string :=
  let cal := MONTH_DAYS in
  let isLeapYear := (year mod 8 =? 0)%Z in
  let cal := if isLeapYear then LEAP_DAYS else cal in
  let epocStartDay := getEpocDay 1 month year in
  lastDay <- Py.index cal (month - 1) ;;
  let epocEndDay := getEpocDay lastDay month year in
  name <- Py.index MONTH (month - 1) ;;
  let html := ("<h2>" ++ name ++ "</h2>" ++ nl)%string in
  let html := (html ++ "<table>" ++ nl)%string in
  let html := (html ++ "<tr>" ++ nl)%string in
  let html :=
    fold_left (fun html name => (html ++ "<th>" ++ name ++ "</th>" ++ nl)%string)
      WEEK html in
  let html := (html ++ "</tr>" ++ nl)%string in
  let today := (epocStartDay + 1 - getEpocDayOfWeek epocStartDay)%Z in
  html <- calendar_rows (rows_budget epocEndDay today)
            epocStartDay epocEndDay today html ;;
  let html := (html ++ "</table>")%string in
  Ok html.

End Exact.

(** ** Quantities the properties are stated with *)

(** The year length of the spec, [365 + 1/8], as the rational the script
    computes. *)
Definition yearLengthQ : Q := 365 + 1 / 8.

(** Rounding to the nearest integer, halves away from zero, as Python 2's
    [round] does. *)
Definition round_half_away (x : Q) : Z :=
  if Qle_bool 0 x then Qfloor (x + 1 / 2) else Qceiling (x - 1 / 2).

(** The "yearLength rounded" of the spec: the year length of the script,
    rounded. *)
Definition yearLengthRounded : Z :=
  round_half_away (inject_Z YEAR_LENGTH + 1 / inject_Z LEAP_YEAR).

(** The length in days of year [y]: the sum of the table that
    [y % 8 == 0] selects. *)
Definition daysInYear (y : Z) : Z :=
  Py.sum (if y mod 8 =? 0 then LEAP_DAYS else MONTH_DAYS).

(** The month-length table that [year % 8 == 0] selects. *)
Definition month_table (year : Z) : list Z :=
  if year mod 8 =? 0 then LEAP_DAYS else MONTH_DAYS.

(** A valid date: year from 1, month 1..12, day within the length of that
    month in the table of the year. *)
Definition valid_date (day month year : Z) : Prop :=
  1 <= year /\ 1 <= month <= 12 /\
  1 <= day <= nth (Z.to_nat (month - 1)) (month_table year) 0.

(** A header cell as [calendar] writes it. *)
Definition th (name : string) : string :=
  ("<th>" ++ name ++ "</th>" ++ nl)%string.

(** The opening of the table with the header row of the seven weekday
    names, in the order the spec lists them. *)
Definition week_header : string :=
  ("<table>" ++ nl ++ "<tr>" ++ nl
   ++ th "Moonday" ++ th "Toilday" ++ th "Wealday" ++ th "Oathday"
   ++ th "Fireday" ++ th "Starday" ++ th "Sunday"
   ++ "</tr>" ++ nl)%string.

(** Half a unit in the last place of a binary64 value, relative to the
    value: [2^-53]. *)
Definition binary64_eps : Q := 1 # 9007199254740992.

(** What binary64 division guarantees about the float [q] it returns for
    an exact quotient [t >= 0] of two floats, below [2^53]: [q] is within
    relative error [2^-53] of [t], and [q] is [t] when [t] is an integer. *)
Definition rounded_quotient (t q : Q) : Prop :=
  (t * (1 - binary64_eps) <= q)%Q /\
  (q <= t * (1 + binary64_eps))%Q /\
  forall n : Z, (t == inject_Z n)%Q -> (q == inject_Z n)%Q.

(** ** Integer forms of the exact expressions *)

Ltac Zify.zify_post_hook ::= Z.to_euclidean_division_equations.

Lemma yearLength_eq :
  (inject_Z YEAR_LENGTH + 1 / inject_Z LEAP_YEAR)%Q = 2921 # 8.
Proof. reflexivity. Qed.

Lemma getYear_Z (e : Z) : Exact.getYear e = - ((- (e * 8)) / 2921).
Proof.
  unfold Exact.getYear, Py.ceil, Qceiling, Qfloor.
  cbn. reflexivity.
Qed.

Lemma getDayInYear_Z (e : Z) :
  Exact.getDayInYear e = (e * 8 - (Exact.getYear e - 1) * 2921) ÷ 8 + 1.
Proof.
  unfold Exact.getDayInYear, Py.int. rewrite yearLength_eq.
  cbv [Qminus Qopp Qplus Qmult inject_Z Qnum Qden].
  rewrite !Pos.mul_1_l, !Z.mul_1_r.
  reflexivity.
Qed.

Lemma getEpocDay_Z (d m y : Z) :
  Exact.getEpocDay d m y =
  (2921 * (y - 1)
   + 8 * (Py.sum (Py.slice_to (if y mod 8 =? 0 then LEAP_DAYS else MONTH_DAYS)
                    (m - 1)) + d)) ÷ 8.
Proof.
  unfold Exact.getEpocDay, Py.int. rewrite yearLength_eq.
  cbv [Qplus Qmult inject_Z Qnum Qden].
  rewrite !Pos.mul_1_r, !Z.mul_1_r.
  f_equal. lia.
Qed.

Lemma moonDayOf_Z (e : Z) : Exact.moonDayOf e = e - (59 * ((e * 2) ÷ 59)) ÷ 2.
Proof.
  unfold Exact.moonDayOf, Py.int, MOON_PERIOD.
  cbv [Qdiv Qinv Qmult inject_Z Qnum Qden].
  rewrite !Pos.mul_1_l, !Pos.mul_1_r.
  reflexivity.
Qed.

(** The year of an epoch day is the [y] with [365.125 (y-1) < e <= 365.125 y]. *)
Lemma getYear_bracket (e : Z) :
  2921 * (Exact.getYear e - 1) < 8 * e <= 2921 * Exact.getYear e.
Proof. rewrite getYear_Z. lia. Qed.

Lemma getYear_unique (e y : Z) :
  2921 * (y - 1) < 8 * e <= 2921 * y -> Exact.getYear e = y.
Proof. rewrite getYear_Z. lia. Qed.

(** ** The two rounded quotients

    The exact computation takes [epocDay / yearLength] and
    [epocDay / MOON_PERIOD] as they are, where the script rounds them to
    binary64.  For epoch days below [2^50] any value within the relative
    error [2^-53] of the exact quotient, and equal to it where it is an
    integer, has the ceiling, resp. the integer part, of the exact
    quotient. *)

Lemma year_quotient_parts (e : Z) :
  let t := (inject_Z e / (inject_Z YEAR_LENGTH + 1 / inject_Z LEAP_YEAR))%Q in
  Qnum (t * (1 - binary64_eps)) = e * 8 * 9007199254740991 /\
  Qnum (t * (1 + binary64_eps)) = e * 8 * 9007199254740993 /\
  Qden (t * (1 - binary64_eps)) = 26310029023098437632%positive /\
  Qden (t * (1 + binary64_eps)) = 26310029023098437632%positive /\
  Qnum t = e * 8 /\ Qden t = 2921%positive.
Proof. repeat split; reflexivity. Qed.

Lemma moon_quotient_parts (e : Z) :
  let t := (inject_Z e / MOON_PERIOD)%Q in
  Qnum (t * (1 - binary64_eps)) = e * 2 * 9007199254740991 /\
  Qnum (t * (1 + binary64_eps)) = e * 2 * 9007199254740993 /\
  Qden (t * (1 - binary64_eps)) = 531424756029718528%positive /\
  Qden (t * (1 + binary64_eps)) = 531424756029718528%positive /\
  Qnum t = e * 2 /\ Qden t = 59%positive.
Proof. repeat split; reflexivity. Qed.

Lemma ceil_of_rounded (e a B n : Z) :
  0 < e < 1125899906842624 -> 0 < B ->
  2921 * (n - 1) < 8 * e <= 2921 * n ->
  e * 8 * 9007199254740991 * B <= a * 26310029023098437632 ->
  a * 26310029023098437632 <= e * 8 * 9007199254740993 * B ->
  (8 * e = 2921 * n -> a = n * B) ->
  - (- a / B) = n.
Proof.
  intros He Hb Hn Hlo Hhi Hex.
  assert (H1 : (n - 1) * B < a <= n * B).
  { destruct (Z.eq_dec (8 * e) (2921 * n)) as [E | E].
    - rewrite (Hex E). lia.
    - assert (K1 : (8 * e) * B <= (2921 * n - 1) * B)
        by (apply Z.mul_le_mono_nonneg_r; lia).
      assert (K2 : (2921 * (n - 1) + 1) * B <= (8 * e) * B)
        by (apply Z.mul_le_mono_nonneg_r; lia).
      assert (K3 : e * B <= 1125899906842623 * B)
        by (apply Z.mul_le_mono_nonneg_r; lia).
      clear Hex He Hn E. lia. }
  clear - H1 Hb.
  assert (Hq : - n = - a / B).
  { apply Z.div_unique with (r := n * B - a); [left; lia | ring]. }
  rewrite <- Hq. ring.
Qed.

Lemma trunc_of_rounded (e a B k : Z) :
  0 <= e < 1125899906842624 -> 0 < B ->
  59 * k <= 2 * e < 59 * (k + 1) ->
  e * 2 * 9007199254740991 * B <= a * 531424756029718528 ->
  a * 531424756029718528 <= e * 2 * 9007199254740993 * B ->
  (2 * e = 59 * k -> a = k * B) ->
  a ÷ B = k.
Proof.
  intros He Hb Hk Hlo Hhi Hex.
  assert (H1 : k * B <= a < (k + 1) * B).
  { destruct (Z.eq_dec (2 * e) (59 * k)) as [E | E].
    - rewrite (Hex E). lia.
    - assert (K1 : (59 * k + 1) * B <= (2 * e) * B)
        by (apply Z.mul_le_mono_nonneg_r; lia).
      assert (K2 : (2 * e) * B <= (59 * (k + 1) - 1) * B)
        by (apply Z.mul_le_mono_nonneg_r; lia).
      assert (K3 : e * B <= 1125899906842623 * B)
        by (apply Z.mul_le_mono_nonneg_r; lia).
      clear Hex He Hk E. lia. }
  assert (Hk0 : 0 <= k) by lia.
  assert (Ha : 0 <= a).
  { apply Z.le_trans with (k * B); [apply Z.mul_nonneg_nonneg; lia | lia]. }
  clear - H1 Hb Ha.
  rewrite Z.quot_div_nonneg by lia.
  symmetry. apply Z.div_unique with (r := a - k * B); [left; lia | ring].
Qed.

(** [math.ceil] of the rounded year quotient is the exact year. *)
Lemma getYear_rounding (e : Z) (q : Q) :
  0 < e < 2 ^ 50 ->
  rounded_quotient
    (inject_Z e / (inject_Z YEAR_LENGTH + 1 / inject_Z LEAP_YEAR)) q ->
  Py.ceil q = Exact.getYear e.
Proof.
  intros He (Hlo & Hhi & Hex).
  change (2 ^ 50) with 1125899906842624 in He.
  destruct (year_quotient_parts e) as (N1 & N2 & D1 & D2 & N & D).
  pose proof (getYear_bracket e) as Hn.
  destruct q as [a b]. unfold Py.ceil, Qceiling, Qfloor. cbn [Qopp Qnum Qden].
  unfold Qle in Hlo, Hhi. cbn [Qnum Qden] in Hlo, Hhi.
  rewrite N1, D1 in Hlo. rewrite N2, D2 in Hhi.
  apply (ceil_of_rounded e a (Z.pos b) (Exact.getYear e) He); try assumption; try lia.
  intros E. specialize (Hex (Exact.getYear e)).
  unfold Qeq in Hex. cbn [Qnum Qden inject_Z] in Hex. rewrite N, D in Hex.
  assert (a * 1 = Exact.getYear e * Z.pos b) by (apply Hex; lia). lia.
Qed.

(** [int] of the rounded moon quotient is [int] of the exact one. *)
Lemma moonDay_rounding (e : Z) (q : Q) :
  0 <= e < 2 ^ 50 ->
  rounded_quotient (inject_Z e / MOON_PERIOD) q ->
  Py.int q = Py.int (inject_Z e / MOON_PERIOD).
Proof.
  intros He (Hlo & Hhi & Hex).
  change (2 ^ 50) with 1125899906842624 in He.
  destruct (moon_quotient_parts e) as (N1 & N2 & D1 & D2 & N & D).
  destruct q as [a b]. unfold Py.int. rewrite N, D. cbn [Qnum Qden].
  unfold Qle in Hlo, Hhi. cbn [Qnum Qden] in Hlo, Hhi.
  rewrite N1, D1 in Hlo. rewrite N2, D2 in Hhi.
  apply (trunc_of_rounded e a (Z.pos b) ((e * 2) ÷ 59) He); try assumption;
    try lia.
  intros E. specialize (Hex ((e * 2) ÷ 59)).
  unfold Qeq in Hex. cbn [Qnum Qden inject_Z] in Hex. rewrite N, D in Hex.
  assert (a * 1 = (e * 2) ÷ 59 * Z.pos b) by (apply Hex; lia). lia.
Qed.

(** ** List accesses *)

Lemma index_of_nat {A : Type} (l : list A) (i : nat) :
  Py.index l (Z.of_nat i) =
  match nth_error l i with Some a => Ok a | None => Raise IndexError end.
Proof.
  unfold Py.index.
  destruct (Z.ltb_spec (Z.of_nat i) 0) as [H | H]; [lia |].
  destruct (Z.ltb_spec (Z.of_nat i) 0); [lia |].
  now rewrite Nat2Z.id.
Qed.

Lemma index_nonneg_inv {A : Type} (l : list A) (i : Z) (a : A) :
  0 <= i -> Py.index l i = Ok a ->
  nth_error l (Z.to_nat i) = Some a /\ i < Py.len l.
Proof.
  intros Hi H. rewrite <- (Z2Nat.id i Hi), index_of_nat in H.
  destruct (nth_error l (Z.to_nat i)) eqn:E; inversion H; subst.
  split; [reflexivity |].
  assert (Z.to_nat i < List.length l)%nat
    by (apply nth_error_Some; congruence).
  unfold Py.len. lia.
Qed.

Lemma index_past_end {A : Type} (l : list A) (i : Z) :
  Py.len l <= i -> Py.index l i = Raise IndexError.
Proof.
  intros H. unfold Py.len in H.
  assert (Hi : 0 <= i) by lia.
  rewrite <- (Z2Nat.id i Hi), index_of_nat.
  destruct (nth_error l (Z.to_nat i)) eqn:E; [| reflexivity].
  assert (Z.to_nat i < List.length l)%nat
    by (apply nth_error_Some; congruence).
  lia.
Qed.

Lemma sum_from (l : list Z) (a : Z) : fold_left Z.add l a = a + Py.sum l.
Proof.
  unfold Py.sum. revert a.
  induction l as [| x l IH]; intros a; simpl.
  - lia.
  - rewrite IH, (IH x). lia.
Qed.

Lemma sum_cons (x : Z) (l : list Z) : Py.sum (x :: l) = x + Py.sum l.
Proof. unfold Py.sum at 1. simpl. apply sum_from. Qed.

Lemma sum_firstn_step (l : list Z) (i : nat) (c : Z) :
  nth_error l i = Some c ->
  Py.sum (firstn (S i) l) = Py.sum (firstn i l) + c.
Proof.
  revert i. induction l as [| x l IH]; intros [| i] H; simpl in H; try discriminate.
  - inversion H; subst. simpl. rewrite sum_cons. unfold Py.sum. simpl. lia.
  - change (firstn (S (S i)) (x :: l)) with (x :: firstn (S i) l).
    change (firstn (S i) (x :: l)) with (x :: firstn i l).
    rewrite !sum_cons, (IH i H). lia.
Qed.

Lemma sum_firstn_mono (l : list Z) :
  Forall (fun c => 0 <= c) l ->
  forall i k : nat, (i <= k)%nat ->
  Py.sum (firstn i l) <= Py.sum (firstn k l).
Proof.
  intros Hl i k Hik. induction Hik as [| k Hik IH]; [lia |].
  destruct (nth_error l k) as [c |] eqn:E.
  - rewrite (sum_firstn_step l k c E).
    assert (0 <= c).
    { rewrite Forall_forall in Hl. apply Hl. eapply nth_error_In; eauto. }
    lia.
  - apply nth_error_None in E.
    rewrite (firstn_all2 l (n := S k)) by lia.
    rewrite (firstn_all2 l (n := k)) in IH by lia. exact IH.
Qed.

(** ** The month walk *)

Section MonthWalk.

Variable cal : list Z.

(** The budget is never what stops the walk. *)
Lemma month_walk_fuel (fuel : nat) :
  forall d m, 0 <= m -> (0 < fuel)%nat -> Py.len cal - m < Z.of_nat fuel ->
  month_walk fuel cal d m <> OutOfFuel.
Proof.
  induction fuel as [| fuel IH]; intros d m Hm Hpos Hf; [lia |].
  simpl. destruct (Z.le_gt_cases (Py.len cal) m) as [H | H].
  - rewrite (index_past_end cal m H). simpl. discriminate.
  - destruct (Py.index cal m) as [c | e |] eqn:E; simpl; try discriminate.
    + destruct (d >? c); [apply IH; lia | discriminate].
    + unfold Py.index in E.
      destruct (m <? 0); destruct (_ <? 0); try discriminate;
        destruct (nth_error _ _); discriminate.
Qed.

(** From a positive day count the walk can only stop on a month that
    holds the remaining count. *)
Lemma month_walk_sound (fuel : nat) :
  forall d m d' m', 0 <= m -> 1 <= d ->
  month_walk fuel cal d m = Ok (d', m') ->
  exists c, Py.index cal m' = Ok c /\ 1 <= d' <= c /\ m <= m'.
Proof.
  induction fuel as [| fuel IH]; intros d m d' m' Hm Hd H; [discriminate |].
  simpl in H. destruct (Py.index cal m) as [c | e |] eqn:E; simpl in H;
    try discriminate.
  destruct (Z.gtb_spec d c) as [Hgt | Hle].
  - destruct (IH (d - c) (m + 1) d' m' ltac:(lia) ltac:(lia) H)
      as (c' & ? & ? & ?).
    exists c'. repeat split; try assumption; lia.
  - inversion H; subst. exists c. repeat split; try assumption; lia.
Qed.

Hypothesis cal_nonneg : Forall (fun c => 0 <= c) cal.

(** Started on the day count of day [d] of month [k] (0-based), the walk
    stops exactly there. *)
Lemma month_walk_reach (k : nat) (c d : Z) :
  nth_error cal k = Some c -> 1 <= d <= c ->
  forall (fuel i : nat), (i <= k)%nat -> (k - i < fuel)%nat ->
  month_walk fuel cal
    (Py.sum (firstn k cal) - Py.sum (firstn i cal) + d) (Z.of_nat i)
  = Ok (d, Z.of_nat k).
Proof.
  intros Hk Hd. induction fuel as [| fuel IH]; intros i Hik Hf; [lia |].
  simpl. rewrite index_of_nat.
  destruct (Nat.eq_dec i k) as [-> | Hne].
  - rewrite Hk. simpl.
    destruct (Z.gtb_spec (Py.sum (firstn k cal) - Py.sum (firstn k cal) + d) c);
      [lia |]. f_equal. f_equal. lia.
  - destruct (nth_error cal i) as [ci |] eqn:E.
    + simpl. pose proof (sum_firstn_step cal i ci E) as Hs.
      pose proof (sum_firstn_mono cal cal_nonneg (S i) k ltac:(lia)) as Hm.
      destruct (Z.gtb_spec (Py.sum (firstn k cal) - Py.sum (firstn i cal) + d) ci);
        [| lia].
      replace (Z.of_nat i + 1) with (Z.of_nat (S i)) by lia.
      replace (Py.sum (firstn k cal) - Py.sum (firstn i cal) + d - ci)
        with (Py.sum (firstn k cal) - Py.sum (firstn (S i) cal) + d) by lia.
      apply IH; lia.
    + apply nth_error_None in E.
      assert (k < List.length cal)%nat by (apply nth_error_Some; congruence).
      lia.
Qed.

End MonthWalk.

Lemma getDayInMonth_total (e : Z) : Exact.getDayInMonth e <> OutOfFuel.
Proof.
  unfold Exact.getDayInMonth.
  destruct (month_walk _ _ _ _) as [st | x |] eqn:E; cbn [Py.bind];
    try discriminate.
  exfalso. revert E. apply month_walk_fuel; unfold walk_budget, Py.len; lia.
Qed.

(** ** Years and days in the year *)

Lemma daysInYear_cases (y : Z) :
  daysInYear y = if y mod 8 =? 0 then 366 else 365.
Proof. unfold daysInYear. destruct (y mod 8 =? 0); reflexivity. Qed.

(** Epoch day number [doy] of year [y], as [Exact.getEpocDay] forms it, falls in
    year [y]; [Exact.getDayInYear] gives [doy] back except in the years that
    follow a leap year, where it gives [doy + 1]. *)
Lemma year_and_day_of_epoch (y doy : Z) :
  1 <= y -> 1 <= doy <= daysInYear y ->
  let e := (2921 * (y - 1) + 8 * doy) ÷ 8 in
  Exact.getYear e = y /\
  Exact.getDayInYear e = doy + (if (y - 1) mod 8 =? 0 then 1 else 0).
Proof.
  intros Hy Hd e. rewrite daysInYear_cases in Hd.
  assert (Hyear : Exact.getYear e = y).
  { apply getYear_unique. subst e.
    destruct (Z.eqb_spec (y mod 8) 0); lia. }
  split; [exact Hyear |].
  rewrite getDayInYear_Z, Hyear. subst e.
  destruct (Z.eqb_spec (y mod 8) 0); destruct (Z.eqb_spec ((y - 1) mod 8) 0); lia.
Qed.

(** In exact arithmetic: in a year [>= 1] with [year % 8 == 0] month 2 spans
    29 epoch days, [getEpocDay(1, 3, year) - getEpocDay(1, 2, year) == 29];
    in a year with [year % 8 != 0] it spans 28. *)
Lemma exact_month2_length (year : Z) :
  (1 <= year -> year mod 8 = 0 ->
   Exact.getEpocDay 1 3 year - Exact.getEpocDay 1 2 year = 29) /\
  (year mod 8 <> 0 ->
   Exact.getEpocDay 1 3 year - Exact.getEpocDay 1 2 year = 28).
Proof.
  rewrite !getEpocDay_Z. split.
  - intros Hy H. rewrite H. cbn [Z.eqb].
    change (Py.sum (Py.slice_to LEAP_DAYS (3 - 1))) with 60.
    change (Py.sum (Py.slice_to LEAP_DAYS (2 - 1))) with 31.
    lia.
  - intros H. destruct (Z.eqb_spec (year mod 8) 0) as [E | _]; [contradiction |].
    change (Py.sum (Py.slice_to MONTH_DAYS (3 - 1))) with 59.
    change (Py.sum (Py.slice_to MONTH_DAYS (2 - 1))) with 31.
    lia.
Qed.

(** In exact arithmetic: for an epoch day [>= 1], [getYear] is the ceiling
    of [epochDay / (365 + 1/8)], that is the one integer [y] with [y - 1 <
    epochDay / (365 + 1/8) <= y], and it is at least 1. *)
Lemma exact_getYear_ceiling (epochDay : Z) :
  1 <= epochDay ->
  Exact.getYear epochDay = Qceiling (inject_Z epochDay / yearLengthQ) /\
  (inject_Z (Exact.getYear epochDay) - 1 < inject_Z epochDay / yearLengthQ)%Q /\
  (inject_Z epochDay / yearLengthQ <= inject_Z (Exact.getYear epochDay))%Q /\
  1 <= Exact.getYear epochDay.
Proof.
  intros He.
  assert (Hdef : Exact.getYear epochDay = Qceiling (inject_Z epochDay / yearLengthQ))
    by reflexivity.
  split; [exact Hdef |]. rewrite Hdef. repeat split.
  - pose proof (Qceiling_lt (inject_Z epochDay / yearLengthQ)) as H.
    unfold Z.sub in H. rewrite inject_Z_plus in H. exact H.
  - apply Qle_ceiling.
  - rewrite <- Hdef, getYear_Z. lia.
Qed.

(** ** Round trip between dates and epoch days *)

Lemma month_table_nonneg (y : Z) : Forall (fun c => 0 <= c) (month_table y).
Proof.
  unfold month_table. destruct (y mod 8 =? 0); repeat constructor; lia.
Qed.

Lemma month_table_length (y : Z) : List.length (month_table y) = 12%nat.
Proof. unfold month_table. destruct (y mod 8 =? 0); reflexivity. Qed.

(** The day of the year that a valid date denotes, and the epoch day
    [Exact.getEpocDay] gives it. *)
Lemma getEpocDay_valid (d m y : Z) :
  valid_date d m y ->
  let k := Z.to_nat (m - 1) in
  let doy := Py.sum (firstn k (month_table y)) + d in
  nth_error (month_table y) k = Some (nth k (month_table y) 0) /\
  1 <= doy <= daysInYear y /\
  Exact.getEpocDay d m y = (2921 * (y - 1) + 8 * doy) ÷ 8.
Proof.
  intros (Hy & Hm & Hd) k doy.
  assert (Hk : (k < List.length (month_table y))%nat)
    by (rewrite month_table_length; subst k; lia).
  pose proof (nth_error_nth' (month_table y) 0 Hk) as Hnth.
  split; [exact Hnth |]. split.
  - pose proof (sum_firstn_mono _ (month_table_nonneg y) 0 k ltac:(lia)) as H0.
    pose proof (sum_firstn_mono _ (month_table_nonneg y) (S k) 12 ltac:(lia)) as H1.
    rewrite (sum_firstn_step _ _ _ Hnth) in H1.
    rewrite (firstn_all2 (n := 12)) in H1 by (rewrite month_table_length; lia).
    change (Py.sum (firstn 0 (month_table y))) with 0 in H0.
    unfold daysInYear. fold (month_table y). subst doy k. lia.
  - rewrite getEpocDay_Z. fold (month_table y).
    unfold Py.slice_to. destruct (Z.ltb_spec (m - 1) 0); [lia |].
    reflexivity.
Qed.

(** Outside the years that follow a leap year a valid date comes back from
    its epoch day. *)
Lemma roundtrip_off_cycle (d m y : Z) :
  valid_date d m y -> (y - 1) mod 8 <> 0 ->
  Exact.getMonthInYear (Exact.getEpocDay d m y) = Ok m /\
  Exact.getDayInMonth (Exact.getEpocDay d m y) = Ok d.
Proof.
  intros Hv Hoff.
  destruct (getEpocDay_valid d m y Hv) as (Hnth & Hdoy & HE).
  destruct Hv as (Hy & Hm & Hd).
  destruct (year_and_day_of_epoch y _ Hy Hdoy) as (Hyear & Hday).
  rewrite <- HE in Hyear, Hday.
  destruct (Z.eqb_spec ((y - 1) mod 8) 0) as [E | _]; [contradiction |].
  rewrite Z.add_0_r in Hday.
  pose proof (month_walk_reach (month_table y) (month_table_nonneg y)
                _ _ d Hnth Hd (walk_budget (month_table y)) 0%nat
                ltac:(lia)) as Hw.
  unfold walk_budget in Hw. rewrite month_table_length in Hw.
  specialize (Hw ltac:(lia)).
  change (Py.sum (firstn 0 (month_table y))) with 0 in Hw.
  rewrite Z.sub_0_r in Hw.
  unfold Exact.getMonthInYear, Exact.getDayInMonth. rewrite Hyear, Hday.
  fold (month_table y). unfold walk_budget. rewrite month_table_length.
  change (Z.of_nat 0) with 0 in Hw. rewrite Hw. simpl.
  split; [| reflexivity]. f_equal. lia.
Qed.

(** In a year that follows a leap year every date before the last day of
    its month comes back one day late. *)
Lemma roundtrip_day_late (d m y : Z) :
  valid_date (d + 1) m y -> 1 <= d -> (y - 1) mod 8 = 0 ->
  Exact.getMonthInYear (Exact.getEpocDay d m y) = Ok m /\
  Exact.getDayInMonth (Exact.getEpocDay d m y) = Ok (d + 1).
Proof.
  intros Hv Hd1 Hon.
  assert (Hv' : valid_date d m y).
  { destruct Hv as (? & ? & ?). repeat split; lia. }
  destruct (getEpocDay_valid d m y Hv') as (Hnth & Hdoy & HE).
  destruct Hv as (Hy & Hm & Hd).
  destruct (year_and_day_of_epoch y _ Hy Hdoy) as (Hyear & Hday).
  rewrite <- HE in Hyear, Hday.
  destruct (Z.eqb_spec ((y - 1) mod 8) 0) as [_ | E]; [| contradiction].
  pose proof (month_walk_reach (month_table y) (month_table_nonneg y)
                _ _ (d + 1) Hnth Hd (walk_budget (month_table y)) 0%nat
                ltac:(lia)) as Hw.
  unfold walk_budget in Hw. rewrite month_table_length in Hw.
  specialize (Hw ltac:(lia)).
  change (Py.sum (firstn 0 (month_table y))) with 0 in Hw.
  rewrite Z.sub_0_r, Z.add_assoc in Hw.
  unfold Exact.getMonthInYear, Exact.getDayInMonth. rewrite Hyear, Hday.
  fold (month_table y). unfold walk_budget. rewrite month_table_length.
  change (Z.of_nat 0) with 0 in Hw. rewrite Hw. simpl.
  split; [| reflexivity]. f_equal. lia.
Qed.

(** ** Range of the day in the year *)

Lemma getDayInYear_lower (e : Z) : 1 <= e -> 1 <= Exact.getDayInYear e.
Proof.
  intros He. pose proof (getYear_bracket e) as Hb.
  rewrite getDayInYear_Z. lia.
Qed.

Lemma getDayInYear_upper (e : Z) : Exact.getDayInYear e <= 366.
Proof.
  pose proof (getYear_bracket e) as Hb.
  rewrite getDayInYear_Z. lia.
Qed.

Lemma yearLengthRounded_eq : yearLengthRounded = 365.
Proof. reflexivity. Qed.

(** In exact arithmetic: for an epoch day [>= 1] whose year is not one that
    follows a leap year, [getDayInYear] lies between 1 and the length of
    that year, 366 in a leap year ([getYear(epochDay) % 8 == 0]) and the
    rounded year length 365 otherwise. *)
Lemma exact_getDayInYear_range (epochDay : Z) :
  1 <= epochDay -> Exact.getYear epochDay mod 8 <> 1 ->
  1 <= Exact.getDayInYear epochDay <=
    (if Exact.getYear epochDay mod 8 =? 0 then yearLengthRounded + 1
     else yearLengthRounded).
Proof.
  intros He Hoff. split; [apply getDayInYear_lower; exact He |].
  rewrite yearLengthRounded_eq.
  pose proof (getYear_bracket epochDay) as Hb.
  rewrite getDayInYear_Z.
  destruct (Z.eqb_spec (Exact.getYear epochDay mod 8) 0); lia.
Qed.

(** ** Consistency of the month walk *)

(** In exact arithmetic: for an epoch day [>= 1] on which the month walk
    stays within the table, [getMonthInYear] and [getDayInMonth] walk the
    same table, the one [getYear(epochDay) % 8 == 0] selects, and the day
    returned is a valid day of the month returned: [1 <=
    getDayInMonth(epochDay) <= table[getMonthInYear(epochDay) - 1]]. *)
Lemma exact_month_walk_consistent (epochDay month : Z) :
  1 <= epochDay ->
  Exact.getMonthInYear epochDay = Ok month ->
  let table := month_table (Exact.getYear epochDay) in
  exists day len,
    month_walk (walk_budget table) table (Exact.getDayInYear epochDay) 0
      = Ok (day, month - 1) /\
    Exact.getDayInMonth epochDay = Ok day /\
    1 <= month <= 12 /\
    Py.index table (month - 1) = Ok len /\
    1 <= day <= len.
Proof.
  intros He Hm table. unfold Exact.getMonthInYear in Hm. unfold Exact.getDayInMonth.
  fold (month_table (Exact.getYear epochDay)) in *. fold table in Hm |- *.
  destruct (month_walk _ _ _ _) as [[d k] | e |] eqn:Hw; try discriminate.
  cbn [Py.bind snd fst] in Hm |- *. inversion Hm; subst month. clear Hm.
  destruct (month_walk_sound _ _ _ _ _ _ (Z.le_refl 0)
              (getDayInYear_lower _ He) Hw) as (c & Hc & Hd & Hk).
  exists d, c.
  replace (k + 1 - 1) with k by lia.
  destruct (index_nonneg_inv _ _ _ Hk Hc) as (_ & Hlen).
  unfold Py.len in Hlen. subst table. rewrite month_table_length in Hlen.
  repeat split; try assumption; lia.
Qed.

(** ** Moon phase *)

Lemma index_not_OutOfFuel {A : Type} (l : list A) (i : Z) :
  Py.index l i <> OutOfFuel.
Proof.
  unfold Py.index. destruct (_ <? 0); [discriminate |].
  destruct (nth_error _ _); discriminate.
Qed.

(** The budget is never what stops the phase loop. *)
Lemma phase_walk_fuel (fuel : nat) :
  forall moonDay phase, 0 <= phase -> (0 < fuel)%nat ->
  moonDay <= 0 \/ Py.len PHASE_LENGTH - phase < Z.of_nat fuel ->
  phase_walk fuel moonDay phase <> OutOfFuel.
Proof.
  induction fuel as [| fuel IH]; intros md p Hp Hpos Hf; [lia |].
  simpl. destruct (Z.gtb_spec md 0) as [Hgt | Hle]; [| discriminate].
  destruct Hf as [Hf | Hf]; [lia |].
  destruct (Z.le_gt_cases (Py.len PHASE_LENGTH) p) as [H | H].
  - rewrite (index_past_end PHASE_LENGTH p H). simpl. discriminate.
  - destruct (Py.index PHASE_LENGTH p) as [c | e |] eqn:E; simpl.
    + destruct (Z.gtb_spec (md - c) 0); apply IH; lia.
    + discriminate.
    + exfalso. exact (index_not_OutOfFuel _ _ E).
Qed.

(** The reduced day of an epoch day [>= 1] is within one lunar cycle. *)
Lemma moonDayOf_range (e : Z) : 1 <= e -> 0 <= Exact.moonDayOf e <= 29.
Proof. intros He. rewrite moonDayOf_Z. lia. Qed.

Lemma sum_PHASE_LENGTH : Py.sum PHASE_LENGTH = 29.
Proof. reflexivity. Qed.

(** On a reduced day of at most 29 the loop ends on an index of the phase
    table. *)
Lemma phase_walk_in_table (moonDay : Z) :
  0 <= moonDay <= Py.sum PHASE_LENGTH ->
  exists phase name,
    phase_walk phase_budget moonDay 0 = Ok phase /\
    0 <= phase <= 7 /\
    Py.index MOON_PHASES phase = Ok name /\
    In name MOON_PHASES.
Proof.
  rewrite sum_PHASE_LENGTH. intros H.
  assert (Hall : forall n : nat, (n < 30)%nat ->
            exists phase name,
              phase_walk phase_budget (Z.of_nat n) 0 = Ok phase /\
              0 <= phase <= 7 /\
              Py.index MOON_PHASES phase = Ok name /\
              In name MOON_PHASES).
  { intros n Hn.
    do 30 (destruct n as [| n];
           [ eexists; eexists;
             split; [cbv; reflexivity |];
             split; [lia |];
             split; [cbv; reflexivity |];
             simpl; repeat (first [left; reflexivity | right])
           | ]).
    lia. }
  rewrite <- (Z2Nat.id moonDay) by lia. apply Hall. lia.
Qed.

(** In exact arithmetic: for a date whose epoch day is [>= 1],
    [getMoonPhase] returns one of the 8 names of [MOON_PHASES]: the reduced
    [moonDay] is at most 29, the sum of [PHASE_LENGTH], the loop ends within
    its budget on a phase index of at most 7, and when the reduced [moonDay]
    is 0 the loop body never runs and the result is "Full Moon". *)
Lemma exact_getMoonPhase_in_table (day month year : Z) :
  1 <= Exact.getEpocDay day month year ->
  let moonDay := Exact.moonDayOf (Exact.getEpocDay day month year) in
  0 <= moonDay <= Py.sum PHASE_LENGTH /\
  (exists phase,
     phase_walk phase_budget moonDay 0 = Ok phase /\ 0 <= phase <= 7) /\
  (exists name,
     Exact.getMoonPhase day month year = Ok name /\ In name MOON_PHASES) /\
  (moonDay = 0 ->
   phase_walk phase_budget moonDay 0 = Ok 0 /\
   Exact.getMoonPhase day month year = Ok "Full Moon"%string).
Proof.
  intros He moonDay.
  assert (Hr : 0 <= moonDay <= Py.sum PHASE_LENGTH).
  { rewrite sum_PHASE_LENGTH. apply moonDayOf_range. exact He. }
  destruct (phase_walk_in_table moonDay Hr) as (p & name & Hp & Hp7 & Hn & Hin).
  split; [exact Hr |]. split; [exists p; split; assumption |]. split.
  - exists name. split; [| exact Hin].
    unfold Exact.getMoonPhase. fold moonDay. rewrite Hp. exact Hn.
  - intros H0. unfold Exact.getMoonPhase. fold moonDay. rewrite H0.
    split; reflexivity.
Qed.

(** ** Month renderer *)

Lemma string_app_assoc (a b c : string) :
  ((a ++ b) ++ c = a ++ (b ++ c))%string.
Proof.
  induction a as [| x a IH]; simpl; [reflexivity | now rewrite IH].
Qed.

Lemma string_app_nil_r (a : string) : (a ++ EmptyString)%string = a.
Proof. induction a as [| x a IH]; simpl; [reflexivity | now rewrite IH]. Qed.

(** The row loop only appends to the string it is given. *)
Lemma calendar_rows_extends (fuel : nat) :
  forall epocStartDay epocEndDay today html html',
  Exact.calendar_rows fuel epocStartDay epocEndDay today html = Ok html' ->
  exists rows, html' = (html ++ rows)%string.
Proof.
  induction fuel as [| fuel IH]; intros s e t html html' H; [discriminate |].
  simpl in H. destruct (t <=? e).
  - set (h1 := if getEpocDayOfWeek t =? 1 then _ else _) in H.
    assert (E1 : exists r, h1 = (html ++ r)%string).
    { subst h1. destruct (getEpocDayOfWeek t =? 1).
      - eexists. reflexivity.
      - exists EmptyString. symmetry. apply string_app_nil_r. }
    destruct E1 as (r1 & E1).
    destruct (if t <? s then _ else _) as [h2 | |] eqn:E2; simpl in H;
      try discriminate.
    assert (E2' : exists r, h2 = (h1 ++ r)%string).
    { destruct (t <? s).
      - inversion E2. eexists. reflexivity.
      - destruct (Exact.getDayInMonth t); simpl in E2; try discriminate.
        inversion E2. eexists. reflexivity. }
    destruct E2' as (r2 & E2').
    set (h3 := if getEpocDayOfWeek t =? 7 then _ else _) in H.
    assert (E3 : exists r, h3 = (h2 ++ r)%string).
    { subst h3. destruct (getEpocDayOfWeek t =? 7).
      - eexists. reflexivity.
      - exists EmptyString. symmetry. apply string_app_nil_r. }
    destruct E3 as (r3 & E3).
    destruct (IH _ _ _ _ _ H) as (r4 & E4).
    exists (r1 ++ r2 ++ r3 ++ r4)%string.
    rewrite E4, E3, E2', E1, !string_app_assoc. reflexivity.
  - inversion H. exists EmptyString. symmetry. apply string_app_nil_r.
Qed.

(** Whatever month and year it renders, [Exact.calendar] opens with the month
    title followed by the table and its header row. *)
Lemma calendar_header (month year : Z) (html : string) :
  Exact.calendar month year = Ok html ->
  exists name rest,
    Py.index MONTH (month - 1) = Ok name /\
    html = (("<h2>" ++ name ++ "</h2>" ++ nl) ++ week_header ++ rest)%string.
Proof.
  unfold Exact.calendar. intros H.
  destruct (Py.index _ (month - 1)) as [lastDay | |]; cbn [Py.bind] in H;
    try discriminate.
  destruct (Py.index MONTH (month - 1)) as [name | |]; cbn [Py.bind] in H;
    try discriminate.
  destruct (Exact.calendar_rows _ _ _ _ _) as [h | |] eqn:Hrows; cbn [Py.bind] in H;
    try discriminate.
  inversion H; subst html. clear H.
  destruct (calendar_rows_extends _ _ _ _ _ _ Hrows) as (rows & ->).
  exists name, (rows ++ "</table>")%string. split; [reflexivity |].
  unfold week_header, th. cbn [fold_left WEEK].
  rewrite !string_app_assoc. reflexivity.
Qed.

(** The budget is never what stops the row loop, so [Exact.calendar] returns or
    raises on every month and year. *)
Lemma calendar_rows_fuel (fuel : nat) :
  forall epocStartDay epocEndDay today html,
  (0 < fuel)%nat -> epocEndDay + 1 - today < Z.of_nat fuel ->
  Exact.calendar_rows fuel epocStartDay epocEndDay today html <> OutOfFuel.
Proof.
  induction fuel as [| fuel IH]; intros s e t html Hpos Hf; [lia |].
  cbn [Exact.calendar_rows]. destruct (Z.leb_spec t e); [| discriminate].
  destruct (t <? s); cbn [Py.bind].
  - apply IH; lia.
  - pose proof (getDayInMonth_total t) as Hd.
    destruct (Exact.getDayInMonth t); cbn [Py.bind]; try discriminate;
      [apply IH; lia | contradiction].
Qed.

Lemma calendar_total (month year : Z) : Exact.calendar month year <> OutOfFuel.
Proof.
  unfold Exact.calendar.
  destruct (Py.index _ (month - 1)) as [lastDay | |] eqn:E1; cbn [Py.bind];
    [| discriminate | exfalso; exact (index_not_OutOfFuel _ _ E1)].
  destruct (Py.index MONTH (month - 1)) as [name | |] eqn:E2; cbn [Py.bind];
    [| discriminate | exfalso; exact (index_not_OutOfFuel _ _ E2)].
  destruct (Exact.calendar_rows _ _ _ _ _) as [h | |] eqn:E3; cbn [Py.bind];
    try discriminate.
  exfalso. revert E3. apply calendar_rows_fuel; unfold rows_budget; lia.
Qed.

(** ** The only exception of the exact computation

    An exception comes from a subscript; with no float to overflow, it is
    an [IndexError]. *)

Lemma index_raises {A : Type} (l : list A) (i : Z) (x : exn) :
  Py.index l i = Raise x -> x = IndexError.
Proof.
  unfold Py.index. destruct (_ <? 0); [congruence |].
  destruct (nth_error _ _); congruence.
Qed.

Lemma month_walk_raises_index (fuel : nat) :
  forall cal d m x, month_walk fuel cal d m = Raise x -> x = IndexError.
Proof.
  induction fuel as [| fuel IH]; intros cal d m x; cbn [month_walk];
    [discriminate |].
  destruct (Py.index cal m) as [c | x' |] eqn:E; cbn [Py.bind];
    [| intros H; injection H as <-; exact (index_raises _ _ _ E) | discriminate].
  destruct (d >? c); [apply IH | discriminate].
Qed.

Lemma exact_getDayInMonth_raises (e : Z) (x : exn) :
  Exact.getDayInMonth e = Raise x -> x = IndexError.
Proof.
  unfold Exact.getDayInMonth.
  destruct (month_walk _ _ _ _) as [st | x' |] eqn:E; cbn [Py.bind];
    [discriminate | | discriminate].
  intros H; injection H as <-. exact (month_walk_raises_index _ _ _ _ _ E).
Qed.

Lemma exact_calendar_rows_raises (fuel : nat) :
  forall s e t html x,
  Exact.calendar_rows fuel s e t html = Raise x -> x = IndexError.
Proof.
  induction fuel as [| fuel IH]; intros s e t html x;
    cbn [Exact.calendar_rows]; [discriminate |].
  destruct (t <=? e); [| discriminate].
  destruct (t <? s); cbn [Py.bind]; [apply IH |].
  destruct (Exact.getDayInMonth t) as [d | x' |] eqn:E; cbn [Py.bind];
    [apply IH | | discriminate].
  intros H; injection H as <-. exact (exact_getDayInMonth_raises _ _ E).
Qed.

Lemma exact_calendar_raises (month year : Z) (x : exn) :
  Exact.calendar month year = Raise x -> x = IndexError.
Proof.
  unfold Exact.calendar.
  destruct (Py.index _ (month - 1)) as [lastDay | x1 |] eqn:E1; cbn [Py.bind];
    [| intros H; injection H as <-; exact (index_raises _ _ _ E1) | discriminate].
  destruct (Py.index MONTH (month - 1)) as [name | x2 |] eqn:E2; cbn [Py.bind];
    [| intros H; injection H as <-; exact (index_raises _ _ _ E2) | discriminate].
  destruct (Exact.calendar_rows _ _ _ _ _) as [h | x3 |] eqn:E3; cbn [Py.bind];
    [discriminate | | discriminate].
  intros H; injection H as <-. exact (exact_calendar_rows_raises _ _ _ _ _ _ E3).
Qed.

(** ** Further properties of the exact computation *)

(** ** Epoch days of dates *)

Lemma slice_sum_nonneg (y m : Z) :
  0 <= Py.sum (Py.slice_to (month_table y) m).
Proof.
  unfold Py.slice_to.
  destruct (m <? 0);
    match goal with
    | |- 0 <= Py.sum (firstn ?k _) =>
        exact (sum_firstn_mono _ (month_table_nonneg y) 0 k (Nat.le_0_l k))
    end.
Qed.

(** From year 1 on and for a day number [>= 0], [int] has nothing negative
    to truncate: the epoch day is the whole days before the year, plus the
    days of the months before, plus the day. *)
Lemma getEpocDay_split (d m y : Z) :
  1 <= y -> 0 <= d ->
  Exact.getEpocDay d m y =
  2921 * (y - 1) / 8 + Py.sum (Py.slice_to (month_table y) (m - 1)) + d.
Proof.
  intros Hy Hd. rewrite getEpocDay_Z. fold (month_table y).
  pose proof (slice_sum_nonneg y (m - 1)) as Hs. lia.
Qed.

(** In exact arithmetic: from year 1 on, adding [n >= 0] to the day number
    of a date adds [n] to its epoch day, whatever the month argument is. *)
Lemma exact_getEpocDay_add_days (d n m y : Z) :
  1 <= y -> 0 <= d -> 0 <= n ->
  Exact.getEpocDay (d + n) m y = Exact.getEpocDay d m y + n.
Proof.
  intros Hy Hd Hn. rewrite !getEpocDay_split by lia. lia.
Qed.

(** In exact arithmetic: months follow one another without gap or overlap:
    for a month 1..11 of a year [>= 1], the first day of the next month is
    the epoch day after the last day of the month. *)
Lemma exact_getEpocDay_next_month (m y len : Z) :
  1 <= y -> 1 <= m <= 11 ->
  Py.index (month_table y) (m - 1) = Ok len ->
  Exact.getEpocDay 1 (m + 1) y = Exact.getEpocDay len m y + 1.
Proof.
  intros Hy Hm Hlen.
  assert (H0 : 0 <= m - 1) by lia.
  destruct (index_nonneg_inv _ _ _ H0 Hlen) as (Hnth & _).
  assert (Hpos : 0 <= len).
  { pose proof (month_table_nonneg y) as Hall. rewrite Forall_forall in Hall.
    apply Hall. eapply nth_error_In; eauto. }
  rewrite !getEpocDay_split by lia.
  unfold Py.slice_to.
  destruct (Z.ltb_spec (m + 1 - 1) 0); [lia |].
  destruct (Z.ltb_spec (m - 1) 0); [lia |].
  replace (Z.to_nat (m + 1 - 1)) with (S (Z.to_nat (m - 1))) by lia.
  rewrite (sum_firstn_step _ _ _ Hnth). lia.
Qed.

(** In exact arithmetic: years follow one another without gap or overlap:
    from year 1 on, the first day of the next year is the epoch day after
    day 31 of month 12. *)
Lemma exact_getEpocDay_next_year (y : Z) :
  1 <= y -> Exact.getEpocDay 1 1 (y + 1) = Exact.getEpocDay 31 12 y + 1.
Proof.
  intros Hy. rewrite !getEpocDay_split by lia.
  unfold month_table.
  destruct (Z.eqb_spec ((y + 1) mod 8) 0); destruct (Z.eqb_spec (y mod 8) 0);
    match goal with
    | |- context [Py.sum (Py.slice_to ?t (1 - 1))] =>
        change (Py.sum (Py.slice_to t (1 - 1))) with 0
    end;
    match goal with
    | |- context [Py.sum (Py.slice_to LEAP_DAYS (12 - 1))] =>
        change (Py.sum (Py.slice_to LEAP_DAYS (12 - 1))) with 335
    | |- context [Py.sum (Py.slice_to MONTH_DAYS (12 - 1))] =>
        change (Py.sum (Py.slice_to MONTH_DAYS (12 - 1))) with 334
    end; lia.
Qed.

(** In exact arithmetic: the epoch days that [getYear] puts in a year [y >=
    1] are exactly those from the first day of its month 1 to day 31 of its
    month 12. *)
Lemma exact_getYear_span (e y : Z) :
  1 <= y ->
  Exact.getYear e = y <-> Exact.getEpocDay 1 1 y <= e <= Exact.getEpocDay 31 12 y.
Proof.
  intros Hy. rewrite !getEpocDay_split by lia.
  unfold month_table.
  destruct (Z.eqb_spec (y mod 8) 0);
    match goal with
    | |- context [Py.sum (Py.slice_to ?t (1 - 1))] =>
        change (Py.sum (Py.slice_to t (1 - 1))) with 0
    end;
    match goal with
    | |- context [Py.sum (Py.slice_to LEAP_DAYS (12 - 1))] =>
        change (Py.sum (Py.slice_to LEAP_DAYS (12 - 1))) with 335
    | |- context [Py.sum (Py.slice_to MONTH_DAYS (12 - 1))] =>
        change (Py.sum (Py.slice_to MONTH_DAYS (12 - 1))) with 334
    end;
    (split; [intros <-; pose proof (getYear_bracket e); lia
            | intros H; apply getYear_unique; lia]).
Qed.

(** In exact arithmetic: [getYear] gives back the year of every valid date,
    also in the years where the day comes back late. *)
Lemma exact_getYear_of_valid_date (d m y : Z) :
  valid_date d m y -> Exact.getYear (Exact.getEpocDay d m y) = y.
Proof.
  intros Hv.
  destruct (getEpocDay_valid d m y Hv) as (_ & Hdoy & HE).
  destruct Hv as (Hy & _).
  destruct (year_and_day_of_epoch y _ Hy Hdoy) as (Hyear & _).
  rewrite HE. exact Hyear.
Qed.

(** In exact arithmetic: in a year [>= 1] that does not follow a leap year
    ([(year - 1) % 8 != 0]) every valid date comes back from its epoch day:
    [getMonthInYear] gives the month and [getDayInMonth] the day. *)
Lemma exact_roundtrip_valid_date (d m y : Z) :
  valid_date d m y -> (y - 1) mod 8 <> 0 ->
  Exact.getYear (Exact.getEpocDay d m y) = y /\
  Exact.getMonthInYear (Exact.getEpocDay d m y) = Ok m /\
  Exact.getDayInMonth (Exact.getEpocDay d m y) = Ok d.
Proof.
  intros Hv Hoff. split.
  - destruct (getEpocDay_valid d m y Hv) as (_ & Hdoy & HE).
    destruct Hv as (Hy & _).
    destruct (year_and_day_of_epoch y _ Hy Hdoy) as (Hyear & _).
    rewrite HE. exact Hyear.
  - apply roundtrip_off_cycle; assumption.
Qed.

(** In exact arithmetic: [getEpocDay] is injective on valid dates: two valid
    dates with the same epoch day are the same date. *)
Lemma exact_getEpocDay_injective (d m y d' m' y' : Z) :
  valid_date d m y -> valid_date d' m' y' ->
  Exact.getEpocDay d m y = Exact.getEpocDay d' m' y' ->
  d = d' /\ m = m' /\ y = y'.
Proof.
  intros Hv Hv' HE.
  assert (Hy : y = y').
  { destruct (getEpocDay_valid d m y Hv) as (_ & Hdoy & E1).
    destruct (getEpocDay_valid d' m' y' Hv') as (_ & Hdoy' & E2).
    destruct Hv as (Hy & _). destruct Hv' as (Hy' & _).
    destruct (year_and_day_of_epoch y _ Hy Hdoy) as (Hyear & _).
    destruct (year_and_day_of_epoch y' _ Hy' Hdoy') as (Hyear' & _).
    rewrite <- E1 in Hyear. rewrite <- E2 in Hyear'. congruence. }
  subst y'.
  destruct (getEpocDay_valid d m y Hv) as (Hnth & Hdoy & _).
  destruct (getEpocDay_valid d' m' y Hv') as (Hnth' & Hdoy' & _).
  destruct Hv as (Hy & Hm & Hd). destruct Hv' as (_ & Hm' & Hd').
  rewrite !getEpocDay_split in HE by lia.
  unfold Py.slice_to in HE.
  destruct (Z.ltb_spec (m - 1) 0); [lia |].
  destruct (Z.ltb_spec (m' - 1) 0); [lia |].
  pose proof (month_walk_reach (month_table y) (month_table_nonneg y)
                _ _ d Hnth Hd 13%nat 0%nat ltac:(lia) ltac:(lia)) as Hw.
  pose proof (month_walk_reach (month_table y) (month_table_nonneg y)
                _ _ d' Hnth' Hd' 13%nat 0%nat ltac:(lia) ltac:(lia)) as Hw'.
  replace (Py.sum (firstn (Z.to_nat (m' - 1)) (month_table y))
           - Py.sum (firstn 0 (month_table y)) + d')
    with (Py.sum (firstn (Z.to_nat (m - 1)) (month_table y))
          - Py.sum (firstn 0 (month_table y)) + d) in Hw' by lia.
  rewrite Hw in Hw'. inversion Hw'. repeat split; lia.
Qed.

Lemma slice_wraps (cal : list Z) (m : Z) :
  List.length cal = 12%nat -> -11 <= m <= 0 ->
  Py.slice_to cal (m - 1) = Py.slice_to cal (m + 12 - 1).
Proof.
  intros Hl Hm. unfold Py.slice_to, Py.len. rewrite Hl.
  destruct (Z.ltb_spec (m - 1) 0); [| lia].
  destruct (Z.ltb_spec (m + 12 - 1) 0); [lia |].
  f_equal. lia.
Qed.

(** In exact arithmetic: a month argument above 12 is not rejected either:
    [cal[:month-1]] is then the whole table, and from year 1 on the date is
    read as the same day of month 1 of the next year. *)
Lemma exact_getEpocDay_month_overflows (d m y : Z) :
  13 <= m -> 1 <= y -> 0 <= d ->
  Exact.getEpocDay d m y = Exact.getEpocDay d 1 (y + 1).
Proof.
  intros Hm Hy Hd. rewrite !getEpocDay_split by lia.
  assert (Hs : Py.slice_to (month_table y) (m - 1) = month_table y).
  { unfold Py.slice_to. destruct (Z.ltb_spec (m - 1) 0); [lia |].
    apply firstn_all2. rewrite month_table_length. lia. }
  rewrite Hs.
  change (Py.sum (Py.slice_to (month_table (y + 1)) (1 - 1))) with 0.
  fold (daysInYear y) in *.
  change (Py.sum (month_table y)) with (daysInYear y).
  rewrite daysInYear_cases.
  destruct (Z.eqb_spec (y mod 8) 0); lia.
Qed.

(** In exact arithmetic: in a year [>= 1] that follows a leap year ([(year -
    1) % 8 == 0]) a date that is not the last day of its month comes back
    one day late: [getMonthInYear] gives the month and [getDayInMonth] gives
    [day + 1]. *)
Lemma exact_roundtrip_one_day_late (d m y : Z) :
  valid_date (d + 1) m y -> 1 <= d -> (y - 1) mod 8 = 0 ->
  Exact.getMonthInYear (Exact.getEpocDay d m y) = Ok m /\
  Exact.getDayInMonth (Exact.getEpocDay d m y) = Ok (d + 1).
Proof. intros Hv Hd Hon. apply roundtrip_day_late; assumption. Qed.

(** ** Weekdays of dates *)

Lemma WEEK_index (k : Z) :
  0 <= k < 7 -> exists name, Py.index WEEK k = Ok name /\ In name WEEK.
Proof.
  intros Hk.
  assert (Hc : k = 0 \/ k = 1 \/ k = 2 \/ k = 3 \/ k = 4 \/ k = 5 \/ k = 6)
    by lia.
  repeat (destruct Hc as [-> | Hc]); try subst k;
    (eexists; split; [reflexivity |];
     simpl; repeat (first [left; reflexivity | right])).
Qed.

(** In exact arithmetic: from year 1 on, the next day number falls on the
    next weekday, and weekday 7 is followed by weekday 1. *)
Lemma exact_getDayOfWeek_next_day (d m y : Z) :
  1 <= y -> 0 <= d ->
  Exact.getDayOfWeek (d + 1) m y = Exact.getDayOfWeek d m y mod 7 + 1.
Proof.
  intros Hy Hd. unfold Exact.getDayOfWeek. change (Py.len WEEK) with 7.
  rewrite (getEpocDay_split (d + 1)), (getEpocDay_split d) by lia.
  lia.
Qed.

(** ** Where the month walk leaves its table *)

(** On a day count 1..366 the walk of either table returns when the count
    is within the sum of the table and raises [IndexError] beyond it. *)
Lemma month_walk_outcome (leap : bool) (d : Z) :
  1 <= d <= 366 ->
  let cal := if leap then LEAP_DAYS else MONTH_DAYS in
  if d <=? Py.sum cal
  then exists d' k, month_walk (walk_budget cal) cal d 0 = Ok (d', k)
  else month_walk (walk_budget cal) cal d 0 = Raise IndexError.
Proof.
  intros Hd cal.
  set (check := fun (n : nat) =>
    let d := Z.of_nat n in
    match month_walk (walk_budget cal) cal d 0 with
    | Ok _ => d <=? Py.sum cal
    | Raise IndexError => negb (d <=? Py.sum cal)
    | Raise OverflowError => false
    | OutOfFuel => false
    end).
  assert (Hall : forallb check (seq 1 366) = true)
    by (subst check cal; destruct leap; vm_compute; reflexivity).
  rewrite forallb_forall in Hall.
  specialize (Hall (Z.to_nat d)).
  assert (Hin : In (Z.to_nat d) (seq 1 366)) by (apply in_seq; lia).
  specialize (Hall Hin). unfold check in Hall.
  rewrite Z2Nat.id in Hall by lia.
  destruct (month_walk (walk_budget cal) cal d 0) as [[d' k] | [|] |];
    [| | discriminate | discriminate].
  - rewrite Hall. exists d', k. reflexivity.
  - destruct (d <=? Py.sum cal); [discriminate | reflexivity].
Qed.

(** The day in the year is above the length of the year only on the last
    epoch day of a year that follows a leap year. *)
Lemma getDayInYear_overrun (e : Z) :
  1 <= e ->
  (daysInYear (Exact.getYear e) < Exact.getDayInYear e <->
   Exact.getYear e mod 8 = 1 /\ e = Exact.getEpocDay 31 12 (Exact.getYear e)).
Proof.
  intros He.
  pose proof (getYear_bracket e) as Hb.
  assert (Hy : 1 <= Exact.getYear e) by lia.
  rewrite daysInYear_cases, getDayInYear_Z, getEpocDay_split by lia.
  unfold month_table.
  destruct (Z.eqb_spec (Exact.getYear e mod 8) 0) as [E0 | E0].
  - change (Py.sum (Py.slice_to LEAP_DAYS (12 - 1))) with 335. lia.
  - change (Py.sum (Py.slice_to MONTH_DAYS (12 - 1))) with 334. lia.
Qed.

Lemma month_walk_of_epoch (e : Z) :
  1 <= e ->
  let cal := month_table (Exact.getYear e) in
  if Exact.getDayInYear e <=? daysInYear (Exact.getYear e)
  then exists d' k,
      month_walk (walk_budget cal) cal (Exact.getDayInYear e) 0 = Ok (d', k)
  else month_walk (walk_budget cal) cal (Exact.getDayInYear e) 0 = Raise IndexError.
Proof.
  intros He cal.
  pose proof (getDayInYear_lower e He) as Hlo.
  pose proof (getDayInYear_upper e) as Hhi.
  exact (month_walk_outcome (Exact.getYear e mod 8 =? 0) (Exact.getDayInYear e)
           (conj Hlo Hhi)).
Qed.

(** In exact arithmetic: for an epoch day [>= 1], [getMonthInYear] and
    [getDayInMonth] raise [IndexError] exactly on the last epoch day of a
    year with [year % 8 == 1] (day 31 of month 12); on every other epoch day
    both return, with a month in 1..12. *)
Lemma exact_month_walk_raises (e : Z) :
  1 <= e ->
  (Exact.getMonthInYear e = Raise IndexError <->
   Exact.getYear e mod 8 = 1 /\ e = Exact.getEpocDay 31 12 (Exact.getYear e)) /\
  (Exact.getDayInMonth e = Raise IndexError <-> Exact.getMonthInYear e = Raise IndexError) /\
  (Exact.getMonthInYear e <> Raise IndexError ->
   exists m d, Exact.getMonthInYear e = Ok m /\ Exact.getDayInMonth e = Ok d /\
               1 <= m <= 12 /\ 1 <= d <= 31).
Proof.
  intros He.
  pose proof (month_walk_of_epoch e He) as Hw. cbv zeta in Hw.
  pose proof (getDayInYear_overrun e He) as Ho.
  unfold Exact.getMonthInYear, Exact.getDayInMonth.
  fold (month_table (Exact.getYear e)).
  destruct (Z.leb_spec (Exact.getDayInYear e) (daysInYear (Exact.getYear e))) as [Hle | Hgt].
  - destruct Hw as (d' & k & Hw). rewrite Hw. cbn [Py.bind fst snd].
    split; [split; [discriminate | intros H; apply Ho in H; lia] |].
    split; [split; discriminate |].
    intros _. exists (k + 1), d'.
    destruct (month_walk_sound _ _ _ _ _ _ (Z.le_refl 0)
                (getDayInYear_lower _ He) Hw) as (c & Hc & Hd & Hk).
    destruct (index_nonneg_inv _ _ _ Hk Hc) as (Hnth & Hlen).
    unfold Py.len in Hlen. rewrite month_table_length in Hlen.
    assert (Hc31 : c <= 31).
    { apply nth_error_In in Hnth. unfold month_table in Hnth.
      destruct (Exact.getYear e mod 8 =? 0); simpl in Hnth;
        repeat (destruct Hnth as [<- | Hnth]; [lia |]); contradiction. }
    repeat split; try reflexivity; lia.
  - rewrite Hw. cbn [Py.bind].
    split; [split; [intros _; apply Ho; exact Hgt | reflexivity] |].
    split; [split; reflexivity |].
    intros H. contradiction H. reflexivity.
Qed.

(** ** Moon phases of dates *)

Lemma moonDayOf_nonpos (e : Z) : e <= 0 -> -29 <= Exact.moonDayOf e <= 0.
Proof. intros He. rewrite moonDayOf_Z. lia. Qed.

(** In exact arithmetic: for all integer arguments, valid date or not,
    [getMoonPhase] returns one of the names of [MOON_PHASES] and never
    raises; for a date whose epoch day is 0 or negative it returns "Full
    Moon". *)
Lemma exact_getMoonPhase_named (d m y : Z) :
  (exists name, Exact.getMoonPhase d m y = Ok name /\ In name MOON_PHASES) /\
  (Exact.getEpocDay d m y <= 0 -> Exact.getMoonPhase d m y = Ok "Full Moon"%string).
Proof.
  assert (Hneg : Exact.getEpocDay d m y <= 0 ->
                 Exact.getMoonPhase d m y = Ok "Full Moon"%string).
  { intros He. unfold Exact.getMoonPhase.
    pose proof (moonDayOf_nonpos _ He) as Hm.
    unfold phase_budget. cbn [phase_walk List.length PHASE_LENGTH].
    destruct (Z.gtb_spec (Exact.moonDayOf (Exact.getEpocDay d m y)) 0); [lia |].
    reflexivity. }
  split; [| exact Hneg].
  destruct (Z.le_gt_cases (Exact.getEpocDay d m y) 0) as [He | He].
  - exists "Full Moon"%string. split; [apply Hneg; exact He |].
    simpl. left. reflexivity.
  - assert (Hr : 0 <= Exact.moonDayOf (Exact.getEpocDay d m y) <= Py.sum PHASE_LENGTH).
    { rewrite sum_PHASE_LENGTH. apply moonDayOf_range. lia. }
    destruct (phase_walk_in_table _ Hr) as (p & name & Hp & _ & Hn & Hin).
    exists name. split; [| exact Hin].
    unfold Exact.getMoonPhase. rewrite Hp. exact Hn.
Qed.

(** In exact arithmetic: the phase that [getMoonPhase] returns is the
    segment of [PHASE_LENGTH] that the reduced day falls in: for a reduced
    day [moonDay >= 1] it is [MOON_PHASES[p]] for the index [p] in 0..7 with
    [sum(PHASE_LENGTH[:p]) < moonDay <= sum(PHASE_LENGTH[:p+1])]. *)
Lemma exact_getMoonPhase_segment (d m y : Z) :
  let moonDay := Exact.moonDayOf (Exact.getEpocDay d m y) in
  1 <= moonDay ->
  exists p,
    0 <= p <= 7 /\
    Exact.getMoonPhase d m y = Py.index MOON_PHASES p /\
    Py.sum (Py.slice_to PHASE_LENGTH p) < moonDay
      <= Py.sum (Py.slice_to PHASE_LENGTH (p + 1)).
Proof.
  intros moonDay Hmd.
  assert (He : 1 <= Exact.getEpocDay d m y).
  { destruct (Z.le_gt_cases (Exact.getEpocDay d m y) 0) as [H | H]; [| lia].
    pose proof (moonDayOf_nonpos _ H). subst moonDay. lia. }
  pose proof (moonDayOf_range _ He) as Hr. fold moonDay in Hr.
  unfold Exact.getMoonPhase. fold moonDay.
  assert (Hall : forall n : nat, (1 <= n < 30)%nat ->
            exists p,
              0 <= p <= 7 /\
              phase_walk phase_budget (Z.of_nat n) 0 = Ok p /\
              Py.sum (Py.slice_to PHASE_LENGTH p) < Z.of_nat n
                <= Py.sum (Py.slice_to PHASE_LENGTH (p + 1))).
  { intros n Hn.
    destruct n as [| n]; [lia |].
    do 29 (destruct n as [| n];
           [ eexists; split; [| split; [cbv; reflexivity |]];
             [lia | vm_compute; split; [reflexivity | discriminate]]
           | ]).
    lia. }
  destruct (Hall (Z.to_nat moonDay) ltac:(lia)) as (p & Hp & Hw & Hs).
  rewrite Z2Nat.id in Hw, Hs by lia.
  exists p. rewrite Hw. cbn [Py.bind]. repeat split; try lia; reflexivity.
Qed.

(** In exact arithmetic: the phases repeat every 59 days, two moon periods:
    from year 1 on, adding 59 to the day number of a date leaves its moon
    phase unchanged. *)
Lemma exact_getMoonPhase_period (d m y : Z) :
  1 <= y -> 0 <= d ->
  Exact.getMoonPhase (d + 59) m y = Exact.getMoonPhase d m y.
Proof.
  intros Hy Hd. unfold Exact.getMoonPhase.
  assert (He : Exact.getEpocDay (d + 59) m y = Exact.getEpocDay d m y + 59)
    by (rewrite !getEpocDay_split by lia; lia).
  assert (H0 : 0 <= Exact.getEpocDay d m y).
  { rewrite getEpocDay_split by lia.
    pose proof (slice_sum_nonneg y (m - 1)). lia. }
  rewrite He.
  assert (Hm : Exact.moonDayOf (Exact.getEpocDay d m y + 59) = Exact.moonDayOf (Exact.getEpocDay d m y))
    by (rewrite !moonDayOf_Z; lia).
  rewrite Hm. reflexivity.
Qed.

(** ** What the month renderer returns *)

Lemma index_before_start {A : Type} (l : list A) (i : Z) :
  i < - Py.len l -> Py.index l i = Raise IndexError.
Proof.
  intros H. unfold Py.index, Py.len in *.
  destruct (Z.ltb_spec i 0); [| lia].
  destruct (Z.ltb_spec (Z.of_nat (List.length l) + i) 0); [reflexivity | lia].
Qed.

Lemma index_wraps {A : Type} (l : list A) (i : Z) :
  - Py.len l <= i < 0 -> Py.index l i = Py.index l (i + Py.len l).
Proof.
  intros H. unfold Py.index.
  destruct (Z.ltb_spec i 0); [| lia].
  destruct (Z.ltb_spec (i + Py.len l) 0); [lia |].
  rewrite (Z.add_comm (Py.len l) i). reflexivity.
Qed.

(** When it returns, [Exact.calendar] returns the title, the table header, the
    rows and the closing tag. *)
Lemma calendar_shape (month year : Z) (html : string) :
  Exact.calendar month year = Ok html ->
  exists name rows,
    Py.index MONTH (month - 1) = Ok name /\
    html = (("<h2>" ++ name ++ "</h2>" ++ nl) ++ week_header
            ++ rows ++ "</table>")%string.
Proof.
  unfold Exact.calendar. intros H.
  destruct (Py.index _ (month - 1)) as [lastDay | |]; cbn [Py.bind] in H;
    try discriminate.
  destruct (Py.index MONTH (month - 1)) as [name | |]; cbn [Py.bind] in H;
    try discriminate.
  destruct (Exact.calendar_rows _ _ _ _ _) as [h | |] eqn:Hrows; cbn [Py.bind] in H;
    try discriminate.
  inversion H; subst html. clear H.
  destruct (calendar_rows_extends _ _ _ _ _ _ Hrows) as (rows & ->).
  exists name, rows. split; [reflexivity |].
  unfold week_header, th. cbn [fold_left WEEK].
  rewrite !string_app_assoc. reflexivity.
Qed.

(** The row loop returns exactly when [Exact.getDayInMonth] returns on every
    epoch day it numbers. *)
Lemma calendar_rows_returns_inv (fuel : nat) :
  forall s e t html h,
  Exact.calendar_rows fuel s e t html = Ok h ->
  forall t', t <= t' <= e -> s <= t' -> exists d, Exact.getDayInMonth t' = Ok d.
Proof.
  induction fuel as [| fuel IH]; intros s e t html h H t' Ht Hs;
    [discriminate |].
  cbn [Exact.calendar_rows] in H.
  destruct (Z.leb_spec t e); [| lia].
  destruct (Z.ltb_spec t s).
  - cbn [Py.bind] in H. apply (IH _ _ _ _ _ H); lia.
  - destruct (Exact.getDayInMonth t) as [d | |] eqn:Hd; cbn [Py.bind] in H;
      try discriminate.
    destruct (Z.eq_dec t' t) as [-> | Hne]; [exists d; exact Hd |].
    apply (IH _ _ _ _ _ H); lia.
Qed.

Lemma calendar_rows_returns (fuel : nat) :
  forall s e t html,
  (forall t', t <= t' <= e -> s <= t' -> exists d, Exact.getDayInMonth t' = Ok d) ->
  (0 < fuel)%nat -> e + 1 - t < Z.of_nat fuel ->
  exists h, Exact.calendar_rows fuel s e t html = Ok h.
Proof.
  induction fuel as [| fuel IH]; intros s e t html Hall Hpos Hf; [lia |].
  cbn [Exact.calendar_rows].
  destruct (Z.leb_spec t e); [| eexists; reflexivity].
  destruct (Z.ltb_spec t s).
  - cbn [Py.bind]. apply IH; [intros; apply Hall; lia | lia | lia].
  - destruct (Hall t ltac:(lia) ltac:(lia)) as (d & Hd). rewrite Hd.
    cbn [Py.bind]. apply IH; [intros; apply Hall; lia | lia | lia].
Qed.

(** The epoch days of a month 1..12 of a year [>= 1]: they start at least
    one day into the year and run for the length of the month. *)
Lemma month_epoch_days (m y len : Z) :
  1 <= y -> 1 <= m <= 12 ->
  Py.index (month_table y) (m - 1) = Ok len ->
  28 <= len <= 31 /\
  Exact.getEpocDay len m y = Exact.getEpocDay 1 m y + len - 1 /\
  Exact.getEpocDay 1 1 y <= Exact.getEpocDay 1 m y /\
  Exact.getEpocDay len m y <= Exact.getEpocDay 31 12 y /\
  (m <= 11 -> Exact.getEpocDay len m y < Exact.getEpocDay 31 12 y) /\
  (m = 12 -> Exact.getEpocDay len m y = Exact.getEpocDay 31 12 y).
Proof.
  intros Hy Hm Hlen.
  assert (H0 : 0 <= m - 1) by lia.
  destruct (index_nonneg_inv _ _ _ H0 Hlen) as (Hnth & _).
  assert (Hc : 28 <= len <= 31).
  { apply nth_error_In in Hnth. unfold month_table in Hnth.
    destruct (y mod 8 =? 0); simpl in Hnth;
      repeat (destruct Hnth as [<- | Hnth]; [lia |]); contradiction. }
  split; [exact Hc |].
  rewrite !getEpocDay_split by lia.
  unfold Py.slice_to.
  destruct (Z.ltb_spec (m - 1) 0); [lia |].
  destruct (Z.ltb_spec (1 - 1) 0); [lia |].
  destruct (Z.ltb_spec (12 - 1) 0); [lia |].
  pose proof (sum_firstn_mono _ (month_table_nonneg y) 0 (Z.to_nat (m - 1))
                ltac:(lia)) as M0.
  pose proof (sum_firstn_step _ _ _ Hnth) as St.
  change (Py.sum (firstn (Z.to_nat (1 - 1)) (month_table y))) with 0.
  change (Py.sum (firstn 0 (month_table y))) with 0 in M0.
  assert (S11 : Py.sum (firstn 12 (month_table y))
                = Py.sum (firstn (Z.to_nat (12 - 1)) (month_table y)) + 31).
  { unfold month_table. destruct (y mod 8 =? 0); reflexivity. }
  repeat split; try lia.
  - pose proof (sum_firstn_mono _ (month_table_nonneg y)
                  (S (Z.to_nat (m - 1))) 12 ltac:(lia)). lia.
  - intros Hm11.
    pose proof (sum_firstn_mono _ (month_table_nonneg y)
                  (S (Z.to_nat (m - 1))) (Z.to_nat (12 - 1)) ltac:(lia)). lia.
  - intros ->. replace len with 31; [lia |].
    unfold month_table in Hnth.
    destruct (y mod 8 =? 0); simpl in Hnth; congruence.
Qed.

Lemma getYear_within (e y : Z) :
  1 <= y -> Exact.getEpocDay 1 1 y <= e <= Exact.getEpocDay 31 12 y -> Exact.getYear e = y.
Proof.
  intros Hy. rewrite !getEpocDay_split by lia.
  unfold month_table.
  destruct (Z.eqb_spec (y mod 8) 0);
    match goal with
    | |- context [Py.sum (Py.slice_to ?t (1 - 1))] =>
        change (Py.sum (Py.slice_to t (1 - 1))) with 0
    end;
    match goal with
    | |- context [Py.sum (Py.slice_to LEAP_DAYS (12 - 1))] =>
        change (Py.sum (Py.slice_to LEAP_DAYS (12 - 1))) with 335
    | |- context [Py.sum (Py.slice_to MONTH_DAYS (12 - 1))] =>
        change (Py.sum (Py.slice_to MONTH_DAYS (12 - 1))) with 334
    end;
    intros H; apply getYear_unique; lia.
Qed.

(** [Exact.getDayInMonth] on an epoch day [>= 1]: it returns, or the day is the
    last one of a year with [year % 8 == 1] and it raises. *)
Lemma getDayInMonth_outcome (e : Z) :
  1 <= e ->
  (exists d, Exact.getDayInMonth e = Ok d) /\
    ~ (Exact.getYear e mod 8 = 1 /\ e = Exact.getEpocDay 31 12 (Exact.getYear e))
  \/ Exact.getDayInMonth e = Raise IndexError /\
     Exact.getYear e mod 8 = 1 /\ e = Exact.getEpocDay 31 12 (Exact.getYear e).
Proof.
  intros He.
  pose proof (month_walk_of_epoch e He) as Hw. cbv zeta in Hw.
  pose proof (getDayInYear_overrun e He) as Ho.
  unfold Exact.getDayInMonth. fold (month_table (Exact.getYear e)).
  destruct (Z.leb_spec (Exact.getDayInYear e) (daysInYear (Exact.getYear e))) as [Hle | Hgt].
  - left. destruct Hw as (d' & k & Hw). rewrite Hw. cbn [Py.bind fst].
    split; [exists d'; reflexivity | intros H; apply Ho in H; lia].
  - right. rewrite Hw. split; [reflexivity | apply Ho; exact Hgt].
Qed.

(** In exact arithmetic: for a month 1..12 of a year [>= 1], [calendar]
    raises [IndexError] exactly for month 12 of a year with [year % 8 == 1],
    where [getDayInMonth] fails on the last day; for every other month it
    returns the title of the month, the table header, the rows and the
    closing [</table>]. *)
Lemma exact_calendar_outcome (month year : Z) :
  1 <= year -> 1 <= month <= 12 ->
  (Exact.calendar month year = Raise IndexError <->
   year mod 8 = 1 /\ month = 12) /\
  (~ (year mod 8 = 1 /\ month = 12) ->
   exists name rows,
     Py.index MONTH (month - 1) = Ok name /\
     Exact.calendar month year =
     Ok (("<h2>" ++ name ++ "</h2>" ++ nl) ++ week_header
         ++ rows ++ "</table>")%string).
Proof.
  intros Hy Hm.
  assert (Hlen : exists len, Py.index (month_table year) (month - 1) = Ok len).
  { replace (month - 1) with (Z.of_nat (Z.to_nat (month - 1))) by lia.
    rewrite index_of_nat.
    destruct (nth_error (month_table year) (Z.to_nat (month - 1))) eqn:E;
      [eexists; reflexivity |].
    apply nth_error_None in E. rewrite month_table_length in E. lia. }
  destruct Hlen as (len & Hlen).
  destruct (month_epoch_days month year len Hy Hm Hlen)
    as (Hc & Hend & Hfirst & Hlast & Hlt & Heq).
  assert (Hname : exists name, Py.index MONTH (month - 1) = Ok name).
  { replace (month - 1) with (Z.of_nat (Z.to_nat (month - 1))) by lia.
    rewrite index_of_nat.
    destruct (nth_error MONTH (Z.to_nat (month - 1))) eqn:E;
      [eexists; reflexivity |].
    apply nth_error_None in E. simpl in E. lia. }
  destruct Hname as (name & Hname).
  assert (Hstart1 : 1 <= Exact.getEpocDay 1 1 year).
  { rewrite getEpocDay_split by lia.
    pose proof (slice_sum_nonneg year (1 - 1)). lia. }
  set (start := Exact.getEpocDay 1 month year) in *.
  set (stop := Exact.getEpocDay len month year) in *.
  assert (Hdow : 1 <= getEpocDayOfWeek start <= 7)
    by (unfold getEpocDayOfWeek; change (Py.len WEEK) with 7; lia).
  assert (Hrows_bad :
    year mod 8 = 1 /\ month = 12 ->
    forall html0 h,
    Exact.calendar_rows (rows_budget stop (start + 1 - getEpocDayOfWeek start))
      start stop (start + 1 - getEpocDayOfWeek start) html0 = Ok h -> False).
  { intros (Hy1 & Hm12) html0 h Hr.
    assert (Ht1 : start + 1 - getEpocDayOfWeek start <= stop <= stop) by lia.
    assert (Ht2 : start <= stop) by lia.
    destruct (calendar_rows_returns_inv _ _ _ _ _ _ Hr stop Ht1 Ht2) as (d & Hd).
    assert (Hyr : Exact.getYear stop = year) by (apply getYear_within; lia).
    assert (H1 : 1 <= stop) by lia.
    destruct (getDayInMonth_outcome stop H1)
      as [(_ & Hno) | (Hraise & _)]; [| congruence].
    apply Hno. rewrite Hyr. split; [exact Hy1 | apply Heq; exact Hm12]. }
  assert (Hret : ~ (year mod 8 = 1 /\ month = 12) ->
                 exists html, Exact.calendar month year = Ok html).
  { intros Hno. unfold Exact.calendar. fold (month_table year).
    rewrite Hlen. cbn [Py.bind]. rewrite Hname. cbn [Py.bind].
    fold start. fold stop.
    match goal with
    | |- context [Exact.calendar_rows ?f ?s ?e ?t ?h0] =>
        destruct (calendar_rows_returns f s e t h0) as (h & Hh)
    end.
    - intros t' Ht Hs.
      assert (Hyr : Exact.getYear t' = year) by (apply getYear_within; lia).
      assert (H1 : 1 <= t') by lia.
      destruct (getDayInMonth_outcome t' H1)
        as [(Hok & _) | (_ & Hy1 & Ht')]; [exact Hok |].
      exfalso. apply Hno. rewrite Hyr in Hy1, Ht'. split; [exact Hy1 |].
      destruct (Z.eq_dec month 12) as [E | E]; [exact E |].
      assert (Hm11 : month <= 11) by lia.
      specialize (Hlt Hm11). lia.
    - unfold rows_budget. lia.
    - unfold rows_budget. lia.
    - rewrite Hh. cbn [Py.bind]. eexists. reflexivity. }
  split.
  - split.
    + intros Hraise.
      destruct (Z.eq_dec (year mod 8) 1) as [Hy1 | Hy1];
        destruct (Z.eq_dec month 12) as [Hm12 | Hm12];
        try (split; assumption);
        (destruct Hret as (html & Hhtml); [lia | congruence]).
    + intros Hbad.
      destruct (Exact.calendar month year) as [html | x |] eqn:E;
        [| rewrite (exact_calendar_raises _ _ _ E); reflexivity |].
      * exfalso. revert E. unfold Exact.calendar. fold (month_table year).
        rewrite Hlen. cbn [Py.bind]. rewrite Hname. cbn [Py.bind].
        fold start. fold stop. intros E.
        match type of E with
        | context [Exact.calendar_rows ?f ?s ?e ?t ?h0] =>
            destruct (Exact.calendar_rows f s e t h0) as [h | |] eqn:Hr;
              cbn [Py.bind] in E; try discriminate
        end.
        exact (Hrows_bad Hbad _ _ Hr).
      * exfalso. exact (calendar_total month year E).
  - intros Hno. destruct (Hret Hno) as (html & Hhtml).
    destruct (calendar_shape month year html Hhtml) as (name' & rows & Hn' & ->).
    exists name', rows. split; [exact Hn' | exact Hhtml].
Qed.

(** ** Rounding to binary64 *)

Lemma rne_near (n d : Z) :
  0 < d -> - d <= 2 * (Py.rne n d * d - n) <= d.
Proof.
  intros Hd. unfold Py.rne.
  destruct (Z.compare_spec (2 * (n mod d)) d); [destruct (Z.even (n / d)) | |];
    lia.
Qed.

Lemma rne_exact (q d : Z) : 0 < d -> Py.rne (q * d) d = q.
Proof.
  intros Hd. unfold Py.rne.
  rewrite Z.mod_mul, Z.div_mul by lia.
  destruct (Z.compare_spec (2 * 0) d); lia.
Qed.

Lemma pow2_split (k : Z) :
  0 < 2 ^ Z.max 0 k /\ 0 < 2 ^ Z.max 0 (- k) /\
  (0 <= k -> 2 ^ Z.max 0 (- k) = 1) /\
  (k <= 0 -> 2 ^ Z.max 0 k = 1).
Proof.
  split; [apply Z.pow_pos_nonneg; lia |].
  split; [apply Z.pow_pos_nonneg; lia |].
  split; intros H.
  - replace (Z.max 0 (- k)) with 0 by lia. reflexivity.
  - replace (Z.max 0 k) with 0 by lia. reflexivity.
Qed.

Lemma pow2_pos (k : Z) : (0 < Py.pow2 k)%Q.
Proof.
  destruct (pow2_split k) as (H & _).
  unfold Py.pow2, Qlt. cbn [Qnum Qden]. lia.
Qed.

(** What [round_pos] returns: the exponent [k] that brings [n / d] between
    [2^52] and [2^53], and the integer nearest to the scaled value. *)
Lemma round_pos_spec (n d : Z) :
  0 < n -> 0 < d ->
  exists N D,
    0 < D /\
    N * d * 2 ^ Z.max 0 (snd (Py.round_pos n d))
      = n * D * 2 ^ Z.max 0 (- snd (Py.round_pos n d)) /\
    2 ^ 52 * D <= N < 2 ^ 53 * D /\
    fst (Py.round_pos n d) = Py.rne N D.
Proof.
  intros Hn Hd. unfold Py.round_pos.
  set (e := Z.log2 n - Z.log2 d - 53).
  destruct (Z.log2_spec n Hn) as (Ln1 & Ln2).
  destruct (Z.log2_spec d Hd) as (Ld1 & Ld2).
  pose proof (Z.log2_nonneg n) as Ln0. pose proof (Z.log2_nonneg d) as Ld0.
  rewrite Z.pow_succ_r in Ln2, Ld2 by assumption.
  destruct (pow2_split e) as (Pp & Pn & Pk1 & Pk2).
  set (num := n * 2 ^ Z.max 0 (- e)). set (den := d * 2 ^ Z.max 0 e).
  assert (Hden : 0 < den) by (subst den; apply Z.mul_pos_pos; assumption).
  assert (Hb : 2 ^ 52 * den <= num < 2 ^ 54 * den).
  { subst num den. destruct (Z.le_gt_cases 0 e) as [He | He].
    - rewrite (Pk1 He), Z.mul_1_r.
      replace (Z.max 0 e) with e in * by lia.
      assert (E : 2 ^ Z.log2 n = 2 ^ Z.log2 d * 2 ^ e * 2 ^ 53).
      { rewrite <- !Z.pow_add_r by lia. f_equal. lia. }
      assert (0 < 2 ^ e) by assumption.
      split; nia.
    - assert (He' : e <= 0) by lia. rewrite (Pk2 He'), Z.mul_1_r.
      replace (Z.max 0 (- e)) with (- e) in * by lia.
      assert (E : 2 ^ Z.log2 n * 2 ^ (- e) = 2 ^ Z.log2 d * 2 ^ 53).
      { rewrite <- !Z.pow_add_r by lia. f_equal. lia. }
      split; nia. }
  destruct (Z.ltb_spec num (den * 2 ^ 53)) as [Hlt | Hge]; cbn [fst snd].
  - exists num, den. repeat split; try lia.
  - exists num, (2 * den). split; [lia |]. split; [| split; [lia | reflexivity]].
    subst num den.
    destruct (pow2_split (e + 1)) as (Qp & Qn & Qk1 & Qk2).
    destruct (Z.le_gt_cases 0 e) as [He | He].
    + rewrite (Pk1 He), (Qk1 ltac:(lia)).
      replace (Z.max 0 (e + 1)) with (e + 1) by lia.
      replace (Z.max 0 e) with e by lia.
      rewrite Z.pow_add_r by lia. ring.
    + assert (He' : e <= 0) by lia.
      rewrite (Pk2 He'), (Qk2 ltac:(lia)).
      replace (Z.max 0 (- e)) with (- (e + 1) + 1) by lia.
      replace (Z.max 0 (- (e + 1))) with (- (e + 1)) by lia.
      rewrite Z.pow_add_r by lia. ring.
Qed.

Lemma pow2_num_den (k : Z) :
  Qnum (Py.pow2 k) = 2 ^ Z.max 0 k /\
  Z.pos (Qden (Py.pow2 k)) = 2 ^ Z.max 0 (- k).
Proof.
  destruct (pow2_split k) as (_ & H & _).
  unfold Py.pow2. cbn [Qnum Qden]. split; [reflexivity |].
  apply Z2Pos.id. exact H.
Qed.

(** The value [round_pos] denotes, against the rational it rounds. *)
Lemma round_pos_value (p d : positive) :
  let mk := Py.round_pos (Z.pos p) (Z.pos d) in
  exists N D,
    0 < D /\ 2 ^ 52 * D <= N < 2 ^ 53 * D /\
    fst mk = Py.rne N D /\
    (Z.pos p # d == (N # Z.to_pos D) * Py.pow2 (snd mk))%Q.
Proof.
  intros mk.
  destruct (round_pos_spec (Z.pos p) (Z.pos d) eq_refl eq_refl)
    as (N & D & HD & Hrel & Hb & Hm).
  fold mk in Hrel, Hm.
  exists N, D. repeat split; try assumption; try lia.
  destruct (pow2_num_den (snd mk)) as (Hn & Hd).
  unfold Qeq, Qmult. cbn [Qnum Qden].
  rewrite Pos2Z.inj_mul, Hn, Hd, Z2Pos.id by exact HD.
  lia.
Qed.

Lemma round_pos_error (p d : positive) :
  let mk := Py.round_pos (Z.pos p) (Z.pos d) in
  let x := Z.pos p # d in
  let v := (inject_Z (fst mk) * Py.pow2 (snd mk))%Q in
  (x * (1 - binary64_eps) <= v /\ v <= x * (1 + binary64_eps))%Q.
Proof.
  intros mk x v.
  destruct (round_pos_value p d) as (N & D & HD & Hb & Hm & Hx).
  fold mk in Hm, Hx. fold x in Hx.
  pose proof (rne_near N D HD) as Hnear. rewrite <- Hm in Hnear.
  pose proof (pow2_pos (snd mk)) as Hp.
  set (r := N # Z.to_pos D) in *.
  assert (Hr : (r * (1 - binary64_eps) <= inject_Z (fst mk)
                /\ inject_Z (fst mk) <= r * (1 + binary64_eps))%Q).
  { subst r. unfold Qle, binary64_eps. cbn.
    rewrite !Pos2Z.inj_mul, !Z2Pos.id by exact HD. split; lia. }
  subst v. split.
  - rewrite Hx.
    setoid_replace (r * Py.pow2 (snd mk) * (1 - binary64_eps))%Q
      with (r * (1 - binary64_eps) * Py.pow2 (snd mk))%Q by ring.
    apply Qmult_le_compat_r; [apply Hr | apply Qlt_le_weak; exact Hp].
  - rewrite Hx.
    setoid_replace (r * Py.pow2 (snd mk) * (1 + binary64_eps))%Q
      with (r * (1 + binary64_eps) * Py.pow2 (snd mk))%Q by ring.
    apply Qmult_le_compat_r; [apply Hr | apply Qlt_le_weak; exact Hp].
Qed.

Lemma round_pos_exact (p d : positive) (M : Z) :
  0 < M < 2 ^ 53 -> (Z.pos p # d == M # 8)%Q ->
  let mk := Py.round_pos (Z.pos p) (Z.pos d) in
  (inject_Z (fst mk) * Py.pow2 (snd mk) == Z.pos p # d)%Q.
Proof.
  intros HM Hx mk.
  destruct (round_pos_spec (Z.pos p) (Z.pos d) eq_refl eq_refl)
    as (N & D & HD & Hrel & Hb & Hm).
  fold mk in Hrel, Hm.
  unfold Qeq in Hx. cbn [Qnum Qden] in Hx.
  destruct (pow2_split (snd mk)) as (HA & HB & Hk1 & Hk2).
  destruct (pow2_num_den (snd mk)) as (Hn & Hd).
  set (A := 2 ^ Z.max 0 (snd mk)) in *.
  set (B := 2 ^ Z.max 0 (- snd mk)) in *.
  assert (E1 : 8 * N * A = M * D * B).
  { apply (Z.mul_reg_r _ _ (Z.pos d)); [lia |].
    replace (8 * N * A * Z.pos d) with (8 * (N * Z.pos d * A)) by ring.
    rewrite Hrel. replace (Z.pos p * 8) with (8 * Z.pos p) in Hx by ring.
    replace (8 * (Z.pos p * D * B)) with ((8 * Z.pos p) * D * B) by ring.
    rewrite Hx. ring. }
  assert (E2 : 4 * A < B).
  { assert (2 ^ 55 * (D * A) <= M * (D * B)) by nia.
    assert (M * (D * B) < 2 ^ 53 * (D * B)) by nia.
    assert (0 < D * A) by nia. nia. }
  assert (Hk : snd mk <= -3).
  { destruct (Z.le_gt_cases 0 (snd mk)) as [H | H].
    - subst B. rewrite (Hk1 H) in E2. lia.
    - destruct (Z.le_gt_cases (snd mk) (-3)) as [H3 | H3]; [exact H3 |].
      exfalso. subst B.
      replace (Z.max 0 (- snd mk)) with (- snd mk) in E2 by lia.
      assert (2 ^ (- snd mk) <= 2 ^ 2) by (apply Z.pow_le_mono_r; lia).
      change (2 ^ 2) with 4 in *. lia. }
  assert (EA : A = 1) by (subst A; apply Hk2; lia).
  assert (EB : B = 8 * 2 ^ (- snd mk - 3)).
  { subst B. replace (Z.max 0 (- snd mk)) with (3 + (- snd mk - 3)) by lia.
    rewrite Z.pow_add_r by lia. reflexivity. }
  set (q := M * 2 ^ (- snd mk - 3)).
  assert (EN : N = q * D) by (subst q; rewrite EA, EB in E1; lia).
  assert (Em : fst mk = q) by (rewrite Hm, EN; apply rne_exact; exact HD).
  unfold Qeq, Qmult. cbn [Qnum Qden inject_Z].
  rewrite Pos2Z.inj_mul, Hn, Hd. fold A B. rewrite Em, EA, EB.
  change (Z.pos 1) with 1. subst q. lia.
Qed.

Lemma Qred_inject_Z (n : Z) : Qred (inject_Z n) = inject_Z n.
Proof.
  apply Qred_identity. cbn [inject_Z Qnum Qden]. apply Z.gcd_1_r.
Qed.

(** A multiple of 1/8 below [2^50] in magnitude is a binary64 value:
    rounding leaves it as it is. *)
Lemma round64_exact (x : Q) (M : Z) :
  Z.abs M < 2 ^ 53 -> (x == M # 8)%Q -> Py.round64 x = Qred x.
Proof.
  intros HM Hx. destruct x as [n d]. unfold Py.round64. cbn [Qnum Qden].
  destruct n as [| p | p].
  - symmetry. apply (Qred_complete (0 # d) 0). reflexivity.
  - assert (HM' : 0 < M < 2 ^ 53).
    { unfold Qeq in Hx. cbn [Qnum Qden] in Hx. lia. }
    pose proof (round_pos_exact p d M HM' Hx) as H. cbv zeta in H.
    destruct (Py.round_pos (Z.pos p) (Z.pos d)) as [m k]. cbn [fst snd] in H.
    apply Qred_complete. exact H.
  - assert (HM' : 0 < - M < 2 ^ 53).
    { unfold Qeq in Hx. cbn [Qnum Qden] in Hx. lia. }
    assert (Hx' : (Z.pos p # d == - M # 8)%Q).
    { unfold Qeq in *. cbn [Qnum Qden] in *. lia. }
    pose proof (round_pos_exact p d (- M) HM' Hx') as H. cbv zeta in H.
    destruct (Py.round_pos (Z.pos p) (Z.pos d)) as [m k]. cbn [fst snd] in H.
    apply Qred_complete. rewrite H. reflexivity.
Qed.

(** Rounding a positive number moves it by at most [2^-53] of itself. *)
Lemma round64_error (x : Q) :
  (0 < x)%Q ->
  (x * (1 - binary64_eps) <= Py.round64 x
   /\ Py.round64 x <= x * (1 + binary64_eps))%Q.
Proof.
  intros Hx. destruct x as [n d]. unfold Py.round64. cbn [Qnum Qden].
  destruct n as [| p | p]; try (unfold Qlt in Hx; cbn in Hx; lia).
  pose proof (round_pos_error p d) as H. cbv zeta in H.
  destruct (Py.round_pos (Z.pos p) (Z.pos d)) as [m k]. cbn [fst snd] in H.
  rewrite Qred_correct. exact H.
Qed.

Lemma no_overflow (y : Q) (B : Z) :
  (Qabs y <= inject_Z B)%Q -> B < 2 ^ 1024 ->
  Qle_bool (inject_Z (2 ^ 1024)) (Qabs y) = false.
Proof.
  intros Hy HB.
  destruct (Qle_bool (inject_Z (2 ^ 1024)) (Qabs y)) eqn:E; [| reflexivity].
  apply Qle_bool_iff in E.
  pose proof (Qle_trans _ _ _ E Hy) as H.
  rewrite <- Zle_Qle in H. lia.
Qed.

Lemma fl_exact (x : Q) (M : Z) :
  Z.abs M < 2 ^ 53 -> (x == M # 8)%Q -> Py.fl x = Ok (Qred x).
Proof.
  intros HM Hx. unfold Py.fl. rewrite (round64_exact x M HM Hx).
  rewrite (no_overflow (Qred x) (2 ^ 53)); [reflexivity | |].
  - rewrite Qred_correct, Hx.
    unfold Qabs, Qle. cbn [Qnum Qden inject_Z]. lia.
  - apply Z.pow_lt_mono_r; lia.
Qed.

Lemma fl_rounded (x : Q) (B : Z) :
  (0 < x)%Q -> (x <= inject_Z B)%Q -> 2 * B < 2 ^ 1024 ->
  Py.fl x = Ok (Py.round64 x).
Proof.
  intros Hx HB Hbig. unfold Py.fl.
  destruct (round64_error x Hx) as (Hlo & Hhi).
  rewrite (no_overflow (Py.round64 x) (2 * B)); [reflexivity | | exact Hbig].
  assert (H0 : (0 <= Py.round64 x)%Q).
  { apply Qle_trans with (x * (1 - binary64_eps))%Q; [| exact Hlo].
    unfold binary64_eps. apply Qmult_le_0_compat; [lra | lra]. }
  rewrite Qabs_pos by exact H0.
  apply Qle_trans with (x * (1 + binary64_eps))%Q; [exact Hhi |].
  rewrite inject_Z_mult. change (inject_Z 2) with 2%Q.
  unfold binary64_eps.
  assert (H1 : (x * (1 + (1 # 9007199254740992)) <= x * 2)%Q).
  { apply Qmult_le_l; [exact Hx | lra]. }
  set (b := inject_Z B) in *. lra.
Qed.

Lemma float_exact (n : Z) :
  Z.abs n < 2 ^ 50 -> Py.float n = Ok (inject_Z n).
Proof.
  intros Hn. unfold Py.float.
  rewrite (fl_exact (inject_Z n) (8 * n)).
  - rewrite Qred_inject_Z. reflexivity.
  - change (2 ^ 53) with (8 * 2 ^ 50). lia.
  - unfold Qeq. cbn [Qnum Qden inject_Z]. lia.
Qed.

Lemma int_Qeq (x y : Q) : (x == y)%Q -> Py.int x = Py.int y.
Proof.
  destruct x as [a b], y as [c d]. unfold Qeq, Py.int. cbn [Qnum Qden].
  intros H.
  assert (Hs : 0 <= a /\ 0 <= c \/ a <= 0 /\ c <= 0) by nia.
  destruct Hs as [(Ha & Hc) | (Ha & Hc)].
  - rewrite !Z.quot_div_nonneg by lia.
    apply Z.div_unique with (r := (a mod Z.pos b) * 0 + (c - Z.pos d * (a / Z.pos b))).
    + left. nia.
    + ring.
  - apply Z.opp_inj. rewrite <- !Z.quot_opp_l by lia.
    rewrite !Z.quot_div_nonneg by lia.
    apply Z.div_unique with (r := (- c) - Z.pos d * (- a / Z.pos b)).
    + left. nia.
    + ring.
Qed.

(** ** The script's floats, where they are exact *)

Lemma yearLength_value : yearLength = Ok (2921 # 8).
Proof. vm_compute. reflexivity. Qed.

(** A positive quotient below [2^50] rounds as [rounded_quotient] says. *)
Lemma round64_quotient (t : Q) :
  (0 < t)%Q -> (t <= inject_Z (2 ^ 50 - 1))%Q -> rounded_quotient t (Py.round64 t).
Proof.
  intros H0 Hb. destruct (round64_error t H0) as (Hlo & Hhi).
  split; [exact Hlo | split; [exact Hhi |]].
  intros n Hn.
  assert (Hn' : 0 < n <= 2 ^ 50 - 1).
  { rewrite Hn in H0, Hb. rewrite <- Zle_Qle in Hb.
    change 0%Q with (inject_Z 0) in H0. rewrite <- Zlt_Qlt in H0. lia. }
  rewrite (round64_exact t (8 * n)).
  - rewrite Qred_correct. exact Hn.
  - change (2 ^ 53) with (8 * 2 ^ 50). lia.
  - rewrite Hn. unfold Qeq. cbn [Qnum Qden inject_Z]. lia.
Qed.

Lemma year_quotient_bounds (e : Z) :
  0 < e ->
  let t := (inject_Z e / (2921 # 8))%Q in
  (0 < t)%Q /\ (t <= inject_Z e)%Q.
Proof.
  intros He t.
  assert (N : Qnum t = e * 8) by reflexivity.
  assert (D : Qden t = 2921%positive) by reflexivity.
  unfold Qlt, Qle. rewrite N, D. cbn [Qnum Qden inject_Z]. lia.
Qed.

(** Below [2^50] the script's year is the exact one. *)
Lemma getYear_exact (e : Z) :
  1 <= e < 2 ^ 50 -> getYear e = Ok (Exact.getYear e).
Proof.
  intros He. unfold getYear. rewrite yearLength_value. cbn [Py.bind].
  rewrite float_exact by lia. cbn [Py.bind]. unfold Py.fdiv.
  destruct (year_quotient_bounds e) as (H0 & Hb); [lia |].
  rewrite (fl_rounded _ e H0 Hb).
  - cbn [Py.bind]. f_equal. apply getYear_rounding; [lia |].
    change (inject_Z e / (inject_Z YEAR_LENGTH + 1 / inject_Z LEAP_YEAR))%Q
      with (inject_Z e / (2921 # 8))%Q.
    apply round64_quotient; [exact H0 |].
    apply Qle_trans with (inject_Z e); [exact Hb |].
    rewrite <- Zle_Qle. lia.
  - apply Z.lt_trans with (2 ^ 51); [change (2 ^ 51) with (2 * 2 ^ 50); lia |].
    apply Z.pow_lt_mono_r; lia.
Qed.

(** Below [2^50] the script's day in the year is the exact one: the
    product and the difference are multiples of 1/8 under [2^53]. *)
Lemma getDayInYear_exact (e : Z) :
  1 <= e < 2 ^ 50 -> getDayInYear e = Ok (Exact.getDayInYear e).
Proof.
  intros He. unfold getDayInYear. rewrite (getYear_exact e He).
  cbn [Py.bind]. rewrite yearLength_value. cbn [Py.bind].
  pose proof (getYear_bracket e) as Hb.
  unfold Exact.getDayInYear. set (y := Exact.getYear e) in *.
  assert (H50 : 2 ^ 53 = 8 * 2 ^ 50) by reflexivity.
  rewrite (float_exact (y - 1)) by lia. cbn [Py.bind]. unfold Py.fmul.
  rewrite (fl_exact _ (2921 * (y - 1))); cycle 1.
  { lia. }
  { unfold Qeq, Qmult, inject_Z. cbn [Qnum Qden]. lia. }
  cbn [Py.bind]. rewrite (float_exact e) by lia. cbn [Py.bind].
  unfold Py.fsub.
  assert (Hq : (inject_Z e - Qred (inject_Z (y - 1) * (2921 # 8))
                == (8 * e - 2921 * (y - 1)) # 8)%Q).
  { rewrite Qred_correct.
    unfold Qeq, Qminus, Qplus, Qopp, Qmult, inject_Z. cbn [Qnum Qden]. lia. }
  rewrite (fl_exact _ (8 * e - 2921 * (y - 1)) ltac:(lia) Hq). cbn [Py.bind].
  f_equal. f_equal. apply int_Qeq. rewrite !Qred_correct. reflexivity.
Qed.

Lemma getMonthInYear_exact (e : Z) :
  1 <= e < 2 ^ 50 -> getMonthInYear e = Exact.getMonthInYear e.
Proof.
  intros He. unfold getMonthInYear, Exact.getMonthInYear.
  rewrite (getYear_exact e He). cbn [Py.bind].
  rewrite (getDayInYear_exact e He). cbn [Py.bind]. reflexivity.
Qed.

Lemma getDayInMonth_exact (e : Z) :
  1 <= e < 2 ^ 50 -> getDayInMonth e = Exact.getDayInMonth e.
Proof.
  intros He. unfold getDayInMonth, Exact.getDayInMonth.
  rewrite (getYear_exact e He). cbn [Py.bind].
  rewrite (getDayInYear_exact e He). cbn [Py.bind]. reflexivity.
Qed.

Lemma slice_sum_le (y m : Z) :
  Py.sum (Py.slice_to (month_table y) m) <= 366.
Proof.
  assert (Hall : forall k : nat, Py.sum (firstn k (month_table y)) <= 366).
  { intros k.
    apply Z.le_trans with (Py.sum (firstn (Nat.max k 12) (month_table y))).
    - apply sum_firstn_mono; [apply month_table_nonneg | apply Nat.le_max_l].
    - rewrite firstn_all2 by (rewrite month_table_length; apply Nat.le_max_r).
      unfold month_table. destruct (y mod 8 =? 0); vm_compute; discriminate. }
  unfold Py.slice_to. destruct (m <? 0); apply Hall.
Qed.

(** With the year within [2^41] and the day number within [2^40] in
    magnitude, every float of [getEpocDay] is a multiple of 1/8 under
    [2^53], and the script's epoch day is the exact one. *)
Lemma getEpocDay_exact (d m y : Z) :
  - 2 ^ 41 <= y <= 2 ^ 41 -> - 2 ^ 40 <= d <= 2 ^ 40 ->
  getEpocDay d m y = Ok (Exact.getEpocDay d m y).
Proof.
  intros Hy Hd. unfold getEpocDay, Exact.getEpocDay.
  fold (month_table y).
  pose proof (slice_sum_nonneg y (m - 1)) as Hs0.
  pose proof (slice_sum_le y (m - 1)) as Hs1.
  set (s := Py.sum (Py.slice_to (month_table y) (m - 1))) in *.
  change (2 ^ 41) with 2199023255552 in Hy.
  change (2 ^ 40) with 1099511627776 in Hd.
  assert (H50 : 2 ^ 50 = 1125899906842624) by reflexivity.
  assert (H53 : 2 ^ 53 = 9007199254740992) by reflexivity.
  rewrite yearLength_value. cbn [Py.bind].
  rewrite (float_exact (y - 1)) by lia. cbn [Py.bind]. unfold Py.fmul.
  rewrite (fl_exact _ (2921 * (y - 1))); cycle 1.
  { lia. }
  { unfold Qeq, Qmult, inject_Z. cbn [Qnum Qden]. lia. }
  cbn [Py.bind]. rewrite (float_exact s) by lia. cbn [Py.bind].
  unfold Py.fadd.
  assert (Hq1 : (Qred ((2921 # 8) * inject_Z (y - 1)) + inject_Z s
                 == (2921 * (y - 1) + 8 * s) # 8)%Q).
  { rewrite Qred_correct.
    unfold Qeq, Qplus, Qmult, inject_Z. cbn [Qnum Qden]. lia. }
  rewrite (fl_exact _ (2921 * (y - 1) + 8 * s) ltac:(lia) Hq1). cbn [Py.bind].
  rewrite (float_exact d) by lia. cbn [Py.bind].
  assert (Hq2 : (Qred (Qred ((2921 # 8) * inject_Z (y - 1)) + inject_Z s)
                 + inject_Z d
                 == (2921 * (y - 1) + 8 * s + 8 * d) # 8)%Q).
  { rewrite !Qred_correct.
    unfold Qeq, Qplus, Qmult, inject_Z. cbn [Qnum Qden]. lia. }
  rewrite (fl_exact _ (2921 * (y - 1) + 8 * s + 8 * d) ltac:(lia) Hq2). cbn [Py.bind].
  f_equal. apply int_Qeq. rewrite !Qred_correct. reflexivity.
Qed.

(** Rounding is symmetric about zero, and so are the float operations. *)
Lemma round64_opp (x : Q) : Py.round64 (- x) = (- Py.round64 x)%Q.
Proof.
  destruct x as [[| p | p] d]; unfold Py.round64; cbn [Qopp Qnum Qden Z.opp].
  - reflexivity.
  - destruct (Py.round_pos (Z.pos p) (Z.pos d)) as [m k]. apply Qred_opp.
  - destruct (Py.round_pos (Z.pos p) (Z.pos d)) as [m k].
    rewrite Qred_opp.
    destruct (Qred (inject_Z m * Py.pow2 k)) as [a b].
    unfold Qopp. cbn [Qnum Qden]. rewrite Z.opp_involutive. reflexivity.
Qed.

Lemma fl_opp (x v : Q) : Py.fl x = Ok v -> Py.fl (- x) = Ok (- v)%Q.
Proof.
  unfold Py.fl. rewrite round64_opp.
  rewrite (Qleb_comp _ _ (Qeq_refl _) _ _ (Qabs_opp (Py.round64 x))).
  destruct (Qle_bool _ _); [discriminate |].
  intros H. injection H as <-. reflexivity.
Qed.

Lemma int_opp (x : Q) : Py.int (- x) = - Py.int x.
Proof.
  destruct x as [a b]. unfold Py.int. cbn [Qopp Qnum Qden].
  apply Z.quot_opp_l. discriminate.
Qed.

Lemma moon_quotient_bounds (e : Z) :
  0 < e ->
  let t := (inject_Z e / MOON_PERIOD)%Q in
  (0 < t)%Q /\ (t <= inject_Z e)%Q.
Proof.
  intros He t.
  assert (N : Qnum t = e * 2) by reflexivity.
  assert (D : Qden t = 59%positive) by reflexivity.
  unfold Qlt, Qle. rewrite N, D. cbn [Qnum Qden inject_Z]. lia.
Qed.

Lemma pow2_1024_above (e : Z) : e < 2 ^ 50 -> 2 * e < 2 ^ 1024.
Proof.
  intros He.
  apply Z.lt_trans with (2 ^ 51); [change (2 ^ 51) with (2 * 2 ^ 50); lia |].
  apply Z.pow_lt_mono_r; lia.
Qed.

(** The moon quotient below [2^50] in magnitude: the division returns, and
    [int] of what it returns is [int] of the exact quotient. *)
Lemma moon_quotient (e : Z) :
  - 2 ^ 50 < e < 2 ^ 50 ->
  exists q, Py.fdiv (inject_Z e) MOON_PERIOD = Ok q
            /\ Py.int q = Py.int (inject_Z e / MOON_PERIOD).
Proof.
  assert (Hpos : forall e, 0 < e < 2 ^ 50 ->
    Py.fdiv (inject_Z e) MOON_PERIOD = Ok (Py.round64 (inject_Z e / MOON_PERIOD))
    /\ Py.int (Py.round64 (inject_Z e / MOON_PERIOD))
       = Py.int (inject_Z e / MOON_PERIOD)).
  { intros e' He'. destruct (moon_quotient_bounds e') as (H0 & Hb); [lia |].
    split.
    - unfold Py.fdiv. apply (fl_rounded _ e' H0 Hb). apply pow2_1024_above; lia.
    - apply moonDay_rounding; [lia |].
      apply round64_quotient; [exact H0 |].
      apply Qle_trans with (inject_Z e'); [exact Hb |].
      rewrite <- Zle_Qle. lia. }
  intros He.
  destruct (Z.lt_trichotomy e 0) as [Hneg | [-> | Hp]].
  - destruct (Hpos (- e)) as (Hq & Hi); [lia |].
    assert (Ht : (inject_Z e / MOON_PERIOD)%Q
                 = (- (inject_Z (- e) / MOON_PERIOD))%Q).
    { unfold Qdiv, Qmult, Qinv, Qopp, inject_Z, MOON_PERIOD.
      cbn [Qnum Qden]. f_equal. lia. }
    exists (- Py.round64 (inject_Z (- e) / MOON_PERIOD))%Q. split.
    + unfold Py.fdiv in *. rewrite Ht. apply fl_opp. exact Hq.
    + rewrite Ht, !int_opp. f_equal. exact Hi.
  - exists 0%Q. split; vm_compute; reflexivity.
  - destruct (Hpos e) as (Hq & Hi); [lia |]. eexists. split; eassumption.
Qed.

(** Below [2^50] in magnitude the script's position in the lunar cycle is
    the exact one. *)
Lemma moonDayOf_exact (e : Z) :
  - 2 ^ 50 < e < 2 ^ 50 -> moonDayOf e = Ok (Exact.moonDayOf e).
Proof.
  intros He. unfold moonDayOf, Exact.moonDayOf.
  rewrite (float_exact e) by lia. cbn [Py.bind].
  destruct (moon_quotient e He) as (q & Hq & Hi).
  rewrite Hq. cbn [Py.bind]. rewrite Hi.
  set (k := Py.int (inject_Z e / MOON_PERIOD)).
  assert (Hk : k = (e * 2) ÷ 59) by reflexivity.
  assert (H50 : 2 ^ 50 = 1125899906842624) by reflexivity.
  assert (H53 : 2 ^ 53 = 9007199254740992) by reflexivity.
  rewrite (float_exact k) by lia. cbn [Py.bind]. unfold Py.fmul.
  rewrite (fl_exact _ (236 * k)); cycle 1.
  { lia. }
  { unfold Qeq, Qmult, inject_Z, MOON_PERIOD. cbn [Qnum Qden]. lia. }
  cbn [Py.bind]. f_equal. f_equal. apply int_Qeq. apply Qred_correct.
Qed.

(** The epoch day of such a date is below [2^50] in magnitude. *)
Lemma getEpocDay_bound (d m y : Z) :
  - 2 ^ 41 <= y <= 2 ^ 41 -> - 2 ^ 40 <= d <= 2 ^ 40 ->
  - 2 ^ 50 < Exact.getEpocDay d m y < 2 ^ 50.
Proof.
  intros Hy Hd. rewrite getEpocDay_Z. fold (month_table y).
  pose proof (slice_sum_nonneg y (m - 1)) as Hs0.
  pose proof (slice_sum_le y (m - 1)) as Hs1.
  change (2 ^ 41) with 2199023255552 in Hy.
  change (2 ^ 40) with 1099511627776 in Hd.
  change (2 ^ 50) with 1125899906842624. lia.
Qed.

Lemma getDayOfWeek_exact (d m y : Z) :
  - 2 ^ 41 <= y <= 2 ^ 41 -> - 2 ^ 40 <= d <= 2 ^ 40 ->
  getDayOfWeek d m y = Ok (Exact.getDayOfWeek d m y).
Proof.
  intros Hy Hd. unfold getDayOfWeek.
  rewrite (getEpocDay_exact d m y Hy Hd). reflexivity.
Qed.

Lemma getMoonPhase_exact (d m y : Z) :
  - 2 ^ 41 <= y <= 2 ^ 41 -> - 2 ^ 40 <= d <= 2 ^ 40 ->
  getMoonPhase d m y = Exact.getMoonPhase d m y.
Proof.
  intros Hy Hd. unfold getMoonPhase.
  rewrite (getEpocDay_exact d m y Hy Hd). cbn [Py.bind].
  rewrite (moonDayOf_exact _ (getEpocDay_bound d m y Hy Hd)). reflexivity.
Qed.

(** The rows of a month that lies between epoch day 1 and [2^50]. *)
Lemma calendar_rows_exact (fuel : nat) :
  forall s e t html,
  1 <= s -> e < 2 ^ 50 ->
  calendar_rows fuel s e t html = Exact.calendar_rows fuel s e t html.
Proof.
  induction fuel as [| fuel IH]; intros s e t html Hs He; [reflexivity |].
  cbn [calendar_rows Exact.calendar_rows].
  destruct (Z.leb_spec t e) as [Hte |]; [| reflexivity].
  destruct (Z.ltb_spec t s) as [Hts | Hts]; cbn [Py.bind].
  - apply IH; assumption.
  - rewrite (getDayInMonth_exact t) by lia.
    destruct (Exact.getDayInMonth t); cbn [Py.bind]; try reflexivity.
    apply IH; assumption.
Qed.

(** From year 1 to year [2^41] the script renders what the exact
    computation renders. *)
Lemma calendar_exact (month year : Z) :
  1 <= year <= 2 ^ 41 -> calendar month year = Exact.calendar month year.
Proof.
  intros Hy. unfold calendar, Exact.calendar.
  assert (Hy' : - 2 ^ 41 <= year <= 2 ^ 41) by lia.
  assert (H1 : - 2 ^ 40 <= 1 <= 2 ^ 40) by (split; discriminate).
  rewrite (getEpocDay_exact 1 month year Hy' H1). cbn [Py.bind].
  fold (month_table year).
  destruct (Py.index (month_table year) (month - 1)) as [len | x |] eqn:E;
    cbn [Py.bind]; try reflexivity.
  assert (Hlen : - 2 ^ 40 <= len <= 2 ^ 40).
  { assert (In len (month_table year)).
    { revert E. unfold Py.index.
      destruct (_ <? 0); [discriminate |].
      destruct (nth_error _ _) eqn:En; [| discriminate].
      intros H; injection H as <-. eapply nth_error_In; eassumption. }
    change (2 ^ 40) with 1099511627776.
    unfold month_table in H. destruct (year mod 8 =? 0); cbn in H; lia. }
  rewrite (getEpocDay_exact len month year Hy' Hlen). cbn [Py.bind].
  destruct (Py.index MONTH (month - 1)) as [name | x |]; cbn [Py.bind];
    try reflexivity.
  rewrite calendar_rows_exact; [reflexivity | |].
  - rewrite getEpocDay_split by lia.
    pose proof (slice_sum_nonneg year (month - 1)). lia.
  - apply (getEpocDay_bound len month year Hy' Hlen).
Qed.

(** ** Rounding keeps the order *)

Lemma rne_cases (n d : Z) :
  0 < d ->
  (Py.rne n d = n / d /\ 2 * (n mod d) <= d
   /\ (2 * (n mod d) = d -> Z.even (n / d) = true))
  \/ (Py.rne n d = n / d + 1 /\ d <= 2 * (n mod d)
      /\ (2 * (n mod d) = d -> Z.even (n / d) = false)).
Proof.
  intros Hd. unfold Py.rne.
  destruct (Z.compare_spec (2 * (n mod d)) d) as [E | E | E].
  - destruct (Z.even (n / d)) eqn:Ev; [left | right]; repeat split; lia.
  - left. repeat split; lia.
  - right. repeat split; lia.
Qed.

Lemma div_mono_frac (n1 d1 n2 d2 : Z) :
  0 < d1 -> 0 < d2 -> n1 * d2 <= n2 * d1 ->
  n1 / d1 <= n2 / d2
  /\ (n1 / d1 = n2 / d2 -> (n1 mod d1) * d2 <= (n2 mod d2) * d1).
Proof.
  intros H1 H2 H.
  pose proof (Z.div_mod n1 d1 ltac:(lia)) as E1.
  pose proof (Z.div_mod n2 d2 ltac:(lia)) as E2.
  pose proof (Z.mod_pos_bound n1 d1 H1) as B1.
  pose proof (Z.mod_pos_bound n2 d2 H2) as B2.
  set (q1 := n1 / d1) in *. set (q2 := n2 / d2) in *.
  set (m1 := n1 mod d1) in *. set (m2 := n2 mod d2) in *.
  clearbody q1 q2 m1 m2.
  split.
  - destruct (Z.le_gt_cases q1 q2) as [Hle | Hgt]; [exact Hle | exfalso].
    assert (K1 : (q2 + 1) * (d1 * d2) <= q1 * (d1 * d2))
      by (apply Z.mul_le_mono_nonneg_r; nia).
    assert (K2 : m2 * d1 < d2 * d1) by (apply Z.mul_lt_mono_pos_r; lia).
    assert (K3 : 0 <= m1 * d2) by (apply Z.mul_nonneg_nonneg; lia).
    subst n1 n2. nia.
  - intros ->. subst n1 n2. nia.
Qed.

(** The nearest integer, ties to even, is monotone in the fraction. *)
Lemma rne_mono (n1 d1 n2 d2 : Z) :
  0 < d1 -> 0 < d2 -> n1 * d2 <= n2 * d1 -> Py.rne n1 d1 <= Py.rne n2 d2.
Proof.
  intros H1 H2 H.
  destruct (div_mono_frac n1 d1 n2 d2 H1 H2 H) as (Hq & Hm).
  pose proof (Z.mod_pos_bound n1 d1 H1) as B1.
  pose proof (Z.mod_pos_bound n2 d2 H2) as B2.
  destruct (rne_cases n1 d1 H1) as [(-> & L1 & T1) | (-> & L1 & T1)];
    destruct (rne_cases n2 d2 H2) as [(-> & L2 & T2) | (-> & L2 & T2)];
    try lia.
  destruct (Z.eq_dec (n1 / d1) (n2 / d2)) as [E | E]; [| lia].
  exfalso. specialize (Hm E). rewrite E in T1.
  set (m1 := n1 mod d1) in *. set (m2 := n2 mod d2) in *.
  clearbody m1 m2.
  assert (K1 : d1 * d2 <= 2 * m1 * d2) by (apply Z.mul_le_mono_nonneg_r; lia).
  assert (K2 : 2 * m2 * d1 <= d2 * d1) by (apply Z.mul_le_mono_nonneg_r; lia).
  assert (E1 : 2 * m1 = d1) by nia.
  assert (E2 : 2 * m2 = d2) by nia.
  rewrite (T1 E1) in T2. specialize (T2 E2). discriminate.
Qed.

Lemma rne_between (N D : Z) :
  0 < D -> 2 ^ 52 * D <= N < 2 ^ 53 * D ->
  2 ^ 52 <= Py.rne N D <= 2 ^ 53.
Proof.
  intros HD HN. split.
  - rewrite <- (rne_exact (2 ^ 52) 1) at 1 by lia.
    apply rne_mono; lia.
  - rewrite <- (rne_exact (2 ^ 53) 1) at 1 by lia.
    apply rne_mono; lia.
Qed.

Lemma pow2_shift (k j : Z) :
  0 <= j -> (Py.pow2 (k + j) == Py.pow2 k * inject_Z (2 ^ j))%Q.
Proof.
  intros Hj.
  destruct (pow2_num_den k) as (Nk & Dk).
  destruct (pow2_num_den (k + j)) as (Nj & Dj).
  unfold Qeq, Qmult. cbn [Qnum Qden inject_Z].
  rewrite Pos2Z.inj_mul, Nk, Dk, Nj, Dj. change (Z.pos 1) with 1.
  rewrite !Z.mul_1_r, <- !Z.pow_add_r by lia.
  f_equal. lia.
Qed.

Lemma pow2_step (k1 k2 : Z) :
  k1 < k2 -> (2 * Py.pow2 k1 <= Py.pow2 k2)%Q.
Proof.
  intros H. replace k2 with (k1 + (k2 - k1)) by ring.
  rewrite pow2_shift by lia.
  pose proof (pow2_pos k1) as Hp.
  assert (H2 : (2 <= inject_Z (2 ^ (k2 - k1)))%Q).
  { change 2%Q with (inject_Z 2). rewrite <- Zle_Qle.
    change 2 with (2 ^ 1) at 1. apply Z.pow_le_mono_r; lia. }
  rewrite (Qmult_comm (Py.pow2 k1)).
  apply Qmult_le_compat_r; [exact H2 | apply Qlt_le_weak; exact Hp].
Qed.

Lemma pow2_carry (k1 k2 : Z) :
  k1 < k2 ->
  (inject_Z (2 ^ 53) * Py.pow2 k1 <= inject_Z (2 ^ 52) * Py.pow2 k2)%Q.
Proof.
  intros H. pose proof (pow2_step k1 k2 H) as Hs.
  assert (T : (inject_Z (2 ^ 53) == 2 * inject_Z (2 ^ 52))%Q) by reflexivity.
  rewrite T.
  setoid_replace (2 * inject_Z (2 ^ 52) * Py.pow2 k1)%Q
    with (inject_Z (2 ^ 52) * (2 * Py.pow2 k1))%Q by ring.
  apply Qmult_le_l; [reflexivity | exact Hs].
Qed.

(** The rounded value of a positive fraction is monotone in the fraction,
    across exponents: a significand stays within [2^52 .. 2^53]. *)
Lemma round_pos_mono (p1 d1 p2 d2 : positive) :
  (Z.pos p1 # d1 <= Z.pos p2 # d2)%Q ->
  let mk1 := Py.round_pos (Z.pos p1) (Z.pos d1) in
  let mk2 := Py.round_pos (Z.pos p2) (Z.pos d2) in
  (inject_Z (fst mk1) * Py.pow2 (snd mk1)
   <= inject_Z (fst mk2) * Py.pow2 (snd mk2))%Q.
Proof.
  intros Hx mk1 mk2.
  destruct (round_pos_value p1 d1) as (N1 & D1 & HD1 & Hb1 & Hm1 & Hx1).
  destruct (round_pos_value p2 d2) as (N2 & D2 & HD2 & Hb2 & Hm2 & Hx2).
  fold mk1 in Hm1, Hx1. fold mk2 in Hm2, Hx2.
  pose proof (rne_between N1 D1 HD1 Hb1) as Hr1. rewrite <- Hm1 in Hr1.
  pose proof (rne_between N2 D2 HD2 Hb2) as Hr2. rewrite <- Hm2 in Hr2.
  set (k1 := snd mk1) in *. set (k2 := snd mk2) in *.
  set (m1 := fst mk1) in *. set (m2 := fst mk2) in *.
  pose proof (pow2_pos k1) as P1. pose proof (pow2_pos k2) as P2.
  assert (R1 : (inject_Z (2 ^ 52) <= N1 # Z.to_pos D1
                /\ N1 # Z.to_pos D1 <= inject_Z (2 ^ 53))%Q).
  { unfold Qle. cbn [Qnum Qden inject_Z]. rewrite Z2Pos.id by exact HD1. lia. }
  assert (R2 : (inject_Z (2 ^ 52) <= N2 # Z.to_pos D2
                /\ N2 # Z.to_pos D2 < inject_Z (2 ^ 53))%Q).
  { unfold Qle, Qlt. cbn [Qnum Qden inject_Z].
    rewrite Z2Pos.id by exact HD2. lia. }
  assert (M1 : (inject_Z (2 ^ 52) <= inject_Z m1
                /\ inject_Z m1 <= inject_Z (2 ^ 53))%Q)
    by (rewrite <- !Zle_Qle; exact Hr1).
  assert (M2 : (inject_Z (2 ^ 52) <= inject_Z m2
                /\ inject_Z m2 <= inject_Z (2 ^ 53))%Q)
    by (rewrite <- !Zle_Qle; exact Hr2).
  rewrite Hx1, Hx2 in Hx.
  set (r1 := N1 # Z.to_pos D1) in *. set (r2 := N2 # Z.to_pos D2) in *.
  destruct (Z.lt_trichotomy k1 k2) as [Hlt | [Heq | Hgt]].
  - apply Qle_trans with (inject_Z (2 ^ 53) * Py.pow2 k1)%Q.
    + apply Qmult_le_compat_r; [apply M1 | apply Qlt_le_weak; exact P1].
    + apply Qle_trans with (inject_Z (2 ^ 52) * Py.pow2 k2)%Q.
      * apply pow2_carry. exact Hlt.
      * apply Qmult_le_compat_r; [apply M2 | apply Qlt_le_weak; exact P2].
  - rewrite <- Heq in *.
    assert (Hr : (r1 <= r2)%Q).
    { apply (Qmult_le_r _ _ (Py.pow2 k1)); assumption. }
    apply Qmult_le_compat_r; [| apply Qlt_le_weak; exact P1].
    rewrite <- Zle_Qle. subst m1 m2. rewrite Hm1, Hm2.
    apply rne_mono; try assumption.
    subst r1 r2. unfold Qle in Hr. cbn [Qnum Qden] in Hr.
    rewrite !Z2Pos.id in Hr by assumption. exact Hr.
  - exfalso.
    assert (C1 : (inject_Z (2 ^ 52) * Py.pow2 k1 <= r1 * Py.pow2 k1)%Q).
    { apply Qmult_le_compat_r; [apply R1 | apply Qlt_le_weak; exact P1]. }
    assert (C2 : (r2 * Py.pow2 k2 < inject_Z (2 ^ 53) * Py.pow2 k2)%Q).
    { apply Qmult_lt_compat_r; [exact P2 | apply R2]. }
    assert (C3 : (inject_Z (2 ^ 53) * Py.pow2 k2
                  <= inject_Z (2 ^ 52) * Py.pow2 k1)%Q).
    { apply pow2_carry. exact Hgt. }
    apply (Qlt_irrefl (r2 * Py.pow2 k2)).
    apply Qlt_le_trans with (inject_Z (2 ^ 53) * Py.pow2 k2)%Q; [exact C2 |].
    apply Qle_trans with (inject_Z (2 ^ 52) * Py.pow2 k1)%Q; [exact C3 |].
    apply Qle_trans with (r1 * Py.pow2 k1)%Q; [exact C1 | exact Hx].
Qed.

(** Rounding is monotone on the positive numbers, whatever fractions
    denote them, and keeps them positive. *)
Lemma round64_mono (x y : Q) :
  (0 < x)%Q -> (x <= y)%Q -> (Py.round64 x <= Py.round64 y)%Q.
Proof.
  intros Hx Hxy.
  assert (Hy : (0 < y)%Q) by (apply Qlt_le_trans with x; assumption).
  destruct x as [[| p1 | p1] d1]; try (unfold Qlt in Hx; cbn in Hx; lia).
  destruct y as [[| p2 | p2] d2]; try (unfold Qlt in Hy; cbn in Hy; lia).
  pose proof (round_pos_mono p1 d1 p2 d2 Hxy) as H. cbv zeta in H.
  unfold Py.round64. cbn [Qnum Qden].
  destruct (Py.round_pos (Z.pos p1) (Z.pos d1)) as [m1 k1].
  destruct (Py.round_pos (Z.pos p2) (Z.pos d2)) as [m2 k2].
  cbn [fst snd] in H. rewrite !Qred_correct. exact H.
Qed.

Lemma round64_pos (x : Q) : (0 < x)%Q -> (0 < Py.round64 x)%Q.
Proof.
  intros Hx. destruct (round64_error x Hx) as (Hlo & _).
  apply Qlt_le_trans with (x * (1 - binary64_eps))%Q; [| exact Hlo].
  unfold binary64_eps.
  apply Qmult_lt_0_compat; [exact Hx | reflexivity].
Qed.

(** ** The year of an epoch day, at any magnitude *)

Lemma bind_Ok {A B : Type} (r : result A) (k : A -> result B) (b : B) :
  (x <- r ;; k x) = Ok b -> exists a, r = Ok a /\ k a = Ok b.
Proof.
  destruct r as [a | x |]; cbn [Py.bind]; try discriminate.
  intros H. exists a. split; [reflexivity | exact H].
Qed.

Lemma fl_Ok (x v : Q) : Py.fl x = Ok v -> v = Py.round64 x.
Proof.
  unfold Py.fl. destruct (Qle_bool _ _); [discriminate |].
  intros H. injection H as <-. reflexivity.
Qed.

(** What [getYear] returns, when it returns: the ceiling of the rounded
    quotient of the rounded epoch day. *)
Lemma getYear_Ok (e y : Z) :
  getYear e = Ok y ->
  y = Py.ceil (Py.round64 (Py.round64 (inject_Z e) / (2921 # 8))).
Proof.
  unfold getYear. rewrite yearLength_value. cbn [Py.bind].
  intros H.
  destruct (bind_Ok _ _ _ H) as (f & Hf & H1).
  destruct (bind_Ok _ _ _ H1) as (q & Hq & H2).
  apply fl_Ok in Hf. unfold Py.fdiv in Hq. apply fl_Ok in Hq.
  injection H2 as <-. subst q f. reflexivity.
Qed.

Lemma getYear_order (e1 e2 y1 y2 : Z) :
  1 <= e1 <= e2 -> getYear e1 = Ok y1 -> getYear e2 = Ok y2 -> y1 <= y2.
Proof.
  intros He H1 H2.
  rewrite (getYear_Ok e1 y1 H1), (getYear_Ok e2 y2 H2).
  assert (P1 : (0 < inject_Z e1)%Q).
  { change 0%Q with (inject_Z 0). rewrite <- Zlt_Qlt. lia. }
  assert (L : (inject_Z e1 <= inject_Z e2)%Q) by (rewrite <- Zle_Qle; lia).
  pose proof (round64_pos _ P1) as F1.
  pose proof (round64_mono _ _ P1 L) as FL.
  set (f1 := Py.round64 (inject_Z e1)) in *.
  set (f2 := Py.round64 (inject_Z e2)) in *.
  apply Qceiling_resp_le. apply round64_mono.
  - unfold Qdiv. apply Qmult_lt_0_compat; [exact F1 | reflexivity].
  - unfold Qdiv. apply Qmult_le_compat_r; [exact FL | discriminate].
Qed.

(** [getYear] returns on every epoch day from 1 to below [2^1023]. *)
Lemma getYear_returns (e : Z) :
  1 <= e < 2 ^ 1023 -> exists y, getYear e = Ok y.
Proof.
  intros He. unfold getYear. rewrite yearLength_value. cbn [Py.bind].
  assert (P : (0 < inject_Z e)%Q).
  { change 0%Q with (inject_Z 0). rewrite <- Zlt_Qlt. lia. }
  assert (Hbig : 2 * e < 2 ^ 1024).
  { change (2 ^ 1024) with (2 * 2 ^ 1023). lia. }
  unfold Py.float.
  rewrite (fl_rounded (inject_Z e) e P (Qle_refl _) Hbig). cbn [Py.bind].
  destruct (round64_error _ P) as (Hlo & Hhi).
  pose proof (round64_pos _ P) as F.
  set (f := Py.round64 (inject_Z e)) in *.
  unfold Py.fdiv.
  rewrite (fl_rounded (f / (2921 # 8)) e); cbn [Py.bind].
  - eexists. reflexivity.
  - unfold Qdiv. apply Qmult_lt_0_compat; [exact F | reflexivity].
  - unfold binary64_eps in Hhi. set (E := inject_Z e) in *.
    apply Qle_shift_div_r; [reflexivity |]. lra.
  - exact Hbig.
Qed.

(** From [2^1024] on the epoch day has no float, and [getYear] raises. *)
Lemma getYear_raises (e : Z) :
  2 ^ 1024 <= e -> getYear e = Raise OverflowError.
Proof.
  intros He. unfold getYear. rewrite yearLength_value. cbn [Py.bind].
  unfold Py.float, Py.fl.
  assert (Hedge : Py.round64 (inject_Z (2 ^ 1024)) = inject_Z (2 ^ 1024))
    by (vm_compute; reflexivity).
  assert (P : (0 < inject_Z (2 ^ 1024))%Q) by reflexivity.
  assert (L : (inject_Z (2 ^ 1024) <= inject_Z e)%Q)
    by (rewrite <- Zle_Qle; exact He).
  pose proof (round64_mono _ _ P L) as Hm. rewrite Hedge in Hm.
  assert (Hb : Qle_bool (inject_Z (2 ^ 1024))
                 (Qabs (Py.round64 (inject_Z e))) = true).
  { apply Qle_bool_iff. rewrite Qabs_pos; [exact Hm |].
    apply Qle_trans with (inject_Z (2 ^ 1024)); [discriminate | exact Hm]. }
  rewrite Hb. reflexivity.
Qed.

(** ** The claims about the script *)

(** Every epoch day is the epoch day of the date with that day number in
    month 1 of year 1. *)
Lemma getEpocDay_of_day (e : Z) : Exact.getEpocDay e 1 1 = e.
Proof.
  rewrite getEpocDay_Z.
  change (Py.sum (Py.slice_to (if 1 mod 8 =? 0 then LEAP_DAYS else MONTH_DAYS)
                    (1 - 1))) with 0.
  lia.
Qed.

Lemma getMoonPhase_of_epoch (d m y e : Z) :
  getEpocDay d m y = Ok e -> - 2 ^ 50 < e < 2 ^ 50 ->
  getMoonPhase d m y = Exact.getMoonPhase e 1 1
  /\ moonDayOf e = Ok (Exact.moonDayOf (Exact.getEpocDay e 1 1)).
Proof.
  intros H He. unfold getMoonPhase, Exact.getMoonPhase.
  rewrite H. cbn [Py.bind]. rewrite (moonDayOf_exact e He). cbn [Py.bind].
  rewrite getEpocDay_of_day. split; reflexivity.
Qed.

(** C1: the round trip
    [getMonthInYear(getEpocDay(d, m, y)) == m] and
    [getDayInMonth(getEpocDay(d, m, y)) == d] is claimed for every valid
    date; the script breaks it in year 1.  The valid date 1/1/1 is epoch
    day 1, which [getDayInMonth] reads as day 2, and the valid date 31/12/1
    is epoch day 365, on which [getMonthInYear] and [getDayInMonth] leave
    the month table. *)
Theorem roundtrip_fails_in_year_1 :
  valid_date 1 1 1 /\
  getEpocDay 1 1 1 = Ok 1 /\
  (e <- getEpocDay 1 1 1 ;; getMonthInYear e) = Ok 1 /\
  (e <- getEpocDay 1 1 1 ;; getDayInMonth e) = Ok 2 /\
  valid_date 31 12 1 /\
  getEpocDay 31 12 1 = Ok 365 /\
  (e <- getEpocDay 31 12 1 ;; getMonthInYear e) = Raise IndexError /\
  (e <- getEpocDay 31 12 1 ;; getDayInMonth e) = Raise IndexError.
Proof.
  repeat split; try (vm_compute; reflexivity); vm_compute; intros; discriminate.
Qed.

(** C2, as stated, fails.  Epoch day 2921 is the last day of leap year 8
    and [getDayInYear] gives 366 for it, above the rounded year length 365;
    epoch day 365 of year 1 gives 366 as well, through the day that
    [getDayInYear] adds in the years after a leap year; and far above
    [2^50], where the floats are no longer exact, the result falls below 1
    or reaches 366 in a year that is not a leap year. *)
Lemma getDayInYear_above_rounded :
  yearLengthRounded = 365 /\
  (1 <= 2921 /\ getYear 2921 = Ok 8 /\ getDayInYear 2921 = Ok 366) /\
  (1 <= 365 /\ getYear 365 = Ok 1 /\ getDayInYear 365 = Ok 366) /\
  (1 <= 3609849069669758165 /\
   getDayInYear 3609849069669758165 = Ok (-511)) /\
  (1 <= 1979910159480594 /\
   getYear 1979910159480594 = Ok 5422554356674 /\
   5422554356674 mod 8 = 2 /\
   getDayInYear 1979910159480594 = Ok 366).
Proof.
  repeat split; try (vm_compute; reflexivity); vm_compute; intros; discriminate.
Qed.

(** C2, amended: for an epoch day from 1 to below [2^50], [getYear] and
    [getDayInYear] return, and unless the year is one that follows a leap
    year, the day in the year lies between 1 and the length of that year:
    366 in a leap year ([year % 8 == 0]) and the rounded year length 365
    otherwise. *)
Theorem getDayInYear_range (epochDay : Z) :
  1 <= epochDay < 2 ^ 50 ->
  exists year dayInYear,
    getYear epochDay = Ok year /\
    getDayInYear epochDay = Ok dayInYear /\
    (year mod 8 <> 1 ->
     1 <= dayInYear <=
       (if year mod 8 =? 0 then yearLengthRounded + 1 else yearLengthRounded)).
Proof.
  intros He.
  exists (Exact.getYear epochDay), (Exact.getDayInYear epochDay).
  split; [apply getYear_exact; exact He |].
  split; [apply getDayInYear_exact; exact He |].
  intros Hoff. apply exact_getDayInYear_range; [lia | exact Hoff].
Qed.

Lemma getDayInYear_range_witness :
  exists year dayInYear,
    getYear 2921 = Ok year /\
    getDayInYear 2921 = Ok dayInYear /\
    (year mod 8 <> 1 ->
     1 <= dayInYear <=
       (if year mod 8 =? 0 then yearLengthRounded + 1 else yearLengthRounded)).
Proof.
  apply (getDayInYear_range 2921). split; [lia | reflexivity].
Defined.

(** C3: [getEpocDay(1, 1, 1)] is [1]: the first day of the first month of
    year 1 is epoch day 1. *)
Theorem getEpocDay_origin : getEpocDay 1 1 1 = Ok 1.
Proof. vm_compute. reflexivity. Qed.

(** C4, as stated, fails: in the leap year 31118674061496 the floats of
    [getEpocDay] are rounded to multiples of 2, and the first days of
    months 3 and 2 are 32 epoch days apart. *)
Lemma month2_length_drifts :
  1 <= 31118674061496 /\
  31118674061496 mod 8 = 0 /\
  getEpocDay 1 3 31118674061496 = Ok 11362205866703424 /\
  getEpocDay 1 2 31118674061496 = Ok 11362205866703392 /\
  11362205866703424 - 11362205866703392 = 32.
Proof.
  repeat split; try (vm_compute; reflexivity); vm_compute; intros; discriminate.
Qed.

(** C4, amended: up to year [2^41], in a year [>= 1] with [year % 8 == 0]
    month 2 spans 29 epoch days,
    [getEpocDay(1, 3, year) - getEpocDay(1, 2, year) == 29]; in a year
    with [year % 8 != 0], of either sign, it spans 28. *)
Theorem month2_length (year : Z) :
  (1 <= year <= 2 ^ 41 -> year mod 8 = 0 ->
   exists first3 first2,
     getEpocDay 1 3 year = Ok first3 /\ getEpocDay 1 2 year = Ok first2 /\
     first3 - first2 = 29) /\
  (- 2 ^ 41 <= year <= 2 ^ 41 -> year mod 8 <> 0 ->
   exists first3 first2,
     getEpocDay 1 3 year = Ok first3 /\ getEpocDay 1 2 year = Ok first2 /\
     first3 - first2 = 28).
Proof.
  assert (H1 : - 2 ^ 40 <= 1 <= 2 ^ 40) by (split; discriminate).
  destruct (exact_month2_length year) as (Hleap & Hplain).
  split; intros Hy Hmod;
    exists (Exact.getEpocDay 1 3 year), (Exact.getEpocDay 1 2 year).
  - assert (Hy' : - 2 ^ 41 <= year <= 2 ^ 41) by lia.
    split; [apply getEpocDay_exact; assumption |].
    split; [apply getEpocDay_exact; assumption |].
    apply Hleap; [lia | exact Hmod].
  - split; [apply getEpocDay_exact; assumption |].
    split; [apply getEpocDay_exact; assumption |].
    apply Hplain. exact Hmod.
Qed.

Lemma month2_length_witness :
  (exists first3 first2,
     getEpocDay 1 3 8 = Ok first3 /\ getEpocDay 1 2 8 = Ok first2 /\
     first3 - first2 = 29) /\
  (exists first3 first2,
     getEpocDay 1 3 7 = Ok first3 /\ getEpocDay 1 2 7 = Ok first2 /\
     first3 - first2 = 28).
Proof.
  split.
  - apply (proj1 (month2_length 8)); [split; [lia | discriminate] | reflexivity].
  - apply (proj2 (month2_length 7)); [split; discriminate | vm_compute; discriminate].
Defined.

(** C5: for an epoch day [>= 1], [getEpocDayOfWeek] is
    [((epochDay - 1) mod 7) + 1], a value in 1..7, with period 7; epoch
    days 1 and 8 both fall on weekday 1. *)
Theorem getEpocDayOfWeek_cycle (epochDay : Z) :
  1 <= epochDay ->
  getEpocDayOfWeek epochDay = (epochDay - 1) mod 7 + 1 /\
  1 <= getEpocDayOfWeek epochDay <= 7 /\
  getEpocDayOfWeek (epochDay + 7) = getEpocDayOfWeek epochDay /\
  getEpocDayOfWeek 1 = 1 /\
  getEpocDayOfWeek 8 = 1.
Proof.
  intros _. unfold getEpocDayOfWeek.
  change (Py.len WEEK) with 7.
  repeat split; try reflexivity; lia.
Qed.

Lemma getEpocDayOfWeek_cycle_witness :
  getEpocDayOfWeek 10 = (10 - 1) mod 7 + 1 /\
  1 <= getEpocDayOfWeek 10 <= 7 /\
  getEpocDayOfWeek (10 + 7) = getEpocDayOfWeek 10 /\
  getEpocDayOfWeek 1 = 1 /\
  getEpocDayOfWeek 8 = 1.
Proof. apply (getEpocDayOfWeek_cycle 10). lia. Defined.

(** C6, as stated, fails: for epoch day 1605836732369404 the quotient by
    365.125 lies so little above the integer 4398046511111 that the float
    division rounds it down to that integer, and [getYear] returns it,
    one less than the ceiling of the quotient. *)
Lemma getYear_below_ceiling :
  1 <= 1605836732369404 /\
  getYear 1605836732369404 = Ok 4398046511111 /\
  Qceiling (inject_Z 1605836732369404 / yearLengthQ) = 4398046511112.
Proof.
  repeat split; try (vm_compute; reflexivity); vm_compute; intros; discriminate.
Qed.

(** C6, amended: for an epoch day from 1 to below [2^50], [getYear]
    returns the ceiling of [epochDay / (365 + 1/8)], that is the one
    integer [y] with [y - 1 < epochDay / (365 + 1/8) <= y], and it is at
    least 1. *)
Theorem getYear_ceiling (epochDay : Z) :
  1 <= epochDay < 2 ^ 50 ->
  exists year,
    getYear epochDay = Ok year /\
    year = Qceiling (inject_Z epochDay / yearLengthQ) /\
    (inject_Z year - 1 < inject_Z epochDay / yearLengthQ)%Q /\
    (inject_Z epochDay / yearLengthQ <= inject_Z year)%Q /\
    1 <= year.
Proof.
  intros He. exists (Exact.getYear epochDay).
  split; [apply getYear_exact; exact He |].
  apply exact_getYear_ceiling. lia.
Qed.

Lemma getYear_ceiling_witness :
  exists year,
    getYear 366 = Ok year /\
    year = Qceiling (inject_Z 366 / yearLengthQ) /\
    (inject_Z year - 1 < inject_Z 366 / yearLengthQ)%Q /\
    (inject_Z 366 / yearLengthQ <= inject_Z year)%Q /\
    1 <= year.
Proof.
  apply (getYear_ceiling 366). split; [lia | reflexivity].
Defined.

(** C7, as stated, fails at the far end: [getYear] has no year for an
    epoch day of [2^1024], which no float holds; the call ends in an
    [OverflowError]. *)
Lemma getYear_overflows :
  1 <= 1 <= 2 ^ 1024 /\
  getYear 1 = Ok 1 /\
  getYear (2 ^ 1024) = Raise OverflowError.
Proof.
  repeat split; try (vm_compute; reflexivity); vm_compute; intros; discriminate.
Qed.

(** C7, amended: [getYear] is monotonic non-decreasing wherever it
    returns: for epoch days [1 <= e1 <= e2] on which both calls return,
    [getYear(e1) <= getYear(e2)], rounding included; both calls return
    when [e2] is below [2^1023], and from [2^1024] on the call raises
    [OverflowError]. *)
Theorem getYear_monotone (e1 e2 : Z) :
  1 <= e1 <= e2 ->
  (forall y1 y2, getYear e1 = Ok y1 -> getYear e2 = Ok y2 -> y1 <= y2) /\
  (e2 < 2 ^ 1023 ->
   exists y1 y2, getYear e1 = Ok y1 /\ getYear e2 = Ok y2 /\ y1 <= y2) /\
  (2 ^ 1024 <= e2 -> getYear e2 = Raise OverflowError).
Proof.
  intros He. split; [| split].
  - intros y1 y2. apply getYear_order. exact He.
  - intros Hb.
    destruct (getYear_returns e1) as (y1 & H1); [lia |].
    destruct (getYear_returns e2) as (y2 & H2); [lia |].
    exists y1, y2. split; [exact H1 |]. split; [exact H2 |].
    exact (getYear_order e1 e2 y1 y2 He H1 H2).
  - apply getYear_raises.
Qed.

Lemma getYear_monotone_witness :
  (forall y1 y2, getYear 365 = Ok y1 -> getYear 366 = Ok y2 -> y1 <= y2) /\
  (366 < 2 ^ 1023 ->
   exists y1 y2, getYear 365 = Ok y1 /\ getYear 366 = Ok y2 /\ y1 <= y2) /\
  (2 ^ 1024 <= 366 -> getYear 366 = Raise OverflowError).
Proof.
  apply (getYear_monotone 365 366). lia.
Defined.

(** C8: [calendar(1, 1)] returns a string that contains an HTML [<table>]
    whose header row lists the seven weekday names, each in [<th>] tags, in
    the order Moonday, Toilday, Wealday, Oathday, Fireday, Starday,
    Sunday. *)
Theorem calendar_1_1_header :
  exists rest,
    calendar 1 1 =
    Ok (("<h2>Abadius</h2>" ++ nl) ++ week_header ++ rest)%string.
Proof.
  rewrite calendar_exact by (split; [lia | discriminate]).
  destruct (Exact.calendar 1 1) as [html | |] eqn:E;
    [| vm_compute in E; discriminate | vm_compute in E; discriminate].
  destruct (calendar_header 1 1 html E) as (name & rest & Hname & ->).
  vm_compute in Hname. inversion Hname; subst name.
  exists rest. reflexivity.
Qed.

(** C9, as stated, fails: the date 23/12/738015960479945 has an epoch day
    near [2^58], where the floats of the reduction are rounded; the reduced
    [moonDay] is 32, above the 29 of [PHASE_LENGTH], and the loop leaves the
    table with an [IndexError]. *)
Lemma getMoonPhase_leaves_table :
  getEpocDay 23 12 738015960479945 = Ok 269468077570239904 /\
  1 <= 269468077570239904 /\
  moonDayOf 269468077570239904 = Ok 32 /\
  Py.sum PHASE_LENGTH = 29 /\
  getMoonPhase 23 12 738015960479945 = Raise IndexError.
Proof.
  repeat split; try (vm_compute; reflexivity); vm_compute; intros; discriminate.
Qed.

(** C9, amended: for a date whose epoch day is from 1 to below [2^50],
    [getMoonPhase] returns one of the 8 names of [MOON_PHASES]: the reduced
    [moonDay] is at most 29, the sum of [PHASE_LENGTH], the loop ends
    within its budget on a phase index of at most 7, and when the reduced
    [moonDay] is 0 the loop body never runs and the result is
    "Full Moon". *)
Theorem getMoonPhase_in_table (day month year epocDay : Z) :
  getEpocDay day month year = Ok epocDay ->
  1 <= epocDay < 2 ^ 50 ->
  exists moonDay,
    moonDayOf epocDay = Ok moonDay /\
    0 <= moonDay <= Py.sum PHASE_LENGTH /\
    (exists phase,
       phase_walk phase_budget moonDay 0 = Ok phase /\ 0 <= phase <= 7) /\
    (exists name,
       getMoonPhase day month year = Ok name /\ In name MOON_PHASES) /\
    (moonDay = 0 ->
     phase_walk phase_budget moonDay 0 = Ok 0 /\
     getMoonPhase day month year = Ok "Full Moon"%string).
Proof.
  intros H He.
  destruct (getMoonPhase_of_epoch day month year epocDay H) as (Hm & Hd);
    [lia |].
  exists (Exact.moonDayOf (Exact.getEpocDay epocDay 1 1)).
  split; [exact Hd |]. rewrite Hm.
  apply exact_getMoonPhase_in_table. rewrite getEpocDay_of_day. lia.
Qed.

Lemma getMoonPhase_in_table_witness :
  exists moonDay,
    moonDayOf 30 = Ok moonDay /\
    0 <= moonDay <= Py.sum PHASE_LENGTH /\
    (exists phase,
       phase_walk phase_budget moonDay 0 = Ok phase /\ 0 <= phase <= 7) /\
    (exists name,
       getMoonPhase 30 1 1 = Ok name /\ In name MOON_PHASES) /\
    (moonDay = 0 ->
     phase_walk phase_budget moonDay 0 = Ok 0 /\
     getMoonPhase 30 1 1 = Ok "Full Moon"%string).
Proof.
  apply (getMoonPhase_in_table 30 1 1 30);
    [vm_compute; reflexivity | split; [lia | reflexivity]].
Defined.

(** C10, as stated, fails: on epoch day 3609849069669758165 the walk stays
    within the table, [getMonthInYear] returns month 1, and
    [getDayInMonth] returns -511, which is no day of a month: the floats of
    [getDayInYear] are rounded there. *)
Lemma month_walk_day_below_1 :
  1 <= 3609849069669758165 /\
  getMonthInYear 3609849069669758165 = Ok 1 /\
  getDayInMonth 3609849069669758165 = Ok (-511).
Proof.
  repeat split; try (vm_compute; reflexivity); vm_compute; intros; discriminate.
Qed.

(** C10, amended: for an epoch day from 1 to below [2^50] on which the
    month walk stays within the table, [getMonthInYear] and
    [getDayInMonth] walk the same table, the one [getYear(epochDay) % 8 ==
    0] selects, and the day returned is a valid day of the month returned:
    [1 <= getDayInMonth(epochDay) <= table[getMonthInYear(epochDay) - 1]]. *)
Theorem month_walk_consistent (epochDay month : Z) :
  1 <= epochDay < 2 ^ 50 ->
  getMonthInYear epochDay = Ok month ->
  exists year dayInYear day len,
    getYear epochDay = Ok year /\
    getDayInYear epochDay = Ok dayInYear /\
    month_walk (walk_budget (month_table year)) (month_table year) dayInYear 0
      = Ok (day, month - 1) /\
    getDayInMonth epochDay = Ok day /\
    1 <= month <= 12 /\
    Py.index (month_table year) (month - 1) = Ok len /\
    1 <= day <= len.
Proof.
  intros He Hm. rewrite (getMonthInYear_exact epochDay He) in Hm.
  destruct (exact_month_walk_consistent epochDay month (proj1 He) Hm)
    as (day & len & Hw & Hd & Hm12 & Hidx & Hday).
  exists (Exact.getYear epochDay), (Exact.getDayInYear epochDay), day, len.
  split; [apply getYear_exact; exact He |].
  split; [apply getDayInYear_exact; exact He |].
  rewrite (getDayInMonth_exact epochDay He).
  repeat split; try assumption; lia.
Qed.

Lemma month_walk_consistent_witness :
  exists year dayInYear day len,
    getYear 400 = Ok year /\
    getDayInYear 400 = Ok dayInYear /\
    month_walk (walk_budget (month_table year)) (month_table year) dayInYear 0
      = Ok (day, 2 - 1) /\
    getDayInMonth 400 = Ok day /\
    1 <= 2 <= 12 /\
    Py.index (month_table year) (2 - 1) = Ok len /\
    1 <= day <= len.
Proof.
  apply (month_walk_consistent 400 2);
    [split; [lia | reflexivity] | vm_compute; reflexivity].
Defined.

(** ** Further properties of the script *)

Ltac concrete_date :=
  unfold valid_date; vm_compute; repeat split; intros; discriminate.

Ltac pow_consts :=
  change (2 ^ 41) with 2199023255552 in *;
  change (2 ^ 40) with 1099511627776 in *;
  change (2 ^ 49) with 562949953421312 in *;
  change (2 ^ 50) with 1125899906842624 in *.

Lemma month_length_bound (y i len : Z) :
  Py.index (month_table y) i = Ok len -> 28 <= len <= 31.
Proof.
  unfold Py.index. destruct (_ <? 0); [discriminate |].
  destruct (nth_error _ _) eqn:En; [| discriminate].
  intros H; injection H as <-. apply nth_error_In in En.
  unfold month_table in En. destruct (y mod 8 =? 0); cbn in En; lia.
Qed.

Lemma valid_date_day (d m y : Z) : valid_date d m y -> 1 <= y /\ 1 <= d <= 31.
Proof.
  intros (Hy & Hm & Hd).
  assert (Hall : forall k, nth k (month_table y) 0 <= 31).
  { intros k. unfold month_table. destruct (y mod 8 =? 0);
      do 12 (destruct k as [| k]; [cbn; lia |]); destruct k; cbn; lia. }
  specialize (Hall (Z.to_nat (m - 1))). lia.
Qed.

(** The epoch day of a valid date up to year [2^41]: the script returns
    the exact one, and it lies from 1 to below [2^50]. *)
Lemma valid_epoch (d m y : Z) :
  valid_date d m y -> y <= 2 ^ 41 ->
  getEpocDay d m y = Ok (Exact.getEpocDay d m y)
  /\ 1 <= Exact.getEpocDay d m y < 2 ^ 50.
Proof.
  intros Hv Hy. destruct (valid_date_day d m y Hv) as (Hy1 & Hd).
  assert (Hy' : - 2 ^ 41 <= y <= 2 ^ 41) by (pow_consts; lia).
  assert (Hd' : - 2 ^ 40 <= d <= 2 ^ 40) by (pow_consts; lia).
  split; [apply getEpocDay_exact; assumption |].
  pose proof (getEpocDay_bound d m y Hy' Hd') as Hb.
  split; [| lia].
  rewrite getEpocDay_split by lia.
  pose proof (slice_sum_nonneg y (m - 1)). lia.
Qed.

Lemma fl_outcome (x : Q) :
  (exists v, Py.fl x = Ok v) \/ Py.fl x = Raise OverflowError.
Proof.
  unfold Py.fl. destruct (Qle_bool _ _); [right | left; eexists]; reflexivity.
Qed.

(** [getEpocDay] has no loop and no subscript: it returns, or a float
    overflows. *)
Lemma getEpocDay_outcome (d m y : Z) :
  (exists e, getEpocDay d m y = Ok e)
  \/ getEpocDay d m y = Raise OverflowError.
Proof.
  unfold getEpocDay. rewrite yearLength_value. cbn [Py.bind].
  unfold Py.float, Py.fmul, Py.fadd.
  repeat match goal with
         | |- context [Py.fl ?x] =>
             destruct (fl_outcome x) as [(? & ->) | ->]; cbn [Py.bind];
             [| right; reflexivity]
         end.
  left. eexists. reflexivity.
Qed.

Lemma getEpocDay_month_wrap (d m y : Z) :
  -11 <= m <= 0 -> getEpocDay d m y = getEpocDay d (m + 12) y.
Proof.
  intros Hm. unfold getEpocDay.
  destruct (y mod 8 =? 0);
    [rewrite (slice_wraps LEAP_DAYS m eq_refl Hm)
    | rewrite (slice_wraps MONTH_DAYS m eq_refl Hm)]; reflexivity.
Qed.

(** X1: from year 1 to year [2^41] and for day numbers from 0 to [2^40],
    adding [n >= 0] to the day number of a date adds [n] to its epoch day,
    whatever the month argument is. *)
Theorem getEpocDay_add_days (d n m y : Z) :
  1 <= y <= 2 ^ 41 -> 0 <= d -> 0 <= n -> d + n <= 2 ^ 40 ->
  exists e,
    getEpocDay d m y = Ok e /\ getEpocDay (d + n) m y = Ok (e + n).
Proof.
  intros Hy Hd Hn Hdn. exists (Exact.getEpocDay d m y).
  rewrite !getEpocDay_exact by (pow_consts; lia).
  split; [reflexivity |]. f_equal.
  apply exact_getEpocDay_add_days; lia.
Qed.

Lemma getEpocDay_add_days_witness :
  exists e, getEpocDay 3 2 5 = Ok e /\ getEpocDay (3 + 4) 2 5 = Ok (e + 4).
Proof.
  apply (getEpocDay_add_days 3 4 2 5);
    [split; [lia | discriminate] | lia | lia | discriminate].
Defined.

(** X2: months follow one another without gap or overlap: for a month
    1..11 of a year from 1 to [2^41], the first day of the next month is
    the epoch day after the last day of the month. *)
Theorem getEpocDay_next_month (m y len : Z) :
  1 <= y <= 2 ^ 41 -> 1 <= m <= 11 ->
  Py.index (month_table y) (m - 1) = Ok len ->
  exists e,
    getEpocDay len m y = Ok e /\ getEpocDay 1 (m + 1) y = Ok (e + 1).
Proof.
  intros Hy Hm Hlen. pose proof (month_length_bound _ _ _ Hlen) as Hb.
  exists (Exact.getEpocDay len m y).
  rewrite !getEpocDay_exact by (pow_consts; lia).
  split; [reflexivity |]. f_equal.
  apply exact_getEpocDay_next_month; [lia | exact Hm | exact Hlen].
Qed.

Lemma getEpocDay_next_month_witness :
  exists e, getEpocDay 29 2 8 = Ok e /\ getEpocDay 1 (2 + 1) 8 = Ok (e + 1).
Proof.
  apply (getEpocDay_next_month 2 8 29);
    [split; [lia | discriminate] | lia | reflexivity].
Defined.

(** X3: years follow one another without gap or overlap: from year 1 to
    below year [2^41], the first day of the next year is the epoch day
    after day 31 of month 12. *)
Theorem getEpocDay_next_year (y : Z) :
  1 <= y < 2 ^ 41 ->
  exists e,
    getEpocDay 31 12 y = Ok e /\ getEpocDay 1 1 (y + 1) = Ok (e + 1).
Proof.
  intros Hy. exists (Exact.getEpocDay 31 12 y).
  rewrite !getEpocDay_exact by (pow_consts; lia).
  split; [reflexivity |]. f_equal.
  apply exact_getEpocDay_next_year; lia.
Qed.

Lemma getEpocDay_next_year_witness :
  exists e, getEpocDay 31 12 8 = Ok e /\ getEpocDay 1 1 (8 + 1) = Ok (e + 1).
Proof.
  apply (getEpocDay_next_year 8). split; [lia | reflexivity].
Defined.

(** X4: the epoch days [>= 1] that [getYear] puts in a year [y] from 1
    to [2^41] are exactly those from the first day of its month 1 to day 31
    of its month 12. *)
Theorem getYear_span (e y : Z) :
  1 <= y <= 2 ^ 41 -> 1 <= e ->
  exists first last,
    getEpocDay 1 1 y = Ok first /\ getEpocDay 31 12 y = Ok last /\
    (getYear e = Ok y <-> first <= e <= last).
Proof.
  intros Hy He.
  assert (Hy' : - 2 ^ 41 <= y <= 2 ^ 41) by (pow_consts; lia).
  assert (H31 : - 2 ^ 40 <= 31 <= 2 ^ 40) by (split; discriminate).
  assert (H1 : - 2 ^ 40 <= 1 <= 2 ^ 40) by (split; discriminate).
  exists (Exact.getEpocDay 1 1 y), (Exact.getEpocDay 31 12 y).
  split; [apply getEpocDay_exact; assumption |].
  split; [apply getEpocDay_exact; assumption |].
  pose proof (exact_getYear_span e y (proj1 Hy)) as Hspan.
  pose proof (getEpocDay_bound 31 12 y Hy' H31) as Hlast.
  destruct (Z.lt_ge_cases e (2 ^ 50)) as [Hlt | Hge].
  - rewrite getYear_exact by lia. rewrite <- Hspan.
    split; [intros H; injection H as H; exact H | intros ->; reflexivity].
  - split; [| lia]. intros H. exfalso.
    assert (Hedge : getYear (2 ^ 50 - 1) = Ok (Exact.getYear (2 ^ 50 - 1)))
      by (apply getYear_exact; split; [discriminate | reflexivity]).
    assert (Hord : Exact.getYear (2 ^ 50 - 1) <= y).
    { apply (getYear_order (2 ^ 50 - 1) e); [| exact Hedge | exact H].
      split; [discriminate | lia]. }
    assert (Hbig : 2 ^ 41 < Exact.getYear (2 ^ 50 - 1)) by reflexivity.
    lia.
Qed.

Lemma getYear_span_witness :
  exists first last,
    getEpocDay 1 1 2 = Ok first /\ getEpocDay 31 12 2 = Ok last /\
    (getYear 400 = Ok 2 <-> first <= 400 <= last).
Proof.
  apply (getYear_span 400 2); [split; [lia | discriminate] | lia].
Defined.

(** X5: up to year [2^41], [getYear] gives back the year of every valid
    date, also in the years where the day comes back late. *)
Theorem getYear_of_valid_date (d m y : Z) :
  valid_date d m y -> y <= 2 ^ 41 ->
  exists e, getEpocDay d m y = Ok e /\ getYear e = Ok y.
Proof.
  intros Hv Hy. destruct (valid_epoch d m y Hv Hy) as (He & Hb).
  exists (Exact.getEpocDay d m y). split; [exact He |].
  rewrite getYear_exact by exact Hb.
  f_equal. apply exact_getYear_of_valid_date. exact Hv.
Qed.

Lemma getYear_of_valid_date_witness :
  exists e, getEpocDay 31 12 9 = Ok e /\ getYear e = Ok 9.
Proof.
  apply (getYear_of_valid_date 31 12 9);
    [concrete_date | discriminate].
Defined.

(** X6: in a year from 1 to [2^41] that does not follow a leap year
    ([(year - 1) % 8 != 0]) every valid date comes back from its epoch day:
    [getYear] gives the year, [getMonthInYear] the month and
    [getDayInMonth] the day. *)
Theorem roundtrip_valid_date (d m y : Z) :
  valid_date d m y -> y <= 2 ^ 41 -> (y - 1) mod 8 <> 0 ->
  exists e,
    getEpocDay d m y = Ok e /\
    getYear e = Ok y /\
    getMonthInYear e = Ok m /\
    getDayInMonth e = Ok d.
Proof.
  intros Hv Hy Hoff. destruct (valid_epoch d m y Hv Hy) as (He & Hb).
  destruct (exact_roundtrip_valid_date d m y Hv Hoff) as (H1 & H2 & H3).
  exists (Exact.getEpocDay d m y). split; [exact He |].
  rewrite getYear_exact, getMonthInYear_exact, getDayInMonth_exact by exact Hb.
  rewrite H1. repeat split; assumption.
Qed.

Lemma roundtrip_valid_date_witness :
  exists e,
    getEpocDay 29 2 8 = Ok e /\
    getYear e = Ok 8 /\
    getMonthInYear e = Ok 2 /\
    getDayInMonth e = Ok 29.
Proof.
  apply (roundtrip_valid_date 29 2 8);
    [concrete_date | discriminate | vm_compute; discriminate].
Defined.

(** X7: up to year [2^41], [getEpocDay] returns on valid dates and is
    injective on them: two valid dates with the same epoch day are the same
    date. *)
Theorem getEpocDay_injective (d m y d' m' y' : Z) :
  valid_date d m y -> valid_date d' m' y' ->
  y <= 2 ^ 41 -> y' <= 2 ^ 41 ->
  exists e e',
    getEpocDay d m y = Ok e /\ getEpocDay d' m' y' = Ok e' /\
    (e = e' -> d = d' /\ m = m' /\ y = y').
Proof.
  intros Hv Hv' Hy Hy'.
  destruct (valid_epoch d m y Hv Hy) as (He & _).
  destruct (valid_epoch d' m' y' Hv' Hy') as (He' & _).
  exists (Exact.getEpocDay d m y), (Exact.getEpocDay d' m' y').
  split; [exact He |]. split; [exact He' |].
  apply exact_getEpocDay_injective; assumption.
Qed.

Lemma getEpocDay_injective_witness :
  exists e e',
    getEpocDay 31 1 3 = Ok e /\ getEpocDay 1 2 3 = Ok e' /\
    (e = e' -> 31 = 1 /\ 1 = 2 /\ 3 = 3).
Proof.
  apply (getEpocDay_injective 31 1 3 1 2 3);
    [concrete_date | concrete_date
    | discriminate | discriminate].
Defined.

(** X8: a month argument of 0 or below is not rejected: [cal[:month-1]]
    counts from the end of the table, so for [-11 <= month <= 0] the date is
    read as month [month + 12] of the same year. *)
Theorem getEpocDay_month_wraps (d m y : Z) :
  -11 <= m <= 0 -> getEpocDay d m y = getEpocDay d (m + 12) y.
Proof. intros Hm. apply getEpocDay_month_wrap. exact Hm. Qed.

Lemma getEpocDay_month_wraps_witness :
  getEpocDay 5 (-3) 2 = getEpocDay 5 (-3 + 12) 2.
Proof. apply (getEpocDay_month_wraps 5 (-3) 2). lia. Defined.

(** X9: a month argument above 12 is not rejected either: [cal[:month-1]]
    is then the whole table, and from year 1 to below year [2^41], for a
    day number from 0 to [2^40], the date is read as the same day of
    month 1 of the next year. *)
Theorem getEpocDay_month_overflows (d m y : Z) :
  13 <= m -> 1 <= y < 2 ^ 41 -> 0 <= d <= 2 ^ 40 ->
  exists e,
    getEpocDay d m y = Ok e /\ getEpocDay d 1 (y + 1) = Ok e.
Proof.
  intros Hm Hy Hd. exists (Exact.getEpocDay d m y).
  rewrite !getEpocDay_exact by (pow_consts; lia).
  split; [reflexivity |]. f_equal. symmetry.
  apply exact_getEpocDay_month_overflows; lia.
Qed.

Lemma getEpocDay_month_overflows_witness :
  exists e, getEpocDay 5 13 2 = Ok e /\ getEpocDay 5 1 (2 + 1) = Ok e.
Proof.
  apply (getEpocDay_month_overflows 5 13 2);
    [lia | split; [lia | reflexivity] | split; [lia | discriminate]].
Defined.

(** X10: in a year from 1 to [2^41] that follows a leap year
    ([(year - 1) % 8 == 0]) a date that is not the last day of its month
    comes back one day late: [getMonthInYear] gives the month and
    [getDayInMonth] gives [day + 1]. *)
Theorem roundtrip_one_day_late (d m y : Z) :
  valid_date (d + 1) m y -> 1 <= d -> (y - 1) mod 8 = 0 -> y <= 2 ^ 41 ->
  exists e,
    getEpocDay d m y = Ok e /\
    getMonthInYear e = Ok m /\
    getDayInMonth e = Ok (d + 1).
Proof.
  intros Hv Hd Hon Hy.
  assert (Hv' : valid_date d m y).
  { destruct Hv as (H1 & H2 & H3). repeat split; lia. }
  destruct (valid_epoch d m y Hv' Hy) as (He & Hb).
  destruct (exact_roundtrip_one_day_late d m y Hv Hd Hon) as (H1 & H2).
  exists (Exact.getEpocDay d m y). split; [exact He |].
  rewrite getMonthInYear_exact, getDayInMonth_exact by exact Hb.
  split; assumption.
Qed.

Lemma roundtrip_one_day_late_witness :
  exists e,
    getEpocDay 1 1 1 = Ok e /\
    getMonthInYear e = Ok 1 /\
    getDayInMonth e = Ok (1 + 1).
Proof.
  apply (roundtrip_one_day_late 1 1 1);
    [concrete_date | lia | reflexivity | discriminate].
Defined.

(** X11: for all integer arguments, valid date or not, a weekday call
    fails only where [getEpocDay] overflows: when [getEpocDay] returns,
    [getDayOfWeek] is the weekday 1..7 of that epoch day and
    [getNamedDayOfWeek] returns one of the names of [WEEK], the lookup
    [WEEK[dayOfWeek - 1]] never leaving the table; otherwise all three
    raise [OverflowError].  For years within [2^41] and day numbers within
    [2^40] in magnitude a name is returned. *)
Theorem getNamedDayOfWeek_named (d m y : Z) :
  ((exists e name,
      getEpocDay d m y = Ok e /\
      getDayOfWeek d m y = Ok (getEpocDayOfWeek e) /\
      1 <= getEpocDayOfWeek e <= 7 /\
      getNamedDayOfWeek d m y = Ok name /\ In name WEEK)
   \/ (getEpocDay d m y = Raise OverflowError /\
       getDayOfWeek d m y = Raise OverflowError /\
       getNamedDayOfWeek d m y = Raise OverflowError)) /\
  (- 2 ^ 41 <= y <= 2 ^ 41 -> - 2 ^ 40 <= d <= 2 ^ 40 ->
   exists name, getNamedDayOfWeek d m y = Ok name /\ In name WEEK).
Proof.
  assert (Hret : forall e, getEpocDay d m y = Ok e ->
            getDayOfWeek d m y = Ok (getEpocDayOfWeek e) /\
            1 <= getEpocDayOfWeek e <= 7 /\
            exists name, getNamedDayOfWeek d m y = Ok name /\ In name WEEK).
  { intros e He.
    assert (Hd : getDayOfWeek d m y = Ok (getEpocDayOfWeek e))
      by (unfold getDayOfWeek; rewrite He; reflexivity).
    assert (Hr : 1 <= getEpocDayOfWeek e <= 7)
      by (unfold getEpocDayOfWeek; change (Py.len WEEK) with 7; lia).
    split; [exact Hd |]. split; [exact Hr |].
    unfold getNamedDayOfWeek. rewrite Hd. cbn [Py.bind].
    apply WEEK_index. lia. }
  split.
  - destruct (getEpocDay_outcome d m y) as [(e & He) | He].
    + left. destruct (Hret e He) as (Hd & Hr & name & Hn & Hin).
      exists e, name. repeat split; try assumption; lia.
    + right. unfold getNamedDayOfWeek, getDayOfWeek. rewrite He.
      repeat split; reflexivity.
  - intros Hy Hd.
    destruct (Hret _ (getEpocDay_exact d m y Hy Hd)) as (_ & _ & H). exact H.
Qed.

Lemma getNamedDayOfWeek_named_witness :
  exists name, getNamedDayOfWeek 1 1 1 = Ok name /\ In name WEEK.
Proof.
  apply (proj2 (getNamedDayOfWeek_named 1 1 1)); split; discriminate.
Defined.

(** X12: from year 1 to year [2^41] and for day numbers from 0 to below
    [2^40], the next day number falls on the next weekday, and weekday 7 is
    followed by weekday 1. *)
Theorem getDayOfWeek_next_day (d m y : Z) :
  1 <= y <= 2 ^ 41 -> 0 <= d < 2 ^ 40 ->
  exists w,
    getDayOfWeek d m y = Ok w /\
    getDayOfWeek (d + 1) m y = Ok (w mod 7 + 1).
Proof.
  intros Hy Hd. exists (Exact.getDayOfWeek d m y).
  rewrite !getDayOfWeek_exact by (pow_consts; lia).
  split; [reflexivity |]. f_equal.
  apply exact_getDayOfWeek_next_day; lia.
Qed.

Lemma getDayOfWeek_next_day_witness :
  exists w,
    getDayOfWeek 7 1 1 = Ok w /\ getDayOfWeek (7 + 1) 1 1 = Ok (w mod 7 + 1).
Proof.
  apply (getDayOfWeek_next_day 7 1 1);
    [split; [lia | discriminate] | split; [lia | reflexivity]].
Defined.

(** X13: for an epoch day from 1 to below [2^49], [getMonthInYear] and
    [getDayInMonth] raise [IndexError] exactly on the last epoch day of a
    year with [year % 8 == 1] (day 31 of month 12); on every other epoch
    day both return, with a month in 1..12 and a day in 1..31. *)
Theorem month_walk_raises (e : Z) :
  1 <= e < 2 ^ 49 ->
  exists year last,
    getYear e = Ok year /\
    getEpocDay 31 12 year = Ok last /\
    (getMonthInYear e = Raise IndexError <-> year mod 8 = 1 /\ e = last) /\
    (getDayInMonth e = Raise IndexError
     <-> getMonthInYear e = Raise IndexError) /\
    (getMonthInYear e <> Raise IndexError ->
     exists m d, getMonthInYear e = Ok m /\ getDayInMonth e = Ok d /\
                 1 <= m <= 12 /\ 1 <= d <= 31).
Proof.
  intros He.
  assert (He' : 1 <= e < 2 ^ 50) by (pow_consts; lia).
  pose proof (getYear_bracket e) as Hb.
  exists (Exact.getYear e), (Exact.getEpocDay 31 12 (Exact.getYear e)).
  split; [apply getYear_exact; exact He' |].
  split.
  { apply getEpocDay_exact; [pow_consts; lia | split; discriminate]. }
  rewrite getMonthInYear_exact, getDayInMonth_exact by exact He'.
  apply exact_month_walk_raises. lia.
Qed.

Lemma month_walk_raises_witness :
  exists year last,
    getYear 365 = Ok year /\
    getEpocDay 31 12 year = Ok last /\
    (getMonthInYear 365 = Raise IndexError <-> year mod 8 = 1 /\ 365 = last) /\
    (getDayInMonth 365 = Raise IndexError
     <-> getMonthInYear 365 = Raise IndexError) /\
    (getMonthInYear 365 <> Raise IndexError ->
     exists m d, getMonthInYear 365 = Ok m /\ getDayInMonth 365 = Ok d /\
                 1 <= m <= 12 /\ 1 <= d <= 31).
Proof.
  apply (month_walk_raises 365). split; [lia | reflexivity].
Defined.

(** X14: for years within [2^41] and day numbers within [2^40] in
    magnitude, valid date or not, [getMoonPhase] returns one of the names
    of [MOON_PHASES]; for a date whose epoch day is 0 or negative it
    returns "Full Moon". *)
Theorem getMoonPhase_named (d m y : Z) :
  - 2 ^ 41 <= y <= 2 ^ 41 -> - 2 ^ 40 <= d <= 2 ^ 40 ->
  exists e name,
    getEpocDay d m y = Ok e /\
    getMoonPhase d m y = Ok name /\ In name MOON_PHASES /\
    (e <= 0 -> name = "Full Moon"%string).
Proof.
  intros Hy Hd.
  destruct (exact_getMoonPhase_named d m y) as ((name & Hn & Hin) & Hneg).
  exists (Exact.getEpocDay d m y), name.
  split; [apply getEpocDay_exact; assumption |].
  rewrite (getMoonPhase_exact d m y Hy Hd).
  split; [exact Hn |]. split; [exact Hin |].
  intros He. specialize (Hneg He). rewrite Hn in Hneg.
  injection Hneg as ->. reflexivity.
Qed.

Lemma getMoonPhase_named_witness :
  exists e name,
    getEpocDay (-40) 1 1 = Ok e /\
    getMoonPhase (-40) 1 1 = Ok name /\ In name MOON_PHASES /\
    (e <= 0 -> name = "Full Moon"%string).
Proof.
  apply (getMoonPhase_named (-40) 1 1); split; discriminate.
Defined.

(** X15: the phase that [getMoonPhase] returns is the segment of
    [PHASE_LENGTH] that the reduced day falls in: for a reduced day
    [moonDay] from 1 to 29 it is [MOON_PHASES[p]] for the index [p] in 0..7
    with [sum(PHASE_LENGTH[:p]) < moonDay <= sum(PHASE_LENGTH[:p+1])]. *)
Theorem getMoonPhase_segment (d m y e moonDay : Z) :
  getEpocDay d m y = Ok e -> moonDayOf e = Ok moonDay ->
  1 <= moonDay <= 29 ->
  exists p,
    0 <= p <= 7 /\
    getMoonPhase d m y = Py.index MOON_PHASES p /\
    Py.sum (Py.slice_to PHASE_LENGTH p) < moonDay
      <= Py.sum (Py.slice_to PHASE_LENGTH (p + 1)).
Proof.
  intros He Hmd Hr.
  assert (Hsame : Exact.moonDayOf (Exact.getEpocDay moonDay 1 1) = moonDay)
    by (rewrite getEpocDay_of_day, moonDayOf_Z; lia).
  pose proof (exact_getMoonPhase_segment moonDay 1 1) as H. cbv zeta in H.
  unfold Exact.getMoonPhase in H. rewrite Hsame in H.
  unfold getMoonPhase. rewrite He. cbn [Py.bind]. rewrite Hmd. cbn [Py.bind].
  apply H. lia.
Qed.

Lemma getMoonPhase_segment_witness :
  exists p,
    0 <= p <= 7 /\
    getMoonPhase 12 1 1 = Py.index MOON_PHASES p /\
    Py.sum (Py.slice_to PHASE_LENGTH p) < 12
      <= Py.sum (Py.slice_to PHASE_LENGTH (p + 1)).
Proof.
  apply (getMoonPhase_segment 12 1 1 12 12);
    [vm_compute; reflexivity | vm_compute; reflexivity | lia].
Defined.

(** X16: the phases repeat every 59 days, two moon periods: from year 1
    to year [2^41] and for day numbers from 0 to [2^40 - 59], adding 59 to
    the day number of a date leaves its moon phase unchanged. *)
Theorem getMoonPhase_period (d m y : Z) :
  1 <= y <= 2 ^ 41 -> 0 <= d -> d + 59 <= 2 ^ 40 ->
  exists name,
    getMoonPhase d m y = Ok name /\ getMoonPhase (d + 59) m y = Ok name.
Proof.
  intros Hy Hd Hd'.
  destruct (exact_getMoonPhase_named d m y) as ((name & Hn & _) & _).
  exists name.
  rewrite !getMoonPhase_exact by (pow_consts; lia).
  rewrite exact_getMoonPhase_period by lia.
  split; exact Hn.
Qed.

Lemma getMoonPhase_period_witness :
  exists name,
    getMoonPhase 10 3 2 = Ok name /\ getMoonPhase (10 + 59) 3 2 = Ok name.
Proof.
  apply (getMoonPhase_period 10 3 2);
    [split; [lia | discriminate] | lia | discriminate].
Defined.

(** X17: [calendar] has no check on its month: for a month above 12 or
    below -11 it never returns.  It ends in the [IndexError] of
    [cal[month - 1]], unless the call [getEpocDay(1, month, year)] before
    that lookup has raised [OverflowError], which it does not for years
    within [2^41] in magnitude. *)
Theorem calendar_month_out_of_range (month year : Z) :
  12 < month \/ month < -11 ->
  ((exists e, getEpocDay 1 month year = Ok e)
   /\ calendar month year = Raise IndexError
   \/ getEpocDay 1 month year = Raise OverflowError
      /\ calendar month year = Raise OverflowError) /\
  (- 2 ^ 41 <= year <= 2 ^ 41 -> calendar month year = Raise IndexError).
Proof.
  intros H.
  assert (Hi : Py.index (month_table year) (month - 1) = Raise IndexError).
  { destruct H as [H | H].
    - apply index_past_end. unfold Py.len. rewrite month_table_length. lia.
    - apply index_before_start. unfold Py.len. rewrite month_table_length. lia. }
  assert (Hret : forall e, getEpocDay 1 month year = Ok e ->
                           calendar month year = Raise IndexError).
  { intros e He. unfold calendar. fold (month_table year).
    rewrite He. cbn [Py.bind]. rewrite Hi. reflexivity. }
  split.
  - destruct (getEpocDay_outcome 1 month year) as [(e & He) | He].
    + left. split; [exists e; exact He | exact (Hret e He)].
    + right. split; [exact He |]. unfold calendar. rewrite He. reflexivity.
  - intros Hy. apply (Hret (Exact.getEpocDay 1 month year)).
    apply getEpocDay_exact; [exact Hy | split; discriminate].
Qed.

Lemma calendar_month_out_of_range_witness :
  ((exists e, getEpocDay 1 13 1 = Ok e)
   /\ calendar 13 1 = Raise IndexError
   \/ getEpocDay 1 13 1 = Raise OverflowError
      /\ calendar 13 1 = Raise OverflowError) /\
  (- 2 ^ 41 <= 1 <= 2 ^ 41 -> calendar 13 1 = Raise IndexError).
Proof.
  apply (calendar_month_out_of_range 13 1). left. lia.
Defined.

(** X18: a month from -11 to 0 is accepted: the slice and every lookup by
    [month - 1] count from the end of their table, so [calendar] renders
    month [month + 12] of the same year. *)
Theorem calendar_month_wraps (month year : Z) :
  -11 <= month <= 0 -> calendar month year = calendar (month + 12) year.
Proof.
  intros Hm. unfold calendar. fold (month_table year).
  assert (HE : forall d,
            getEpocDay d month year = getEpocDay d (month + 12) year)
    by (intros d; apply getEpocDay_month_wrap; exact Hm).
  assert (HI : forall (A : Type) (l : list A), List.length l = 12%nat ->
            Py.index l (month - 1) = Py.index l (month + 12 - 1)).
  { intros A l Hl. rewrite index_wraps by (unfold Py.len; rewrite Hl; lia).
    unfold Py.len. rewrite Hl. f_equal. lia. }
  rewrite (HI _ (month_table year) (month_table_length year)).
  rewrite (HI _ MONTH eq_refl).
  rewrite (HE 1).
  destruct (getEpocDay 1 (month + 12) year) as [start | |];
    cbn [Py.bind]; try reflexivity.
  destruct (Py.index (month_table year) (month + 12 - 1)) as [lastDay | |];
    cbn [Py.bind]; try reflexivity.
  rewrite (HE lastDay). reflexivity.
Qed.

Lemma calendar_month_wraps_witness : calendar (-11) 2 = calendar (-11 + 12) 2.
Proof. apply (calendar_month_wraps (-11) 2). lia. Defined.

(** X19: for a month 1..12 of a year from 1 to [2^41], [calendar] raises
    [IndexError] exactly for month 12 of a year with [year % 8 == 1], where
    [getDayInMonth] fails on the last day; for every other month it returns
    the title of the month, the table header, the rows and the closing
    [</table>]. *)
Theorem calendar_outcome (month year : Z) :
  1 <= year <= 2 ^ 41 -> 1 <= month <= 12 ->
  (calendar month year = Raise IndexError <->
   year mod 8 = 1 /\ month = 12) /\
  (~ (year mod 8 = 1 /\ month = 12) ->
   exists name rows,
     Py.index MONTH (month - 1) = Ok name /\
     calendar month year =
     Ok (("<h2>" ++ name ++ "</h2>" ++ nl) ++ week_header
         ++ rows ++ "</table>")%string).
Proof.
  intros Hy Hm. rewrite (calendar_exact month year Hy).
  apply exact_calendar_outcome; [lia | exact Hm].
Qed.

Lemma calendar_outcome_witness :
  (calendar 12 9 = Raise IndexError <-> 9 mod 8 = 1 /\ 12 = 12) /\
  (~ (9 mod 8 = 1 /\ 12 = 12) ->
   exists name rows,
     Py.index MONTH (12 - 1) = Ok name /\
     calendar 12 9 =
     Ok (("<h2>" ++ name ++ "</h2>" ++ nl) ++ week_header
         ++ rows ++ "</table>")%string).
Proof.
  apply (calendar_outcome 12 9); [split; [lia | discriminate] | lia].
Defined.

(** ** The loops end

    An iteration budget cuts no loop of the script, on any input and at
    any magnitude: a call returns or raises. *)

Lemma fl_ends (x : Q) : Py.fl x <> OutOfFuel.
Proof. unfold Py.fl. destruct (Qle_bool _ _); discriminate. Qed.

Lemma bind_ends {A B : Type} (r : result A) (k : A -> result B) :
  r <> OutOfFuel -> (forall a, k a <> OutOfFuel) ->
  (x <- r ;; k x) <> OutOfFuel.
Proof.
  intros Hr Hk. destruct r as [a | x |]; cbn [Py.bind];
    [apply Hk | discriminate | contradiction].
Qed.

Ltac ends :=
  repeat first
    [ apply fl_ends
    | apply index_not_OutOfFuel
    | discriminate
    | apply bind_ends; [| intros ?] ].

Lemma yearLength_ends : yearLength <> OutOfFuel.
Proof. rewrite yearLength_value. discriminate. Qed.

Lemma getYear_ends (e : Z) : getYear e <> OutOfFuel.
Proof.
  unfold getYear, Py.float, Py.fdiv.
  apply bind_ends; [apply yearLength_ends | intros ?]. ends.
Qed.

Lemma getDayInYear_ends (e : Z) : getDayInYear e <> OutOfFuel.
Proof.
  unfold getDayInYear, Py.float, Py.fmul, Py.fsub.
  apply bind_ends; [apply getYear_ends | intros ?].
  apply bind_ends; [apply yearLength_ends | intros ?]. ends.
Qed.

Lemma month_walk_ends (leap : bool) (d : Z) :
  let cal := if leap then LEAP_DAYS else MONTH_DAYS in
  month_walk (walk_budget cal) cal d 0 <> OutOfFuel.
Proof.
  intros cal. apply month_walk_fuel; unfold walk_budget, Py.len; lia.
Qed.

Lemma getMonthInYear_ends (e : Z) : getMonthInYear e <> OutOfFuel.
Proof.
  unfold getMonthInYear.
  apply bind_ends; [apply getYear_ends | intros year].
  apply bind_ends; [apply getDayInYear_ends | intros d].
  apply bind_ends; [apply month_walk_ends | intros st; discriminate].
Qed.

Lemma getDayInMonth_ends (e : Z) : getDayInMonth e <> OutOfFuel.
Proof.
  unfold getDayInMonth.
  apply bind_ends; [apply getYear_ends | intros year].
  apply bind_ends; [apply getDayInYear_ends | intros d].
  apply bind_ends; [apply month_walk_ends | intros st; discriminate].
Qed.

Lemma getEpocDay_ends (d m y : Z) : getEpocDay d m y <> OutOfFuel.
Proof.
  destruct (getEpocDay_outcome d m y) as [(e & ->) | ->]; discriminate.
Qed.

Lemma getMoonPhase_ends (d m y : Z) : getMoonPhase d m y <> OutOfFuel.
Proof.
  unfold getMoonPhase.
  apply bind_ends; [apply getEpocDay_ends | intros e].
  apply bind_ends;
    [unfold moonDayOf, Py.float, Py.fdiv, Py.fmul; ends | intros moonDay].
  apply bind_ends; [| intros p; apply index_not_OutOfFuel].
  apply phase_walk_fuel;
    [lia | unfold phase_budget; lia | right; vm_compute; reflexivity].
Qed.

Lemma calendar_rows_ends (fuel : nat) :
  forall s e t html,
  (0 < fuel)%nat -> e + 1 - t < Z.of_nat fuel ->
  calendar_rows fuel s e t html <> OutOfFuel.
Proof.
  induction fuel as [| fuel IH]; intros s e t html Hpos Hf; [lia |].
  cbn [calendar_rows]. destruct (Z.leb_spec t e); [| discriminate].
  apply bind_ends; [| intros h; apply IH; lia].
  destruct (t <? s); [discriminate |].
  apply bind_ends; [apply getDayInMonth_ends | intros d; discriminate].
Qed.

Lemma calendar_ends (month year : Z) : calendar month year <> OutOfFuel.
Proof.
  unfold calendar.
  apply bind_ends; [apply getEpocDay_ends | intros start].
  apply bind_ends; [apply index_not_OutOfFuel | intros lastDay].
  apply bind_ends; [apply getEpocDay_ends | intros stop].
  apply bind_ends; [apply index_not_OutOfFuel | intros name].
  apply bind_ends; [| intros h; discriminate].
  apply calendar_rows_ends; unfold rows_budget; lia.
Qed.

(** X20: the loops of the script end on every input, whatever its
    magnitude and whether or not it is a date: [getMonthInYear] and
    [getDayInMonth] test [cal[month]] at most 13 times, [getMoonPhase]
    tests [moonDay] at most 9 times, and [calendar] runs through the epoch
    days up to [epocEndDay]; each call returns or raises. *)
Theorem loops_end (epocDay day month year : Z) :
  getMonthInYear epocDay <> OutOfFuel /\
  getDayInMonth epocDay <> OutOfFuel /\
  getMoonPhase day month year <> OutOfFuel /\
  calendar month year <> OutOfFuel.
Proof.
  split; [apply getMonthInYear_ends |].
  split; [apply getDayInMonth_ends |].
  split; [apply getMoonPhase_ends | apply calendar_ends].
Qed.
